(** * highz-temperature-db: timestamp normalisation and idempotent ingestion

    A shallow embedding of [scripts/utils.py] and
    [scripts/ingest_ibutton_csv.py], followed by the properties of the
    timestamp normaliser and of the per-file ingestion pipeline.

    Conventions of the embedding.
    - A Python [str] is a [string]; every character is read as a code
      point below 256.
    - A Python [int] is a [Z].
    - A [dict] keyed by strings is a [gmap string _].
    - An exception is a value of [exn]; a call that may raise returns a
      [result].
    - The SQLite connection, the file system and the console are explicit
      components of a [world] that is threaded through every call. *)

From Stdlib Require Import ZArith String Ascii List Bool Lia.
From stdpp Require Import base option gmap strings.
Import ListNotations.

Local Open Scope string_scope.
Local Open Scope Z_scope.

(** ** Exceptions and results *)

Inductive exn : Type :=
| ValueError (msg : string)
| KeyError (msg : string)
| OverflowError (msg : string)
| FileNotFoundError (msg : string).

Inductive result (A : Type) : Type :=
| Ok (a : A)
| Raise (e : exn).

Arguments Ok {A} a.
Arguments Raise {A} e.

Definition is_ok {A} (r : result A) : bool :=
  match r with Ok _ => true | Raise _ => false end.

(** ** Python built-ins used by the scripts *)

Module Py.

Definition ord (c : ascii) : Z := Z.of_N (N_of_ascii c).

Definition in_range (lo hi c : ascii) : bool :=
  (ord lo <=? ord c) && (ord c <=? ord hi).

Definition is_digit (c : ascii) : bool := in_range "0" "9" c.

Definition digit_value (c : ascii) : Z := ord c - 48.

(** [str.isspace] on one character, for code points below 256. *)
Definition is_space (c : ascii) : bool :=
  let n := ord c in
  ((9 <=? n) && (n <=? 13)) || ((28 <=? n) && (n <=? 32))
  || (n =? 133) || (n =? 160).

(** ASCII lower-casing, as [str.lower] acts on the letters A-Z. *)
Definition lower_char (c : ascii) : ascii :=
  if in_range "A" "Z" c then ascii_of_N (N_of_ascii c + 32) else c.

Fixpoint lower (s : string) : string :=
  match s with
  | EmptyString => EmptyString
  | String c s' => String (lower_char c) (lower s')
  end.

Definition is_empty (s : string) : bool :=
  match s with EmptyString => true | _ => false end.

(** Truth value of a [str]: [bool(s)]. *)
Definition truthy (s : string) : bool := negb (is_empty s).

(** Truth value of an optional [str] ([None] and [''] are false). *)
Definition truthy_opt (o : option string) : bool :=
  match o with Some s => truthy s | None => false end.

(** [a or b] on optional strings. *)
Definition or_ (a b : option string) : option string :=
  if truthy_opt a then a else b.

Fixpoint lstrip (s : string) : string :=
  match s with
  | String c s' => if is_space c then lstrip s' else s
  | EmptyString => EmptyString
  end.

Fixpoint rstrip (s : string) : string :=
  match s with
  | EmptyString => EmptyString
  | String c s' =>
      let r := rstrip s' in
      if is_empty r && is_space c then EmptyString else String c r
  end.

(** [s.strip()] *)
Definition strip (s : string) : string := rstrip (lstrip s).

(** [s.rstrip(':')] *)
Fixpoint rstrip_char (x : ascii) (s : string) : string :=
  match s with
  | EmptyString => EmptyString
  | String c s' =>
      let r := rstrip_char x s' in
      if is_empty r && Ascii.eqb c x then EmptyString else String c r
  end.

(** Digits of a decimal literal after its first digit; single
    underscores are allowed between digits. *)
Fixpoint int_digits (acc : Z) (after_underscore : bool) (s : string)
  : option Z :=
  match s with
  | EmptyString => if after_underscore then None else Some acc
  | String c s' =>
      if is_digit c then int_digits (acc * 10 + digit_value c) false s'
      else if Ascii.eqb c "_" && negb after_underscore
           then int_digits acc true s'
           else None
  end.

Definition int_unsigned (s : string) : option Z :=
  match s with
  | String c s' => if is_digit c then int_digits (digit_value c) false s'
                   else None
  | EmptyString => None
  end.

(** [int(s)] in base 10: surrounding whitespace is dropped, one sign is
    accepted.  [None] stands for the [ValueError] that [int] raises. *)
Definition int (s : string) : option Z :=
  match strip s with
  | String "+" t => int_unsigned t
  | String "-" t => Z.opp <$> int_unsigned t
  | t => int_unsigned t
  end.

(** [s.split(sep)] for a one-character separator. *)
Fixpoint split_char (sep : ascii) (s : string) : list string :=
  match s with
  | EmptyString => [EmptyString]
  | String c s' =>
      if Ascii.eqb c sep then EmptyString :: split_char sep s'
      else match split_char sep s' with
           | w :: ws => String c w :: ws
           | [] => [String c EmptyString]
           end
  end.

(** [s.split(sep, 1)] for a one-character separator. *)
Fixpoint split_once (sep : ascii) (s : string) : list string :=
  match s with
  | EmptyString => [EmptyString]
  | String c s' =>
      if Ascii.eqb c sep then [EmptyString; s']
      else match split_once sep s' with
           | w :: ws => String c w :: ws
           | [] => [String c EmptyString]
           end
  end.

(** The text before the first occurrence of [sep] in [s], when there is
    one. *)
Fixpoint before (sep s : string) : option string :=
  if String.prefix sep s then Some EmptyString
  else match s with
       | EmptyString => None
       | String c s' => String c <$> before sep s'
       end.

(** [sep in s] *)
Definition contains (sep s : string) : bool :=
  match before sep s with Some _ => true | None => false end.

(** [s.split(sep)[0]] for a non-empty [sep]. *)
Definition split_first (sep s : string) : string :=
  match before sep s with Some p => p | None => s end.

(** [s[1:]] *)
Definition tail (s : string) : string :=
  match s with String _ s' => s' | EmptyString => EmptyString end.

(** [s.rfind(c)], [-1] when [c] does not occur. *)
Fixpoint rfind_from (c : ascii) (s : string) (i : Z) (last : Z) : Z :=
  match s with
  | EmptyString => last
  | String d s' => rfind_from c s' (i + 1) (if Ascii.eqb d c then i else last)
  end.

Definition rfind (c : ascii) (s : string) : Z := rfind_from c s 0 (-1).

Definition len (s : string) : Z := Z.of_nat (String.length s).

(** [s[:i]] for [0 <= i]. *)
Definition take (i : Z) (s : string) : string :=
  String.substring 0 (Z.to_nat i) s.

End Py.

(** ** The [datetime] module: naive date-times and date arithmetic *)

Module Datetime.

(** A naive [datetime] (no [tzinfo]); the formats of the normaliser carry
    no sub-second field, so [microsecond] is always 0 and is left out. *)
Record datetime : Type := mk_datetime {
  year : Z; month : Z; day : Z;
  hour : Z; minute : Z; second : Z
}.

Definition MINYEAR : Z := 1.
Definition MAXYEAR : Z := 9999.
(** [date.max.toordinal()] *)
Definition MAXORDINAL : Z := 3652059.
(** [date(1970, 1, 1).toordinal()] *)
Definition EPOCH_ORDINAL : Z := 719163.

Definition is_leap (y : Z) : bool :=
  (y mod 4 =? 0) && (negb (y mod 100 =? 0) || (y mod 400 =? 0)).

Definition days_in_month (y m : Z) : Z :=
  if m =? 2 then (if is_leap y then 29 else 28)
  else if (m =? 4) || (m =? 6) || (m =? 9) || (m =? 11) then 30
  else 31.

(** Number of days before January 1st of year [y]. *)
Definition days_before_year (y : Z) : Z :=
  let p := y - 1 in p * 365 + p / 4 - p / 100 + p / 400.

(** Number of days in year [y] before the first day of month [m]. *)
Definition days_before_month (y m : Z) : Z :=
  nth (Z.to_nat m)
      [0; 0; 31; 59; 90; 120; 151; 181; 212; 243; 273; 304; 334] 0
  + (if (2 <? m) && is_leap y then 1 else 0).

(** [date(y, m, d).toordinal()]: January 1st of year 1 is day 1. *)
Definition ymd2ord (y m d : Z) : Z :=
  days_before_year y + days_before_month y m + d.

Definition between (lo x hi : Z) : bool := (lo <=? x) && (x <=? hi).

Definition valid (dt : datetime) : bool :=
  between MINYEAR (year dt) MAXYEAR
  && between 1 (month dt) 12
  && between 1 (day dt) (days_in_month (year dt) (month dt))
  && between 0 (hour dt) 23
  && between 0 (minute dt) 59
  && between 0 (second dt) 59.

(** The constructor [datetime(y, m, d, H, M, S)], which checks its
    fields. *)
Definition new (y m d H M S : Z) : result datetime :=
  let dt := mk_datetime y m d H M S in
  if valid dt then Ok dt else Raise (ValueError "field out of range").

Definition toordinal (dt : datetime) : Z :=
  ymd2ord (year dt) (month dt) (day dt).

Definition second_of_day (dt : datetime) : Z :=
  hour dt * 3600 + minute dt * 60 + second dt.

(** Seconds from 0001-01-01 00:00:00 minus one day, the scale on which
    the library adds a [timedelta] to a [datetime]. *)
Definition ordinal_seconds (dt : datetime) : Z :=
  toordinal dt * 86400 + second_of_day dt.

(** Seconds between 1970-01-01 00:00:00 and the wall-clock reading [dt]:
    [dt.replace(tzinfo=timezone.utc).timestamp()] as an integer. *)
Definition naive_seconds (dt : datetime) : Z :=
  (toordinal dt - EPOCH_ORDINAL) * 86400 + second_of_day dt.

(** A [timedelta] is kept as its total number of seconds.
    [timedelta(hours=h, minutes=m)] raises [OverflowError] when the
    normalised day count leaves [-999999999, 999999999]. *)
Definition timedelta (hours minutes : Z) : result Z :=
  let total := hours * 3600 + minutes * 60 in
  if Z.abs (total / 86400) <=? 999999999 then Ok total
  else Raise (OverflowError "days out of range for timedelta").

(** A date-time produced by arithmetic is kept in the normalised form
    the library computes it in: the proleptic ordinal of its day and
    the second within that day. *)
Record instant : Type := mk_instant { ordinal : Z; day_second : Z }.

(** [dt - delta] for a [timedelta] of [delta] seconds.  The library
    forms the day count and raises [OverflowError] when it leaves
    [1, MAXORDINAL]. *)
Definition sub (dt : datetime) (delta : Z) : result instant :=
  let total := ordinal_seconds dt - delta in
  let days := total / 86400 in
  if (0 <? days) && (days <=? MAXORDINAL)
  then Ok (mk_instant days (total mod 86400))
  else Raise (OverflowError "date value out of range").

(** [x.replace(tzinfo=timezone.utc).timestamp()], then [int(...)]: the
    value is a whole number of seconds far below 2^53, so the float
    conversion and the truncation are exact. *)
Definition timestamp_utc (x : instant) : Z :=
  (ordinal x - EPOCH_ORDINAL) * 86400 + day_second x.

End Datetime.

(** ** [datetime.strptime] *)

Module Strptime.
Import Datetime.

(** The directives that occur in the formats of the normaliser. *)
Inductive directive : Type :=
| Dm | Dd | Dy | DY | DI | DH | DM | DS | Dp.

Definition directive_eqb (a b : directive) : bool :=
  match a, b with
  | Dm, Dm | Dd, Dd | Dy, Dy | DY, DY | DI, DI
  | DH, DH | DM, DM | DS, DS | Dp, Dp => true
  | _, _ => false
  end.

Definition directive_of (c : ascii) : option directive :=
  if Ascii.eqb c "m" then Some Dm
  else if Ascii.eqb c "d" then Some Dd
  else if Ascii.eqb c "y" then Some Dy
  else if Ascii.eqb c "Y" then Some DY
  else if Ascii.eqb c "I" then Some DI
  else if Ascii.eqb c "H" then Some DH
  else if Ascii.eqb c "M" then Some DM
  else if Ascii.eqb c "S" then Some DS
  else if Ascii.eqb c "p" then Some Dp
  else None.

(** One element of the regular expression a format is turned into: a
    literal character, a run of white space ([\s+]), or the named group
    of a directive. *)
Inductive item : Type :=
| Lit (c : ascii)
| Ws
| Dir (d : directive).

(** [TimeRE.pattern]: white-space runs of the format become [\s+], a
    [%x] becomes the group of directive [x], anything else stands for
    itself.  [None] is the [KeyError] of an unknown directive. *)
Fixpoint pattern_from (after_space : bool) (fmt : string)
  : option (list item) :=
  match fmt with
  | EmptyString => Some []
  | String c fmt' =>
      if Py.is_space c then
        if after_space then pattern_from true fmt'
        else cons Ws <$> pattern_from true fmt'
      else if Ascii.eqb c "%" then
        match fmt' with
        | EmptyString => None
        | String x fmt'' =>
            match directive_of x with
            | Some d => cons (Dir d) <$> pattern_from false fmt''
            | None => None
            end
        end
      else cons (Lit c) <$> pattern_from false fmt'
  end.

Definition pattern (fmt : string) : option (list item) :=
  pattern_from false fmt.

(** A character class. *)
Definition cls : Type := ascii -> bool.

Definition one (a : ascii) : cls := Ascii.eqb a.
Definition rng (lo hi : ascii) : cls := Py.in_range lo hi.
(** A letter under [re.IGNORECASE]. *)
Definition letter (a : ascii) : cls :=
  fun c => Ascii.eqb (Py.lower_char c) a.

(** The alternatives of each directive's group, in the order the
    regular expression lists them; every alternative is a sequence of
    character classes. *)
Definition alternatives (d : directive) : list (list cls) :=
  match d with
  | Dm | DI => [ [one "1"; rng "0" "2"]; [one "0"; rng "1" "9"];
                 [rng "1" "9"] ]
  | Dd => [ [one "3"; rng "0" "1"]; [rng "1" "2"; Py.is_digit];
            [one "0"; rng "1" "9"]; [rng "1" "9"];
            [one " "; rng "1" "9"] ]
  | Dy => [ [Py.is_digit; Py.is_digit] ]
  | DY => [ [Py.is_digit; Py.is_digit; Py.is_digit; Py.is_digit] ]
  | DH => [ [one "2"; rng "0" "3"]; [rng "0" "1"; Py.is_digit];
            [Py.is_digit] ]
  | DM => [ [rng "0" "5"; Py.is_digit]; [Py.is_digit] ]
  | DS => [ [one "6"; rng "0" "1"]; [rng "0" "5"; Py.is_digit];
            [Py.is_digit] ]
  | Dp => [ [letter "a"; letter "m"]; [letter "p"; letter "m"] ]
  end.

(** Match a sequence of character classes at the head of [s]; returns
    the matched text and what follows it. *)
Fixpoint match_classes (cs : list cls) (s : string)
  : option (string * string) :=
  match cs with
  | [] => Some (EmptyString, s)
  | k :: cs' =>
      match s with
      | String c s' =>
          if k c then
            match match_classes cs' s' with
            | Some (txt, rest) => Some (String c txt, rest)
            | None => None
            end
          else None
      | EmptyString => None
      end
  end.

(** First success of [f] over a list, left to right. *)
Fixpoint first_some {A B} (f : A -> option B) (l : list A) : option B :=
  match l with
  | [] => None
  | a :: l' => match f a with Some b => Some b | None => first_some f l' end
  end.

(** Greedy [\s*] followed by the continuation [k], with backtracking:
    the longest run of white space is tried first. *)
Fixpoint spaces_then {R} (k : string -> option R) (s : string) : option R :=
  match s with
  | String c s' =>
      if Py.is_space c then
        match spaces_then k s' with
        | Some r => Some r
        | None => k s
        end
      else k s
  | EmptyString => k s
  end.

Definition captures : Type := list (directive * string).

(** [re.match] of the compiled pattern: a backtracking match anchored
    at the start of the string, not at its end.  It returns the captured
    groups (last group first) and the unmatched remainder. *)
Fixpoint re_match (items : list item) (s : string) (caps : captures)
  : option (captures * string) :=
  match items with
  | [] => Some (caps, s)
  | Lit c :: items' =>
      match s with
      | String c' s' =>
          if Ascii.eqb (Py.lower_char c') (Py.lower_char c)
          then re_match items' s' caps else None
      | EmptyString => None
      end
  | Ws :: items' =>
      match s with
      | String c' s' =>
          if Py.is_space c'
          then spaces_then (fun r => re_match items' r caps) s'
          else None
      | EmptyString => None
      end
  | Dir d :: items' =>
      first_some
        (fun alt =>
           match match_classes alt s with
           | Some (txt, rest) => re_match items' rest ((d, txt) :: caps)
           | None => None
           end)
        (alternatives d)
  end.

Fixpoint group (d : directive) (caps : captures) : option string :=
  match caps with
  | [] => None
  | (d', txt) :: caps' =>
      if directive_eqb d d' then Some txt else group d caps'
  end.

(** The fields [_strptime] fills in, with its defaults. *)
Record fields : Type := mk_fields {
  f_year : Z; f_month : Z; f_day : Z;
  f_hour : Z; f_minute : Z; f_second : Z
}.

Definition defaults : fields := mk_fields 1900 1 1 0 0 0.

(** The conversion of one captured group.  [all] is the whole set of
    groups: the 12-hour field looks at the AM/PM group. *)
Definition convert (all : captures) (f : fields) (g : directive * string)
  : option fields :=
  let '(d, txt) := g in
  match d with
  | Dy => (fun y => mk_fields (if y <=? 68 then y + 2000 else y + 1900)
                      (f_month f) (f_day f) (f_hour f) (f_minute f)
                      (f_second f)) <$> Py.int txt
  | DY => (fun y => mk_fields y (f_month f) (f_day f) (f_hour f)
                      (f_minute f) (f_second f)) <$> Py.int txt
  | Dm => (fun m => mk_fields (f_year f) m (f_day f) (f_hour f)
                      (f_minute f) (f_second f)) <$> Py.int txt
  | Dd => (fun x => mk_fields (f_year f) (f_month f) x (f_hour f)
                      (f_minute f) (f_second f)) <$> Py.int txt
  | DH => (fun h => mk_fields (f_year f) (f_month f) (f_day f) h
                      (f_minute f) (f_second f)) <$> Py.int txt
  | DI =>
      (fun h =>
         let ampm := Py.lower (default EmptyString (group Dp all)) in
         let h' :=
           if String.eqb ampm "" || String.eqb ampm "am"
           then (if h =? 12 then 0 else h)
           else if String.eqb ampm "pm"
                then (if h =? 12 then h else h + 12)
                else h in
         mk_fields (f_year f) (f_month f) (f_day f) h'
           (f_minute f) (f_second f)) <$> Py.int txt
  | DM => (fun x => mk_fields (f_year f) (f_month f) (f_day f) (f_hour f)
                      x (f_second f)) <$> Py.int txt
  | DS => (fun x => mk_fields (f_year f) (f_month f) (f_day f) (f_hour f)
                      (f_minute f) x) <$> Py.int txt
  | Dp => Some f
  end.

Fixpoint convert_all (all : captures) (gs : captures) (f : fields)
  : option fields :=
  match gs with
  | [] => Some f
  | g :: gs' =>
      match convert all f g with
      | Some f' => convert_all all gs' f'
      | None => None
      end
  end.

(** [datetime.strptime(data, fmt)].  Every failure is a [ValueError]:
    an unknown directive, no match, text left over after the match, or
    fields that do not form a date-time. *)
Definition strptime (data fmt : string) : result datetime :=
  match pattern fmt with
  | None => Raise (ValueError "bad directive in format")
  | Some items =>
      match re_match items data [] with
      | None => Raise (ValueError "time data does not match format")
      | Some (caps, rest) =>
          if Py.is_empty rest then
            match convert_all caps (rev caps) defaults with
            | Some f =>
                Datetime.new (f_year f) (f_month f) (f_day f)
                  (f_hour f) (f_minute f) (f_second f)
            | None => Raise (ValueError "invalid literal for int()")
            end
          else Raise (ValueError "unconverted data remains")
      end
  end.

End Strptime.

(** ** [zoneinfo.ZoneInfo] *)

Module ZoneInfo.

(** A zone as the library loads it from the time-zone database: the
    UTC offset in force before the first transition, and the
    transitions in increasing order of their UTC instant, each with the
    UTC offset in force from that instant on.  Offsets and instants are
    in seconds.  The last offset stays in force after the last
    transition (a zone without a trailing rule string). *)
Record zone : Type := mk_zone {
  utcoff_before : Z;
  transitions : list (Z * Z)
}.

(** [_ts_to_local]: the transition instants as wall-clock seconds, one
    list per value of [fold].  Around a transition from offset [prev]
    to offset [o], readings with [fold=0] switch at the larger offset
    and readings with [fold=1] at the smaller one. *)
Fixpoint trans_local (fold : bool) (prev : Z) (ts : list (Z * Z)) : list Z :=
  match ts with
  | [] => []
  | (t, o) :: ts' =>
      (t + (if fold then Z.min prev o else Z.max prev o))
        :: trans_local fold o ts'
  end.

(** The offset in force after the transitions [ts], starting from
    [prev]. *)
Fixpoint offset_after (prev : Z) (ts : list (Z * Z)) : Z :=
  match ts with
  | [] => prev
  | (_, o) :: ts' => offset_after o ts'
  end.

(** [_find_trans]: the offset of the last transition whose wall-clock
    instant is not after [ts]; the library finds it by bisection
    ([bisect_right]) of the sorted list, here it is found by a scan of
    the same list from the left. *)
Fixpoint find_trans (prev : Z) (trs : list (Z * Z)) (wall : list Z) (ts : Z)
  : Z :=
  match trs, wall with
  | (_, o) :: trs', w :: wall' =>
      if w <=? ts then find_trans o trs' wall' ts else prev
  | _, _ => prev
  end.

(** [tz.utcoffset(dt)] for a date-time whose wall-clock reading is
    [ts] seconds after 1970-01-01 00:00:00. *)
Definition utcoffset (z : zone) (fold : bool) (ts : Z) : Z :=
  find_trans (utcoff_before z) (transitions z)
    (trans_local fold (utcoff_before z) (transitions z)) ts.

(** The offset in force at the UTC instant [u]. *)
Definition utcoffset_at (z : zone) (u : Z) : Z :=
  find_trans (utcoff_before z) (transitions z)
    (map fst (transitions z)) u.

(** [datetime.fromtimestamp(u, tz)] as wall-clock seconds. *)
Definition to_local (z : zone) (u : Z) : Z := u + utcoffset_at z u.

Fixpoint increasing (l : list Z) : bool :=
  match l with
  | x :: ((y :: _) as l') => (x <? y) && increasing l'
  | _ => true
  end.

(** The table of a zone is usable when its transition instants
    increase, on the UTC scale and on the [fold=1] wall-clock scale. *)
Definition well_formed (z : zone) : bool :=
  increasing (map fst (transitions z))
  && increasing (trans_local true (utcoff_before z) (transitions z)).

End ZoneInfo.

(** ** [utils.local_to_utc] *)

Section Normalizer.

(** The time-zone database of the host: [ZoneInfo(name)]. *)
Variable tzdb : string -> option ZoneInfo.zone.

Definition formats : list string :=
  [ "%m/%d/%y %I:%M:%S %p";
    "%m/%d/%Y %I:%M:%S %p";
    "%Y-%m-%d %H:%M:%S";
    "%m/%d/%y %H:%M:%S" ].

(** The loop over the candidate formats: the first format that
    [strptime] accepts wins, a [ValueError] moves on to the next
    format, any other exception leaves the loop. *)
Fixpoint try_formats (local_time_str : string) (fmts : list string)
  : result (option Datetime.datetime) :=
  match fmts with
  | [] => Ok None
  | fmt :: fmts' =>
      match Strptime.strptime local_time_str fmt with
      | Ok dt => Ok (Some dt)
      | Raise (ValueError _) => try_formats local_time_str fmts'
      | Raise e => Raise e
      end
  end.

(** [hours, minutes = map(int, fixed_offset[1:].split(':'))] *)
Definition parse_offset_fields (fixed_offset : string) : result (Z * Z) :=
  match map Py.int (Py.split_char ":" (Py.tail fixed_offset)) with
  | [Some hours; Some minutes] => Ok (hours, minutes)
  | _ => Raise (ValueError "cannot unpack hours and minutes")
  end.

Definition offset_sign (fixed_offset : string) : Z :=
  match fixed_offset with
  | String "+" _ => 1
  | _ => -1
  end.

(** The fixed-offset branch, for a non-empty [fixed_offset]. *)
Definition apply_fixed_offset (dt : Datetime.datetime) (fixed_offset : string)
  : result Z :=
  let sign := offset_sign fixed_offset in
  match parse_offset_fields fixed_offset with
  | Raise e => Raise e
  | Ok (hours, minutes) =>
      match Datetime.timedelta (sign * hours) (sign * minutes) with
      | Raise e => Raise e
      | Ok offset =>
          match Datetime.sub dt offset with
          | Raise e => Raise e
          | Ok utc_dt => Ok (Datetime.timestamp_utc utc_dt)
          end
      end
  end.

(** The time-zone branch: [dt.replace(tzinfo=tz, fold=1).timestamp()]. *)
Definition apply_zone (dt : Datetime.datetime) (timezone_name : string)
  : result Z :=
  match tzdb timezone_name with
  | None => Raise (KeyError "No time zone found with key")
  | Some tz =>
      let ts := Datetime.naive_seconds dt in
      Ok (ts - ZoneInfo.utcoffset tz true ts)
  end.

(** Lines 113-132: what [local_to_utc] does with the parsed
    date-time. *)
Definition to_utc (dt : Datetime.datetime) (timezone_name : string)
    (fixed_offset : option string) : result Z :=
  match fixed_offset with
  | Some off =>
      if Py.truthy off then apply_fixed_offset dt off
      else apply_zone dt timezone_name
  | None => apply_zone dt timezone_name
  end.

Definition local_to_utc (local_time_str timezone_name : string)
    (fixed_offset : option string) : result Z :=
  match try_formats local_time_str formats with
  | Raise e => Raise e
  | Ok None =>
      Raise (ValueError ("Could not parse timestamp: " ++ local_time_str))
  | Ok (Some dt) => to_utc dt timezone_name fixed_offset
  end.

End Normalizer.

(** ** The store *)

Module Store.
Section Tables.

(** The type of a Python [float]; [float(s)] is a parameter of the
    development. *)
Variable float_t : Type.

(** Table [sensors]. *)
Record sensor : Type := mk_sensor {
  sensor_id : Z;
  sensor_type : string;
  part_number : string;
  registration_number : string;
  label : option string
}.

(** Table [deployments]. *)
Record deployment : Type := mk_deployment {
  deployment_id : Z;
  name : string;
  site : string;
  timezone_name : string;
  notes : option string
}.

(** Table [sensor_deployments]. *)
Record sensor_deployment : Type := mk_sensor_deployment {
  sd_sensor_id : Z;
  sd_deployment_id : Z;
  location_notes : option string;
  sd_notes : option string
}.

(** Table [files]; [metadata_json] is kept as the dictionary that
    [json.dumps] serialises. *)
Record file_row : Type := mk_file_row {
  file_id : Z;
  f_deployment_id : Z;
  f_sensor_id : Z;
  path : string;
  sha256 : string;
  metadata_json : gmap string string
}.

(** Table [temperature_readings]. *)
Record reading : Type := mk_reading {
  r_file_id : Z;
  r_deployment_id : Z;
  r_sensor_id : Z;
  time_local_text : string;
  time_utc : Z;
  value_c : float_t;
  quality_flag : Z
}.

Record database : Type := mk_database {
  sensors : list sensor;
  deployments : list deployment;
  sensor_deployments : list sensor_deployment;
  files : list file_row;
  temperature_readings : list reading
}.

(** A [sqlite3.Connection]: the tables as the connection sees them and
    the tables as of the last [commit]. *)
Record connection : Type := mk_connection {
  current : database;
  committed : database
}.

(** One line written to the console. *)
Inductive message : Type :=
| Parsing (file_name : string)
| AlreadyIngested (file_name : string)
| RowWarning (row : Z) (e : exn)
| Ingested (count : Z) (file_name : string)
| NoValidReadings (file_name : string)
| ErrorProcessing (csv_file : string) (e : exn)
| DeploymentBanner (deployment_name : string) (id : Z) (site_name : string)
    (timezone_name : string) (fixed_offset : option string)
| MissingDeploymentOrSite
| IngestionComplete.

Record world : Type := mk_world {
  conn : connection;
  console : list message
}.

(** Computations that read and write the world and may raise; what was
    written before an exception stays written. *)
Definition M (A : Type) : Type := world -> result A * world.

Definition ret {A} (a : A) : M A := fun w => (Ok a, w).

Definition raise {A} (e : exn) : M A := fun w => (Raise e, w).

Definition bind {A B} (m : M A) (k : A -> M B) : M B :=
  fun w =>
    match m w with
    | (Ok a, w') => k a w'
    | (Raise e, w') => (Raise e, w')
    end.

Definition print (msg : message) : M unit :=
  fun w => (Ok tt, mk_world (conn w) (console w ++ [msg])).

Definition get_db : M database := fun w => (Ok (current (conn w)), w).

Definition put_db (d : database) : M unit :=
  fun w => (Ok tt, mk_world (mk_connection d (committed (conn w))) (console w)).

(** [conn.commit()] *)
Definition commit : M unit :=
  fun w =>
    (Ok tt, mk_world (mk_connection (current (conn w)) (current (conn w)))
              (console w)).

(** [cursor.lastrowid] after an insert: one more than the largest key
    of the table. *)
Definition next_id (ids : list Z) : Z := 1 + fold_right Z.max 0 ids.

End Tables.

Arguments mk_world {float_t}.
Arguments mk_connection {float_t}.
Arguments ret {float_t A}.
Arguments raise {float_t A}.
Arguments bind {float_t A B}.
Arguments print {float_t}.
Arguments get_db {float_t}.
Arguments put_db {float_t}.
Arguments commit {float_t}.

End Store.
Import Store.

Notation "'let*' x ':=' m 'in' k" := (bind m (fun x => k))
  (at level 10, x name, m at level 100, k at level 200, only parsing).

(** ** [ingest_ibutton_csv.py] *)

(** What the scripts see of an input file: the rows [csv.reader] yields
    for it (the byte-order mark already removed by the [utf-8-sig]
    codec) and the digest [compute_file_hash] returns for its bytes. *)
Record csv_file : Type := mk_csv_file {
  rows : list (list string);
  sha256_hex : string
}.

(** The per-sensor entry of the deployment metadata document. *)
Record sensor_metadata : Type := mk_sensor_metadata {
  sm_location : option string;
  sm_notes : option string
}.

(** [deployment_metadata.json], as far as the script reads it; the empty
    dictionary is [no_metadata]. *)
Record deployment_metadata : Type := mk_deployment_metadata {
  dm_deployment : option string;
  dm_site : option string;
  dm_timezone : option string;
  dm_timezone_fixed_offset : option string;
  dm_deployment_notes : option string;
  dm_sensors : gmap string sensor_metadata
}.

Definition no_metadata : deployment_metadata :=
  mk_deployment_metadata None None None None None ∅.

(** The parsed command line. *)
Record arguments : Type := mk_arguments {
  arg_deployment : option string;
  arg_site : option string;
  arg_timezone : string;
  arg_notes : option string
}.

(** [argparse]'s default for [--timezone]. *)
Definition default_timezone : string := "America/New_York".

(** [Path(p).name] and [Path(p).stem] for a path with [/] separators. *)
Definition path_name (p : string) : string :=
  List.last (Py.split_char "/" p) EmptyString.

Definition path_stem (p : string) : string :=
  let name := path_name p in
  let i := Py.rfind "." name in
  if (0 <? i) && (i <? Py.len name - 1) then Py.take i name else name.

(** The label taken from the file name, lines 272-277 of
    [ingest_csv_file]. *)
Definition derive_label (filename : string) : option string :=
  if Py.contains "_iButton_" filename || Py.contains "_ibutton_" filename
  then Some (Py.split_first "_ibutton_" (Py.split_first "_iButton_" filename))
  else None.

(** The loop of [parse_ibutton_header] over the rows, [i] being the
    number of the first row of [rs].  It returns the metadata and the
    line of the data header, 0 when there is none. *)
Fixpoint scan_header (i : Z) (rs : list (list string))
    (metadata : gmap string string) : gmap string string * Z :=
  match rs with
  | [] => (metadata, 0)
  | row :: rs' =>
      match row with
      | [] => scan_header (i + 1) rs' metadata
      | c0 :: cs =>
          let first := Py.lower (Py.strip c0) in
          if String.eqb first "date/time" || String.eqb first "date time"
          then (metadata, i)
          else
            match cs with
            | c1 :: _ =>
                scan_header (i + 1) rs'
                  (<[Py.rstrip_char ":" (Py.strip c0) := Py.strip c1]> metadata)
            | [] =>
                match Py.split_once ":" c0 with
                | [k; v] =>
                    scan_header (i + 1) rs'
                      (<[Py.strip k := Py.strip v]> metadata)
                | _ => scan_header (i + 1) rs' metadata
                end
            end
      end
  end.

Definition parse_ibutton_header (csv_path : string) (f : csv_file)
  : result (gmap string string * Z) :=
  let '(metadata, data_start_line) := scan_header 1 (rows f) ∅ in
  if data_start_line =? 0
  then Raise (ValueError ("Could not find data section in " ++ csv_path))
  else Ok (metadata, data_start_line).

(** [metadata.get(k1) or metadata.get(k2) or metadata.get(k3) or ''] *)
Definition first_of (metadata : gmap string string) (k1 k2 k3 : string)
  : string :=
  default EmptyString
    (Py.or_ (metadata !! k1)
       (Py.or_ (metadata !! k2) (Py.or_ (metadata !! k3) (Some EmptyString)))).

Definition part_number_of (metadata : gmap string string) : string :=
  first_of metadata "1-Wire/iButton Part Number" "Part Number" "Part".

Definition registration_number_of (metadata : gmap string string) : string :=
  first_of metadata "1-Wire/iButton Registration Number"
    "Registration Number" "Registration".

(** [deployment_metadata.get('sensors', {}).get(label, {})]; the empty
    dictionary is [None]. *)
Definition sensor_entry (doc : deployment_metadata) (label : option string)
  : option sensor_metadata :=
  match label with
  | Some l => dm_sensors doc !! l
  | None => None
  end.

Section Ingest.

Variable float_t : Type.
(** [float(s)]; [None] stands for its [ValueError]. *)
Variable py_float : string -> option float_t.
Variable tzdb : string -> option ZoneInfo.zone.
(** The input files by path. *)
Variable fs : string -> option csv_file.

Abbreviation database := (database float_t).
Abbreviation world := (world float_t).
Abbreviation reading := (reading float_t).
Abbreviation M := (M float_t).

Definition set_sensors (d : database) (x : list sensor) : database :=
  mk_database float_t x (deployments _ d) (sensor_deployments _ d)
    (files _ d) (temperature_readings _ d).

Definition set_deployments (d : database) (x : list deployment) : database :=
  mk_database float_t (sensors _ d) x (sensor_deployments _ d)
    (files _ d) (temperature_readings _ d).

Definition set_sensor_deployments (d : database)
    (x : list sensor_deployment) : database :=
  mk_database float_t (sensors _ d) (deployments _ d) x
    (files _ d) (temperature_readings _ d).

Definition set_files (d : database) (x : list file_row) : database :=
  mk_database float_t (sensors _ d) (deployments _ d)
    (sensor_deployments _ d) x (temperature_readings _ d).

Definition set_readings (d : database) (x : list reading) : database :=
  mk_database float_t (sensors _ d) (deployments _ d)
    (sensor_deployments _ d) (files _ d) x.

Definition get_or_create_sensor (metadata : gmap string string)
    (label : option string) : M Z :=
  let part_number := part_number_of metadata in
  let registration_number := registration_number_of metadata in
  if Py.is_empty registration_number
  then raise (ValueError "Registration number not found in metadata")
  else
    let* d := get_db in
    match find (fun s => String.eqb (Store.registration_number s)
                               registration_number)
               (sensors _ d) with
    | Some row =>
        let sensor_id := Store.sensor_id row in
        if Py.truthy_opt label && negb (Py.truthy_opt (Store.label row))
        then
          let* _ := put_db (set_sensors d
                   (map (fun s =>
                           if Store.sensor_id s =? sensor_id
                           then mk_sensor (Store.sensor_id s) (sensor_type s)
                                  (Store.part_number s)
                                  (Store.registration_number s) label
                           else s)
                        (sensors _ d))) in
          let* _ := commit in
          ret sensor_id
        else ret sensor_id
    | None =>
        let new_id := next_id (map Store.sensor_id (sensors _ d)) in
        let* _ := put_db (set_sensors d
                 (sensors _ d ++
                  [mk_sensor new_id "ibutton_ds1925" part_number
                     registration_number label])) in
        let* _ := commit in
        ret new_id
    end.

Definition upsert_sensor_deployment (sensor_id deployment_id : Z)
    (location_notes notes : option string) : M unit :=
  let* d := get_db in
  let same (r : sensor_deployment) : bool :=
    (sd_sensor_id r =? sensor_id) && (sd_deployment_id r =? deployment_id) in
  let* _ :=
    match find same (sensor_deployments _ d) with
    | Some _ =>
        put_db (set_sensor_deployments d
          (map (fun r =>
                  if same r
                  then mk_sensor_deployment (sd_sensor_id r)
                         (sd_deployment_id r) location_notes notes
                  else r)
               (sensor_deployments _ d)))
    | None =>
        put_db (set_sensor_deployments d
          (sensor_deployments _ d ++
           [mk_sensor_deployment sensor_id deployment_id location_notes
              notes]))
    end in
  commit.

Definition get_or_create_deployment (name site timezone_name : string)
    (notes : option string) : M Z :=
  let* d := get_db in
  match find (fun r => String.eqb (Store.name r) name) (deployments _ d) with
  | Some row =>
      let deployment_id := Store.deployment_id row in
      if Py.truthy_opt notes
      then
        let* _ := put_db (set_deployments d
                 (map (fun r =>
                         if Store.deployment_id r =? deployment_id
                         then mk_deployment (Store.deployment_id r)
                                (Store.name r) (Store.site r)
                                (Store.timezone_name r) notes
                         else r)
                      (deployments _ d))) in
        let* _ := commit in
        ret deployment_id
      else ret deployment_id
  | None =>
      let new_id := next_id (map Store.deployment_id (deployments _ d)) in
      let* _ := put_db (set_deployments d
               (deployments _ d ++
                [mk_deployment new_id name site timezone_name notes])) in
      let* _ := commit in
      ret new_id
  end.

(** [utils.file_already_ingested] *)
Definition file_already_ingested (sha256 : string) : M bool :=
  let* d := get_db in
  ret (0 <? Z.of_nat
              (length (List.filter
                         (fun r => String.eqb (Store.sha256 r) sha256)
                         (files _ d)))).

(** The [try] block of one data row. *)
Definition convert_row (timezone_name : string) (fixed_offset : option string)
    (time_local_text value_str : string) : result (Z * float_t) :=
  match local_to_utc tzdb time_local_text timezone_name fixed_offset with
  | Raise e => Raise e
  | Ok time_utc =>
      match py_float value_str with
      | None => Raise (ValueError ("could not convert string to float: "
                                     ++ value_str))
      | Some value_c => Ok (time_utc, value_c)
      end
  end.

(** The loop over the rows of the file, [i] being the number of the
    first row of [rs]; it collects the readings and prints a warning
    for every row whose conversion raises. *)
Fixpoint read_rows (i : Z) (rs : list (list string)) (data_start_line : Z)
    (file_id deployment_id sensor_id : Z) (timezone_name : string)
    (fixed_offset : option string) (readings : list reading)
  : M (list reading) :=
  match rs with
  | [] => ret readings
  | row :: rs' =>
      let continue_with acc :=
        read_rows (i + 1) rs' data_start_line file_id deployment_id
          sensor_id timezone_name fixed_offset acc in
      if i <=? data_start_line then continue_with readings
      else
        match row with
        | c0 :: c1 :: c2 :: _ =>
            let time_local_text := Py.strip c0 in
            let value_str := Py.strip c2 in
            if Py.is_empty time_local_text || Py.is_empty value_str
            then continue_with readings
            else
              match convert_row timezone_name fixed_offset time_local_text
                      value_str with
              | Ok (time_utc, value_c) =>
                  continue_with
                    (readings ++
                     [mk_reading float_t file_id deployment_id sensor_id
                        time_local_text time_utc value_c 0])%list
              | Raise e =>
                  let* _ := print (RowWarning i e) in
                  continue_with readings
              end
        | _ => continue_with readings
        end
  end.

Definition ingest_csv_file (csv_path : string) (deployment_id : Z)
    (timezone_name : string) (deployment_metadata : deployment_metadata)
    (fixed_offset : option string) : M unit :=
  match fs csv_path with
  | None => raise (FileNotFoundError ("CSV file not found: " ++ csv_path))
  | Some f =>
      let csv_name := path_name csv_path in
      let* _ := print (Parsing csv_name) in
      match parse_ibutton_header csv_path f with
      | Raise e => raise e
      | Ok (metadata, data_start_line) =>
          let label := derive_label (path_stem csv_path) in
          let sensor_metadata := sensor_entry deployment_metadata label in
          let location_notes := sensor_metadata ≫= sm_location in
          let sensor_notes := sensor_metadata ≫= sm_notes in
          let* sensor_id := get_or_create_sensor metadata label in
          let* _ := upsert_sensor_deployment sensor_id deployment_id
                      location_notes sensor_notes in
          let file_hash := sha256_hex f in
          let* seen := file_already_ingested file_hash in
          if seen then print (AlreadyIngested csv_name)
          else
            let file_metadata :=
              if Py.truthy_opt sensor_notes
              then <["deployment_sensor_notes" :=
                       default EmptyString sensor_notes]> metadata
              else metadata in
            let* d := get_db in
            let file_id := next_id (map Store.file_id (files _ d)) in
            let* _ := put_db (set_files d
                     (files _ d ++
                      [mk_file_row file_id deployment_id sensor_id csv_path
                         file_hash file_metadata])) in
            let* readings :=
              read_rows 1 (rows f) data_start_line file_id deployment_id
                sensor_id timezone_name fixed_offset [] in
            match readings with
            | _ :: _ =>
                let* d' := get_db in
                let* _ := put_db (set_readings d'
                         (temperature_readings _ d' ++ readings)) in
                let* _ := commit in
                print (Ingested (Z.of_nat (length readings)) csv_name)
            | [] => print (NoValidReadings csv_name)
            end
      end
  end.

(** The settings [main] works with, lines 418-429. *)
Record settings : Type := mk_settings {
  deployment_name : option string;
  site_name : option string;
  st_timezone_name : string;
  st_fixed_offset : option string;
  deployment_notes : option string
}.

Definition resolve_settings (args : arguments) (doc : deployment_metadata)
  : settings :=
  mk_settings
    (Py.or_ (arg_deployment args) (dm_deployment doc))
    (Py.or_ (arg_site args) (dm_site doc))
    (default (arg_timezone args)
       (Py.or_ (dm_timezone doc) (Some (arg_timezone args))))
    (dm_timezone_fixed_offset doc)
    (Py.or_ (arg_notes args) (dm_deployment_notes doc)).

(** The loop of [main] over the input files: an exception of one file
    is printed and the loop goes on. *)
Fixpoint ingest_files (csv_files : list string) (deployment_id : Z)
    (timezone_name : string) (doc : deployment_metadata)
    (fixed_offset : option string) : M unit :=
  match csv_files with
  | [] => ret tt
  | csv_file :: rest =>
      fun w =>
        let '(r, w') := ingest_csv_file csv_file deployment_id
                          timezone_name doc fixed_offset w in
        let w'' := match r with
                   | Ok _ => w'
                   | Raise e =>
                       mk_world (conn _ w')
                         (console _ w' ++ [ErrorProcessing csv_file e])
                   end in
        ingest_files rest deployment_id timezone_name doc fixed_offset w''
  end.

(** [main] from the point where the directory has been listed
    ([csv_files], sorted and not empty) and the metadata document
    loaded; [None] is [sys.exit(1)]. *)
Definition main (args : arguments) (csv_files : list string)
    (doc : deployment_metadata) : M (option unit) :=
  let s := resolve_settings args doc in
  if Py.truthy_opt (deployment_name s) && Py.truthy_opt (site_name s)
  then
    let dname := default EmptyString (deployment_name s) in
    let sname := default EmptyString (site_name s) in
    let* deployment_id :=
      get_or_create_deployment dname sname (st_timezone_name s)
        (deployment_notes s) in
    let* _ := print (DeploymentBanner dname deployment_id sname
                       (st_timezone_name s) (st_fixed_offset s)) in
    let* _ := ingest_files csv_files deployment_id (st_timezone_name s) doc
                (st_fixed_offset s) in
    let* _ := print IngestionComplete in
    ret (Some tt)
  else
    let* _ := print MissingDeploymentOrSite in
    ret None.

End Ingest.

Arguments set_sensors {float_t}.
Arguments set_deployments {float_t}.
Arguments set_sensor_deployments {float_t}.
Arguments set_files {float_t}.
Arguments set_readings {float_t}.
Arguments get_or_create_sensor {float_t}.
Arguments upsert_sensor_deployment {float_t}.
Arguments get_or_create_deployment {float_t}.
Arguments file_already_ingested {float_t}.
Arguments convert_row {float_t}.
Arguments read_rows {float_t}.
Arguments ingest_csv_file {float_t}.
Arguments ingest_files {float_t}.
Arguments main {float_t}.


(** ** Notions of the specification *)

(** The value in seconds of a signed offset written [+HH:MM] or [-HH:MM];
    [None] for any other text. *)
Definition signed_offset_seconds (off : string) : option Z :=
  match off with
  | String sg (String h1 (String h2 (String ":" (String m1 (String m2 ""))))) =>
      if Py.is_digit h1 && Py.is_digit h2 && Py.is_digit m1 && Py.is_digit m2
      then
        let v := (10 * Py.digit_value h1 + Py.digit_value h2) * 3600
                 + (10 * Py.digit_value m1 + Py.digit_value m2) * 60 in
        if Ascii.eqb sg "+" then Some v
        else if Ascii.eqb sg "-" then Some (- v)
        else None
      else None
  | _ => None
  end.

(** A file name carries the marker, upper or lower case not told apart. *)
Definition has_marker_ignoring_case (filename : string) : bool :=
  Py.contains "_ibutton_" (Py.lower filename).

(** The fate of one row of the data block. *)
Inductive row_class : Type :=
| Skipped      (* fewer than 3 fields, or an empty time or value *)
| WellFormed   (* the time and the value both convert *)
| Malformed.   (* the time or the value does not convert *)

Section Rows.

Variable float_t : Type.
Variable py_float : string -> option float_t.
Variable tzdb : string -> option ZoneInfo.zone.

Definition classify (timezone_name : string) (fixed_offset : option string)
    (row : list string) : row_class :=
  match row with
  | c0 :: _ :: c2 :: _ =>
      if Py.is_empty (Py.strip c0) || Py.is_empty (Py.strip c2) then Skipped
      else if is_ok (local_to_utc tzdb (Py.strip c0) timezone_name fixed_offset)
              && bool_decide (is_Some (py_float (Py.strip c2)))
           then WellFormed else Malformed
  | _ => Skipped
  end.

(** The reading a well-formed row stands for. *)
Definition reading_of (timezone_name : string) (fixed_offset : option string)
    (file_id deployment_id sensor_id : Z) (row : list string)
  : option (reading float_t) :=
  match row with
  | c0 :: _ :: c2 :: _ =>
      match local_to_utc tzdb (Py.strip c0) timezone_name fixed_offset,
            py_float (Py.strip c2) with
      | Ok time_utc, Some value_c =>
          Some (mk_reading float_t file_id deployment_id sensor_id
                  (Py.strip c0) time_utc value_c 0)
      | _, _ => None
      end
  | _ => None
  end.

End Rows.

Arguments classify {float_t}.
Arguments reading_of {float_t}.

Definition is_row_warning (m : message) : bool :=
  match m with RowWarning _ _ => true | _ => false end.

(** What a step leaves alone. *)
Definition same_console {float_t} (w w' : world float_t) : Prop :=
  console _ w' = console _ w.

Definition same_files_and_readings {float_t} (w w' : world float_t) : Prop :=
  files _ (current _ (conn _ w')) = files _ (current _ (conn _ w))
  /\ temperature_readings _ (current _ (conn _ w'))
     = temperature_readings _ (current _ (conn _ w)).

Definition row_class_eqb (a b : row_class) : bool :=
  match a, b with
  | Skipped, Skipped | WellFormed, WellFormed | Malformed, Malformed => true
  | _, _ => false
  end.

(** The number of rows of one class among the rows of a data block. *)
Definition count_class {float_t} (py_float : string -> option float_t)
    (tzdb : string -> option ZoneInfo.zone) (timezone_name : string)
    (fixed_offset : option string) (c : row_class)
    (rs : list (list string)) : nat :=
  length (List.filter
            (fun r => row_class_eqb
                        (classify py_float tzdb timezone_name fixed_offset r) c)
            rs).

(** The uniqueness constraints the scripts rely on: keys and natural
    keys of the tables do not repeat. *)
Definition unique_keys {float_t} (d : database float_t) : Prop :=
  NoDup (map sensor_id (sensors _ d))
  /\ NoDup (map registration_number (sensors _ d))
  /\ NoDup (map deployment_id (deployments _ d))
  /\ NoDup (map name (deployments _ d))
  /\ NoDup (map (fun r => (sd_sensor_id r, sd_deployment_id r))
              (sensor_deployments _ d))
  /\ NoDup (map file_id (files _ d))
  /\ NoDup (map sha256 (files _ d)).

(** A reading as [ingest_csv_file] builds it for a file. *)
Definition reading_belongs_to {float_t}
    (tzdb : string -> option ZoneInfo.zone) (timezone_name : string)
    (fixed_offset : option string) (file_id deployment_id sensor_id : Z)
    (r : reading float_t) : Prop :=
  r_file_id _ r = file_id
  /\ r_deployment_id _ r = deployment_id
  /\ r_sensor_id _ r = sensor_id
  /\ quality_flag _ r = 0
  /\ local_to_utc tzdb (time_local_text _ r) timezone_name fixed_offset
     = Ok (time_utc _ r).

(** The row that opens the data section: its first field, stripped and
    in lower case, is [date/time] or [date time]. *)
Definition is_data_header (row : list string) : bool :=
  match row with
  | c0 :: _ =>
      let first := Py.lower (Py.strip c0) in
      String.eqb first "date/time" || String.eqb first "date time"
  | [] => false
  end.

(** The key and value a row of the header block stands for, if any. *)
Definition header_entry (row : list string) : option (string * string) :=
  match row with
  | c0 :: c1 :: _ => Some (Py.rstrip_char ":" (Py.strip c0), Py.strip c1)
  | [c0] =>
      match Py.split_once ":" c0 with
      | [k; v] => Some (Py.strip k, Py.strip v)
      | _ => None
      end
  | [] => None
  end.

(** The metadata after one more row of the header block. *)
Definition add_entry (metadata : gmap string string) (row : list string)
  : gmap string string :=
  match header_entry row with
  | Some (k, v) => <[k := v]> metadata
  | None => metadata
  end.

(** Every reference from one table to another points at a row that is
    there. *)
Definition references_resolve {float_t} (d : database float_t) : Prop :=
  let sensor_ids := map sensor_id (sensors _ d) in
  let deployment_ids := map deployment_id (deployments _ d) in
  let file_ids := map file_id (files _ d) in
  Forall (fun r => In (sd_sensor_id r) sensor_ids
                   /\ In (sd_deployment_id r) deployment_ids)
    (sensor_deployments _ d)
  /\ Forall (fun r => In (f_sensor_id r) sensor_ids
                      /\ In (f_deployment_id r) deployment_ids)
       (files _ d)
  /\ Forall (fun r => In (r_file_id _ r) file_ids
                      /\ In (r_sensor_id _ r) sensor_ids
                      /\ In (r_deployment_id _ r) deployment_ids)
       (temperature_readings _ d).

(** [conn.close()] at the end of one run and [get_db_connection] at the
    start of the next: what the run has not committed is gone. *)
Definition reopen {float_t} (w : world float_t) : world float_t :=
  mk_world (mk_connection (committed _ (conn _ w)) (committed _ (conn _ w)))
    (console _ w).

(** One run of the script from the listed directory on: [main] inside
    its [try], then the [finally] clause. *)
Definition run_script {float_t} (py_float : string -> option float_t)
    (tzdb : string -> option ZoneInfo.zone) (fs : string -> option csv_file)
    (args : arguments) (csv_files : list string) (doc : deployment_metadata)
    (w : world float_t) : result (option unit) * world float_t :=
  let '(r, w') := main py_float tzdb fs args csv_files doc w in
  (r, reopen w').

(** A file that a further attempt under the same settings cannot get a
    reading from: it is missing, or has no data section or no
    registration number, or its hash is among [stored], or none of its
    rows converts. *)
Definition settled {float_t} (py_float : string -> option float_t)
    (tzdb : string -> option ZoneInfo.zone) (fs : string -> option csv_file)
    (timezone_name : string) (fixed_offset : option string)
    (stored : list file_row) (csv_path : string) : Prop :=
  match fs csv_path with
  | None => True
  | Some f =>
      match parse_ibutton_header csv_path f with
      | Raise _ => True
      | Ok (metadata, data_start_line) =>
          Py.is_empty (registration_number_of metadata) = true
          \/ (exists row, In row stored /\ sha256 row = sha256_hex f)
          \/ count_class py_float tzdb timezone_name fixed_offset WellFormed
               (drop (Z.to_nat data_start_line) (rows f)) = 0%nat
      end
  end.

(** What is committed is on the connection, the readings all of them. *)
Definition nothing_lost {float_t} (w : world float_t) : Prop :=
  (forall row, In row (files _ (committed _ (conn _ w))) ->
               In row (files _ (current _ (conn _ w))))
  /\ temperature_readings _ (committed _ (conn _ w))
     = temperature_readings _ (current _ (conn _ w)).

(** What may happen to the store between two calls: further files,
    further runs of [main], and the end of a run, which closes the
    connection, followed by the start of the next. *)
Inductive operation : Type :=
| Ingest (csv_path : string) (deployment_id : Z) (timezone_name : string)
    (doc : deployment_metadata) (fixed_offset : option string)
| Main (args : arguments) (csv_files : list string)
    (doc : deployment_metadata)
| Reopen.

Definition is_reopen (op : operation) : bool :=
  match op with Reopen => true | _ => false end.

Definition perform {float_t} (py_float : string -> option float_t)
    (tzdb : string -> option ZoneInfo.zone) (fs : string -> option csv_file)
    (w : world float_t) (op : operation) : world float_t :=
  match op with
  | Ingest csv_path deployment_id timezone_name doc fixed_offset =>
      snd (ingest_csv_file py_float tzdb fs csv_path deployment_id
             timezone_name doc fixed_offset w)
  | Main args csv_files doc => snd (main py_float tzdb fs args csv_files doc w)
  | Reopen => reopen w
  end.

Definition perform_all {float_t} (py_float : string -> option float_t)
    (tzdb : string -> option ZoneInfo.zone) (fs : string -> option csv_file)
    (ops : list operation) (w : world float_t) : world float_t :=
  fold_left (perform py_float tzdb fs) ops w.

(** Which of the candidate formats [strptime] accepts for a string. *)
Definition accepted_by (s : string) : list bool :=
  map (fun fmt => is_ok (Strptime.strptime s fmt)) formats.

(** ** Sample data *)

(** A three-transition excerpt of America/New_York (2024-2025) and a
    database that knows only this zone. *)
Definition new_york : ZoneInfo.zone :=
  ZoneInfo.mk_zone (-18000)
    [ (1710054000, -14400); (1730613600, -18000); (1741503600, -14400) ].

Definition sample_tzdb (name : string) : option ZoneInfo.zone :=
  if String.eqb name "America/New_York" then Some new_york else None.

(** A stand-in for [float] on plain decimal literals: an optional sign,
    digits, and an optional fraction; the value is kept as the signed
    integer of all digits with the number of fraction digits. *)
Fixpoint decimal_digits (acc : Z) (frac : option nat) (s : string)
  : option (Z * nat) :=
  match s with
  | EmptyString => Some (acc, default 0%nat frac)
  | String c s' =>
      if Py.is_digit c
      then decimal_digits (acc * 10 + Py.digit_value c) (S <$> frac) s'
      else if Ascii.eqb c "."
           then match frac with
                | None => decimal_digits acc (Some 0%nat) s'
                | Some _ => None
                end
           else None
  end.

Definition sample_float (s : string) : option (Z * nat) :=
  match Py.strip s with
  | EmptyString => None
  | String "-" t =>
      if Py.is_empty t then None
      else (fun '(m, e) => (- m, e)) <$> decimal_digits 0 None t
  | t => decimal_digits 0 None t
  end.

(** The file of the end-to-end scenario, with one more row whose value
    is not a number. *)
Definition antenna_csv : csv_file :=
  mk_csv_file
    [ ["Part Number"; "DS1925L"];
      ["Registration Number"; "ABC123"];
      ["Date/Time"; "Unit"; "Value"];
      ["12/31/24 11:59:59 PM"; "C"; "-5.25"];
      ["12/31/24 11:59:59 PM"; "C"; "n/a"];
      ["01/01/25 12:00:00 AM"; "C"; "-5.10"] ]
    "9f2c".

(** A file without any registration-number key. *)
Definition anonymous_csv : csv_file :=
  mk_csv_file
    [ ["Part Number"; "DS1925L"];
      ["Date/Time"; "Unit"; "Value"];
      ["12/31/24 11:59:59 PM"; "C"; "-5.25"] ]
    "77aa".

Definition sample_fs (csv_path : string) : option csv_file :=
  if String.eqb csv_path "data/Antenna_iButton_Dec2025.csv"
  then Some antenna_csv
  else if String.eqb csv_path "data/copy_of_antenna.csv"
  then Some antenna_csv
  else if String.eqb csv_path "data/anonymous.csv"
  then Some anonymous_csv
  else None.

Definition sample_doc : deployment_metadata :=
  mk_deployment_metadata (Some "Test_2025") (Some "TestSite")
    (Some "America/New_York") None None
    {[ "Antenna" := mk_sensor_metadata (Some "mast") (Some "north side") ]}.

Definition empty_database : database (Z * nat) :=
  mk_database _ [] [] [] [] [].

Definition empty_world : world (Z * nat) :=
  mk_world (mk_connection empty_database empty_database) [].

Definition antenna_metadata : gmap string string :=
  <["Registration Number" := "ABC123"]> (<["Part Number" := "DS1925L"]> ∅).

(** The world after the first ingestion of the sample file. *)
Definition after_first_ingest : world (Z * nat) :=
  snd (ingest_csv_file sample_float sample_tzdb sample_fs
         "data/Antenna_iButton_Dec2025.csv" 1 "America/New_York" sample_doc
         None empty_world).

(** The world after [main]'s call of [get_or_create_deployment] on an
    empty store. *)
Definition after_deployment : world (Z * nat) :=
  snd (get_or_create_deployment "Test_2025" "TestSite" "America/New_York"
         None empty_world).

(** The world after the ingestion of the sample file under a name
    without the label marker: the sensor is stored without a label. *)
Definition after_unlabelled_ingest : world (Z * nat) :=
  snd (ingest_csv_file sample_float sample_tzdb sample_fs
         "data/copy_of_antenna.csv" 1 "America/New_York" sample_doc
         None empty_world).

(** ** Properties of the timestamp normaliser *)

Section NormalizerFacts.

Variable tzdb : string -> option ZoneInfo.zone.

Lemma div_mod_recompose (a e : Z) :
  (a / 86400 - e) * 86400 + a mod 86400 = a - e * 86400.
Proof.
  pose proof (Z.div_mod a 86400 ltac:(lia)). lia.
Qed.

Lemma naive_seconds_ordinal (dt : Datetime.datetime) :
  Datetime.naive_seconds dt
  = Datetime.ordinal_seconds dt - Datetime.EPOCH_ORDINAL * 86400.
Proof.
  unfold Datetime.naive_seconds, Datetime.ordinal_seconds. lia.
Qed.

(** The value the fixed-offset branch returns, when it returns. *)
Lemma apply_fixed_offset_value (dt : Datetime.datetime) (off : string) (t : Z) :
  apply_fixed_offset dt off = Ok t ->
  exists hours minutes,
    parse_offset_fields off = Ok (hours, minutes)
    /\ t = Datetime.naive_seconds dt
           - offset_sign off * (hours * 3600 + minutes * 60).
Proof.
  unfold apply_fixed_offset.
  destruct (parse_offset_fields off) as [[h m]|e]; [|discriminate].
  unfold Datetime.timedelta.
  destruct (Z.abs _ <=? 999999999); [|discriminate].
  unfold Datetime.sub.
  destruct (_ && _); [|discriminate].
  unfold Datetime.timestamp_utc; cbn [Datetime.ordinal Datetime.day_second].
  intros [= <-]. exists h, m. split; [reflexivity|].
  rewrite div_mod_recompose, naive_seconds_ordinal. lia.
Qed.

(** *** Fixed offsets *)

Lemma is_digit_inv (c : ascii) :
  Py.is_digit c = true ->
  In c ["0"; "1"; "2"; "3"; "4"; "5"; "6"; "7"; "8"; "9"]%char.
Proof.
  destruct c as [[] [] [] [] [] [] [] []]; vm_compute; intros H;
    try discriminate H; tauto.
Qed.

Lemma int_two_digits (a b : ascii) :
  Py.is_digit a = true -> Py.is_digit b = true ->
  Py.int (String a (String b ""))
  = Some (10 * Py.digit_value a + Py.digit_value b).
Proof.
  intros Ha Hb. apply is_digit_inv in Ha. apply is_digit_inv in Hb.
  cbn [In] in Ha, Hb.
  repeat (destruct Ha as [<-|Ha]; [|]); try contradiction;
    repeat (destruct Hb as [<-|Hb]; [|]); try contradiction;
    vm_compute; reflexivity.
Qed.

Lemma digit_not_colon (c : ascii) :
  Py.is_digit c = true -> Ascii.eqb c ":" = false.
Proof.
  intros H. apply is_digit_inv in H. cbn [In] in H.
  repeat (destruct H as [<-|H]; [reflexivity|]). contradiction.
Qed.

Lemma offset_sign_not_plus (c : ascii) (rest : string) :
  c <> "+"%char -> offset_sign (String c rest) = -1.
Proof.
  intros H. destruct c as [[] [] [] [] [] [] [] []];
    try reflexivity; congruence.
Qed.

(** What [parse_offset_fields] reads from a signed offset. *)
Lemma parse_signed_offset (off : string) (o : Z) :
  signed_offset_seconds off = Some o ->
  exists hours minutes,
    parse_offset_fields off = Ok (hours, minutes)
    /\ 0 <= hours <= 99 /\ 0 <= minutes <= 99
    /\ offset_sign off * (hours * 3600 + minutes * 60) = o.
Proof.
  unfold signed_offset_seconds.
  destruct off as [|sg [|h1 [|h2 [|c [|m1 [|m2 [|x r]]]]]]]; try discriminate;
    try (destruct c as [[] [] [] [] [] [] [] []]; discriminate).
  destruct (Ascii.eqb_spec c ":") as [->|Hc].
  2:{ destruct c as [[] [] [] [] [] [] [] []]; try discriminate; congruence. }
  destruct (Py.is_digit h1) eqn:H1; [|discriminate].
  destruct (Py.is_digit h2) eqn:H2; [|discriminate].
  destruct (Py.is_digit m1) eqn:M1; [|discriminate].
  destruct (Py.is_digit m2) eqn:M2; [|discriminate].
  cbn [andb]. intros Hsg.
  exists (10 * Py.digit_value h1 + Py.digit_value h2),
         (10 * Py.digit_value m1 + Py.digit_value m2).
  assert (Hp : parse_offset_fields
                 (String sg (String h1 (String h2 (String ":"
                    (String m1 (String m2 ""))))))
               = Ok (10 * Py.digit_value h1 + Py.digit_value h2,
                     10 * Py.digit_value m1 + Py.digit_value m2)).
  { unfold parse_offset_fields. cbn [Py.tail Py.split_char].
    rewrite (digit_not_colon h1 H1), (digit_not_colon h2 H2).
    rewrite Ascii.eqb_refl.
    rewrite (digit_not_colon m1 M1), (digit_not_colon m2 M2).
    cbn [map]. rewrite (int_two_digits h1 h2 H1 H2).
    rewrite (int_two_digits m1 m2 M1 M2). reflexivity. }
  assert (Hr : forall d, Py.is_digit d = true -> 0 <= Py.digit_value d <= 9).
  { intros d Hd. apply is_digit_inv in Hd. cbn [In] in Hd.
    repeat (destruct Hd as [<-|Hd]; [vm_compute; split; discriminate|]).
    contradiction. }
  pose proof (Hr h1 H1). pose proof (Hr h2 H2).
  pose proof (Hr m1 M1). pose proof (Hr m2 M2).
  split; [exact Hp|]. split; [lia|]. split; [lia|].
  destruct (Ascii.eqb_spec sg "+") as [->|Hplus].
  - injection Hsg as <-. cbn [offset_sign]. lia.
  - destruct (Ascii.eqb_spec sg "-") as [->|Hminus]; [|discriminate].
    injection Hsg as <-. cbn [offset_sign]. lia.
Qed.

Lemma strptime_valid (s fmt : string) (dt : Datetime.datetime) :
  Strptime.strptime s fmt = Ok dt -> Datetime.valid dt = true.
Proof.
  unfold Strptime.strptime.
  destruct (Strptime.pattern fmt) as [items|]; [|discriminate].
  destruct (Strptime.re_match items s []) as [[caps rest]|]; [|discriminate].
  destruct (Py.is_empty rest); [|discriminate].
  destruct (Strptime.convert_all caps (rev caps) Strptime.defaults) as [f|];
    [|discriminate].
  unfold Datetime.new.
  destruct (Datetime.valid _) eqn:Hv; [|discriminate].
  intros [= <-]. exact Hv.
Qed.

(** [strptime] raises nothing but [ValueError]. *)
Lemma strptime_raises_value_error (s fmt : string) (e : exn) :
  Strptime.strptime s fmt = Raise e -> exists msg, e = ValueError msg.
Proof.
  unfold Strptime.strptime, Datetime.new.
  repeat match goal with
         | |- context [match ?x with _ => _ end] => destruct x
         end;
    intros [= <-]; eauto.
Qed.

Lemma try_formats_some (s : string) (fmts : list string)
    (dt : Datetime.datetime) :
  try_formats s fmts = Ok (Some dt) ->
  exists fmt, In fmt fmts /\ Strptime.strptime s fmt = Ok dt.
Proof.
  induction fmts as [|fmt fmts IH]; cbn [try_formats]; [discriminate|].
  destruct (Strptime.strptime s fmt) as [dt'|e] eqn:E.
  - intros [= <-]. exists fmt. split; [left; reflexivity|exact E].
  - destruct e; try discriminate.
    intros H. destruct (IH H) as (f & Hin & Hf).
    exists f. split; [right; exact Hin|exact Hf].
Qed.

Lemma parsed_is_valid (s : string) (dt : Datetime.datetime) :
  try_formats s formats = Ok (Some dt) -> Datetime.valid dt = true.
Proof.
  intros H. destruct (try_formats_some _ _ _ H) as (f & _ & Hf).
  exact (strptime_valid _ _ _ Hf).
Qed.

Lemma days_before_year_bounds (y : Z) :
  2 <= y <= 9998 -> 365 <= Datetime.days_before_year y <= 3651329.
Proof.
  intros Hy. unfold Datetime.days_before_year. cbv zeta.
  Z.div_mod_to_equations. lia.
Qed.

Lemma valid_fields (dt : Datetime.datetime) :
  Datetime.valid dt = true ->
  1 <= Datetime.year dt <= 9999
  /\ 1 <= Datetime.month dt <= 12
  /\ 1 <= Datetime.day dt
       <= Datetime.days_in_month (Datetime.year dt) (Datetime.month dt)
  /\ 0 <= Datetime.hour dt <= 23
  /\ 0 <= Datetime.minute dt <= 59
  /\ 0 <= Datetime.second dt <= 59.
Proof.
  unfold Datetime.valid, Datetime.between, Datetime.MINYEAR, Datetime.MAXYEAR.
  rewrite !andb_true_iff, !Z.leb_le. tauto.
Qed.

(** *** A wall-clock reading is determined by its seconds *)

Lemma days_before_year_step (y : Z) :
  Datetime.days_before_year (y + 1)
  = Datetime.days_before_year y + (if Datetime.is_leap y then 366 else 365).
Proof.
  unfold Datetime.days_before_year, Datetime.is_leap. cbv zeta.
  replace (y + 1 - 1) with y by lia.
  destruct (Z.eqb_spec (y mod 4) 0) as [H4|H4];
    destruct (Z.eqb_spec (y mod 100) 0) as [H100|H100];
    destruct (Z.eqb_spec (y mod 400) 0) as [H400|H400];
    cbn [negb andb orb]; Z.div_mod_to_equations; lia.
Qed.

Lemma days_before_year_mono (y y' : Z) :
  y <= y' -> Datetime.days_before_year y <= Datetime.days_before_year y'.
Proof.
  intros H. unfold Datetime.days_before_year. cbv zeta.
  Z.div_mod_to_equations. lia.
Qed.

Lemma day_of_year_bounds (y m d : Z) :
  1 <= m <= 12 -> 1 <= d <= Datetime.days_in_month y m ->
  1 <= Datetime.days_before_month y m + d
    <= (if Datetime.is_leap y then 366 else 365).
Proof.
  intros Hm Hd.
  assert (Hc : m = 1 \/ m = 2 \/ m = 3 \/ m = 4 \/ m = 5 \/ m = 6 \/ m = 7
               \/ m = 8 \/ m = 9 \/ m = 10 \/ m = 11 \/ m = 12) by lia.
  unfold Datetime.days_before_month, Datetime.days_in_month in *.
  destruct (Datetime.is_leap y);
    repeat (destruct Hc as [->|Hc]; [cbv -[Z.add Z.le Z.lt] in *; lia|]);
    subst m; cbv -[Z.add Z.le Z.lt] in *; lia.
Qed.

Lemma day_of_year_inj (y m d m' d' : Z) :
  1 <= m <= 12 -> 1 <= d <= Datetime.days_in_month y m ->
  1 <= m' <= 12 -> 1 <= d' <= Datetime.days_in_month y m' ->
  Datetime.days_before_month y m + d = Datetime.days_before_month y m' + d' ->
  m = m' /\ d = d'.
Proof.
  intros Hm Hd Hm' Hd' Heq.
  assert (Hc : m = 1 \/ m = 2 \/ m = 3 \/ m = 4 \/ m = 5 \/ m = 6 \/ m = 7
               \/ m = 8 \/ m = 9 \/ m = 10 \/ m = 11 \/ m = 12) by lia.
  assert (Hc' : m' = 1 \/ m' = 2 \/ m' = 3 \/ m' = 4 \/ m' = 5 \/ m' = 6
                \/ m' = 7 \/ m' = 8 \/ m' = 9 \/ m' = 10 \/ m' = 11
                \/ m' = 12) by lia.
  unfold Datetime.days_before_month, Datetime.days_in_month in *.
  destruct (Datetime.is_leap y);
    repeat (destruct Hc as [->|Hc]);
    try subst m;
    repeat (destruct Hc' as [->|Hc']);
    try subst m';
    cbv -[Z.add Z.le Z.lt] in *; lia.
Qed.

Lemma toordinal_inj (dt1 dt2 : Datetime.datetime) :
  Datetime.valid dt1 = true -> Datetime.valid dt2 = true ->
  Datetime.toordinal dt1 = Datetime.toordinal dt2 ->
  Datetime.year dt1 = Datetime.year dt2
  /\ Datetime.month dt1 = Datetime.month dt2
  /\ Datetime.day dt1 = Datetime.day dt2.
Proof.
  intros V1 V2. apply valid_fields in V1, V2.
  destruct V1 as (Hy1 & Hm1 & Hd1 & _). destruct V2 as (Hy2 & Hm2 & Hd2 & _).
  unfold Datetime.toordinal, Datetime.ymd2ord. intros Heq.
  pose proof (day_of_year_bounds _ _ _ Hm1 Hd1) as B1.
  pose proof (day_of_year_bounds _ _ _ Hm2 Hd2) as B2.
  pose proof (days_before_year_step (Datetime.year dt1)) as S1.
  pose proof (days_before_year_step (Datetime.year dt2)) as S2.
  assert (Hy : Datetime.year dt1 = Datetime.year dt2).
  { destruct (Z.lt_trichotomy (Datetime.year dt1) (Datetime.year dt2))
      as [Hlt|[Heq'|Hgt]]; [|exact Heq'|].
    - pose proof (days_before_year_mono (Datetime.year dt1 + 1)
                    (Datetime.year dt2) ltac:(lia)). lia.
    - pose proof (days_before_year_mono (Datetime.year dt2 + 1)
                    (Datetime.year dt1) ltac:(lia)). lia. }
  split; [exact Hy|].
  rewrite Hy in *.
  apply (day_of_year_inj (Datetime.year dt2)); try assumption. lia.
Qed.

Lemma naive_seconds_inj (dt1 dt2 : Datetime.datetime) :
  Datetime.valid dt1 = true -> Datetime.valid dt2 = true ->
  Datetime.naive_seconds dt1 = Datetime.naive_seconds dt2 ->
  dt1 = dt2.
Proof.
  intros V1 V2 Heq.
  pose proof (valid_fields _ V1) as (_ & _ & _ & Hh1 & Hmi1 & Hs1).
  pose proof (valid_fields _ V2) as (_ & _ & _ & Hh2 & Hmi2 & Hs2).
  unfold Datetime.naive_seconds, Datetime.second_of_day in Heq.
  assert (Hord : Datetime.toordinal dt1 = Datetime.toordinal dt2) by lia.
  destruct (toordinal_inj dt1 dt2 V1 V2 Hord) as (Hy & Hm & Hd).
  assert (Hh : Datetime.hour dt1 = Datetime.hour dt2) by lia.
  assert (Hmi : Datetime.minute dt1 = Datetime.minute dt2) by lia.
  assert (Hs : Datetime.second dt1 = Datetime.second dt2) by lia.
  destruct dt1, dt2. cbn in *. congruence.
Qed.

Lemma ordinal_seconds_bounds (dt : Datetime.datetime) :
  Datetime.valid dt = true -> 2 <= Datetime.year dt <= 9998 ->
  366 * 86400 <= Datetime.ordinal_seconds dt < 3651696 * 86400.
Proof.
  intros Hv Hy. apply valid_fields in Hv.
  destruct Hv as (_ & Hm & Hd & Hh & Hmi & Hs).
  pose proof (days_before_year_bounds _ Hy).
  pose proof (day_of_year_bounds _ _ _ Hm Hd) as Hdoy.
  destruct (Datetime.is_leap (Datetime.year dt)).
  all: unfold Datetime.ordinal_seconds, Datetime.toordinal, Datetime.ymd2ord,
    Datetime.second_of_day; lia.
Qed.

(** C6: in fixed-offset mode, with an offset written [+HH:MM] or
    [-HH:MM], the epoch seconds [local_to_utc] returns, shifted back by
    the offset, are the epoch seconds of the naive local time that was
    parsed, and of no other date-time; and the call does return for
    every year from 2 to 9998. *)
Theorem fixed_offset_round_trip
    (s tz off : string) (dt : Datetime.datetime) (o : Z) :
  try_formats s formats = Ok (Some dt) ->
  signed_offset_seconds off = Some o ->
  (forall t, local_to_utc tzdb s tz (Some off) = Ok t ->
             t + o = Datetime.naive_seconds dt
             /\ forall dt', Datetime.valid dt' = true ->
                            Datetime.naive_seconds dt' = t + o -> dt' = dt)
  /\ (2 <= Datetime.year dt <= 9998 ->
      exists t, local_to_utc tzdb s tz (Some off) = Ok t).
Proof.
  intros Hparse Hoff.
  assert (Hne : Py.truthy off = true).
  { destruct off; [discriminate Hoff|reflexivity]. }
  unfold local_to_utc, to_utc. rewrite Hparse, Hne.
  destruct (parse_signed_offset _ _ Hoff) as (h & m & Hp & Hh & Hm & Ho).
  split.
  - intros t Ht. apply apply_fixed_offset_value in Ht.
    destruct Ht as (h' & m' & Hp' & ->).
    rewrite Hp in Hp'. injection Hp' as <- <-.
    assert (Hback : Datetime.naive_seconds dt
                      - offset_sign off * (h * 3600 + m * 60) + o
                    = Datetime.naive_seconds dt) by lia.
    split; [exact Hback|].
    intros dt' Hv' Hs'. rewrite Hback in Hs'.
    exact (naive_seconds_inj dt' dt Hv' (parsed_is_valid _ _ Hparse) Hs').
  - intros Hy.
    pose proof (ordinal_seconds_bounds dt (parsed_is_valid _ _ Hparse) Hy) as Hb.
    unfold apply_fixed_offset. rewrite Hp.
    assert (Hsign : offset_sign off = 1 \/ offset_sign off = -1).
    { unfold offset_sign. destruct off as [|c r]; [right; reflexivity|].
      destruct c as [[] [] [] [] [] [] [] []]; auto. }
    set (sg := offset_sign off) in *.
    unfold Datetime.timedelta.
    assert (Hsmall : -362340 <= sg * h * 3600 + sg * m * 60 <= 362340).
    { destruct Hsign as [-> | ->]; lia. }
    assert (Hdays : Z.abs ((sg * h * 3600 + sg * m * 60) / 86400) <= 999999999).
    { Z.div_mod_to_equations. lia. }
    apply Z.leb_le in Hdays. rewrite Hdays.
    unfold Datetime.sub, Datetime.MAXORDINAL.
    set (total := Datetime.ordinal_seconds dt - (sg * h * 3600 + sg * m * 60)).
    assert (Hd : 0 < total / 86400 <= 3652059).
    { subst total. Z.div_mod_to_equations. lia. }
    destruct Hd as [Hd1 Hd2].
    apply Z.ltb_lt in Hd1. apply Z.leb_le in Hd2. rewrite Hd1, Hd2.
    cbn [andb]. eexists. reflexivity.
Qed.

Lemma int_one_digit (a : ascii) :
  Py.is_digit a = true -> Py.int (String a "") = Some (Py.digit_value a).
Proof.
  intros Ha. apply is_digit_inv in Ha. cbn [In] in Ha.
  repeat (destruct Ha as [<-|Ha]; [vm_compute; reflexivity|]). contradiction.
Qed.

Lemma int_zero_digit (a : ascii) :
  Py.is_digit a = true ->
  Py.int (String "0" (String a "")) = Some (Py.digit_value a).
Proof.
  intros Ha. apply is_digit_inv in Ha. cbn [In] in Ha.
  repeat (destruct Ha as [<-|Ha]; [vm_compute; reflexivity|]). contradiction.
Qed.

Lemma fixed_offset_fields (s tz off1 off2 : string) :
  Py.truthy off1 = true -> Py.truthy off2 = true ->
  offset_sign off1 = offset_sign off2 ->
  parse_offset_fields off1 = parse_offset_fields off2 ->
  local_to_utc tzdb s tz (Some off1) = local_to_utc tzdb s tz (Some off2).
Proof.
  intros H1 H2 Hs Hp. unfold local_to_utc, to_utc. rewrite H1, H2.
  destruct (try_formats s formats) as [[dt|]|e]; try reflexivity.
  unfold apply_fixed_offset. rewrite Hs, Hp. reflexivity.
Qed.

(** C9: a non-empty fixed offset whose first character is not [+] gets
    the sign -1 and loses that character, whatever it is: the call
    gives what it gives for the offset with [-] in its place, and the
    local time is moved by the hours and minutes read after the first
    character.  An unsigned [HH:MM] is therefore read as [-0H:MM]: as
    [-HH:MM] when its first digit is 0 (["04:00"] gives what ["-04:00"]
    gives), by one digit of hours only otherwise; and an offset whose
    second character is the colon raises. *)
Theorem offset_without_plus_is_negative
    (s tz : string) (c : ascii) (rest : string) :
  c <> "+"%char ->
  offset_sign (String c rest) = -1
  /\ local_to_utc tzdb s tz (Some (String c rest))
     = local_to_utc tzdb s tz (Some (String "-" rest))
  /\ (forall dt hours minutes t,
        try_formats s formats = Ok (Some dt) ->
        parse_offset_fields (String c rest) = Ok (hours, minutes) ->
        local_to_utc tzdb s tz (Some (String c rest)) = Ok t ->
        t = Datetime.naive_seconds dt + (hours * 3600 + minutes * 60))
  /\ (forall d h m1 m2 : ascii,
        Py.is_digit d = true -> Py.is_digit h = true ->
        Py.is_digit m1 = true -> Py.is_digit m2 = true ->
        let unsigned := String d (String h (String ":" (String m1 (String m2 "")))) in
        let read_as :=
          String "-" (String "0" (String h (String ":"
            (String m1 (String m2 ""))))) in
        local_to_utc tzdb s tz (Some unsigned)
        = local_to_utc tzdb s tz (Some read_as)
        /\ (d = "0"%char ->
            local_to_utc tzdb s tz (Some unsigned)
            = local_to_utc tzdb s tz (Some (String "-" unsigned)))
        /\ forall dt t,
             try_formats s formats = Ok (Some dt) ->
             local_to_utc tzdb s tz (Some unsigned) = Ok t ->
             t = Datetime.naive_seconds dt
                 + (Py.digit_value h * 3600
                    + (10 * Py.digit_value m1 + Py.digit_value m2) * 60))
  /\ (forall tail : string,
        is_ok (local_to_utc tzdb s tz (Some (String c (String ":" tail))))
        = false).
Proof.
  intros Hc. pose proof (offset_sign_not_plus c rest Hc) as Hs.
  assert (Hshift : forall off dt hours minutes t,
             Py.truthy off = true ->
             offset_sign off = -1 ->
             try_formats s formats = Ok (Some dt) ->
             parse_offset_fields off = Ok (hours, minutes) ->
             local_to_utc tzdb s tz (Some off) = Ok t ->
             t = Datetime.naive_seconds dt + (hours * 3600 + minutes * 60)).
  { intros off dt h m t Hne Hsg Hparse Hp Ht.
    unfold local_to_utc, to_utc in Ht. rewrite Hparse, Hne in Ht.
    apply apply_fixed_offset_value in Ht.
    destruct Ht as (h' & m' & Hp' & ->).
    rewrite Hp in Hp'. injection Hp' as <- <-. rewrite Hsg. lia. }
  split; [exact Hs|]. split; [|split; [|split]].
  - apply fixed_offset_fields; try reflexivity. exact Hs.
  - intros dt h m t. apply Hshift; [reflexivity|exact Hs].
  - intros d h m1 m2 Hd Hh Hm1 Hm2 unsigned read_as.
    assert (Hsd : offset_sign unsigned = -1).
    { apply offset_sign_not_plus. intros ->. vm_compute in Hd.
      discriminate Hd. }
    assert (Hfields : parse_offset_fields unsigned
                      = Ok (Py.digit_value h,
                            10 * Py.digit_value m1 + Py.digit_value m2)).
    { unfold parse_offset_fields, unsigned. cbn [Py.tail Py.split_char].
      rewrite (digit_not_colon h Hh), Ascii.eqb_refl.
      rewrite (digit_not_colon m1 Hm1), (digit_not_colon m2 Hm2).
      cbn [map]. rewrite (int_one_digit h Hh), (int_two_digits m1 m2 Hm1 Hm2).
      reflexivity. }
    assert (Hfields' : parse_offset_fields read_as
                       = Ok (Py.digit_value h,
                             10 * Py.digit_value m1 + Py.digit_value m2)).
    { unfold parse_offset_fields, read_as. cbn [Py.tail Py.split_char].
      change (Ascii.eqb "0" ":") with false. cbv iota.
      rewrite (digit_not_colon h Hh), Ascii.eqb_refl.
      rewrite (digit_not_colon m1 Hm1), (digit_not_colon m2 Hm2).
      cbn [map]. rewrite (int_zero_digit h Hh), (int_two_digits m1 m2 Hm1 Hm2).
      reflexivity. }
    assert (Heq : local_to_utc tzdb s tz (Some unsigned)
                  = local_to_utc tzdb s tz (Some read_as)).
    { apply fixed_offset_fields; try reflexivity.
      - rewrite Hsd. reflexivity.
      - rewrite Hfields, Hfields'. reflexivity. }
    split; [exact Heq|]. split.
    + intros ->. exact Heq.
    + intros dt t Hparse Ht.
      exact (Hshift unsigned dt _ _ t eq_refl Hsd Hparse Hfields Ht).
  - intros tail. unfold local_to_utc, to_utc. cbn [Py.truthy Py.is_empty negb].
    destruct (try_formats s formats) as [[dt|]|e]; reflexivity.
Qed.

(** *** The candidate formats *)

Lemma try_formats_first (s : string) (fmts : list string) :
  forall (i : nat) (fmt : string) (dt : Datetime.datetime),
    fmts !! i = Some fmt ->
    Strptime.strptime s fmt = Ok dt ->
    (forall (j : nat) (fmt' : string),
        (j < i)%nat -> fmts !! j = Some fmt' ->
        is_ok (Strptime.strptime s fmt') = false) ->
    try_formats s fmts = Ok (Some dt).
Proof.
  induction fmts as [|f fmts IH]; intros i fmt dt Hi Hok Hbefore.
  - discriminate Hi.
  - destruct i as [|i]; cbn [try_formats].
    + injection Hi as ->. rewrite Hok. reflexivity.
    + pose proof (Hbefore 0%nat f ltac:(lia) eq_refl) as Hf.
      destruct (Strptime.strptime s f) as [x|e] eqn:E; [discriminate Hf|].
      destruct (strptime_raises_value_error _ _ _ E) as [msg ->].
      apply (IH i fmt dt Hi Hok).
      intros j fmt' Hj Hl. apply (Hbefore (S j) fmt'); [lia|exact Hl].
Qed.

Lemma try_formats_none (s : string) (fmts : list string) :
  (forall fmt, In fmt fmts -> is_ok (Strptime.strptime s fmt) = false) ->
  try_formats s fmts = Ok None.
Proof.
  induction fmts as [|f fmts IH]; intros H; cbn [try_formats]; [reflexivity|].
  pose proof (H f (or_introl eq_refl)) as Hf.
  destruct (Strptime.strptime s f) as [x|e] eqn:E; [discriminate Hf|].
  destruct (strptime_raises_value_error _ _ _ E) as [msg ->].
  apply IH. intros fmt Hin. apply H. right. exact Hin.
Qed.

Lemma strptime_consumes_all (s fmt : string) (dt : Datetime.datetime) :
  Strptime.strptime s fmt = Ok dt ->
  exists items caps,
    Strptime.pattern fmt = Some items
    /\ Strptime.re_match items s [] = Some (caps, "").
Proof.
  unfold Strptime.strptime.
  destruct (Strptime.pattern fmt) as [items|]; [|discriminate].
  destruct (Strptime.re_match items s []) as [[caps rest]|] eqn:E;
    [|discriminate].
  destruct rest; [|discriminate].
  intros _. exists items, caps. split; [reflexivity|exact E].
Qed.

(** C5: [local_to_utc] goes through the four formats in the order
    12-hour with 2-digit year, 12-hour with 4-digit year, ISO 24-hour,
    24-hour with 2-digit year; the first format that [strptime] accepts
    decides the result, a format is accepted only when its match ends at
    the end of the string, and when no format is accepted the call
    raises the "Could not parse timestamp" [ValueError]. *)
Theorem formats_tried_in_order (s tz : string) (off : option string) :
  formats = [ "%m/%d/%y %I:%M:%S %p"; "%m/%d/%Y %I:%M:%S %p";
              "%Y-%m-%d %H:%M:%S"; "%m/%d/%y %H:%M:%S" ]
  /\ (forall (i : nat) (fmt : string) (dt : Datetime.datetime),
        formats !! i = Some fmt ->
        Strptime.strptime s fmt = Ok dt ->
        (forall (j : nat) (fmt' : string),
            (j < i)%nat -> formats !! j = Some fmt' ->
            is_ok (Strptime.strptime s fmt') = false) ->
        local_to_utc tzdb s tz off = to_utc tzdb dt tz off)
  /\ (forall (fmt : string) (dt : Datetime.datetime),
        Strptime.strptime s fmt = Ok dt ->
        exists items caps,
          Strptime.pattern fmt = Some items
          /\ Strptime.re_match items s [] = Some (caps, ""))
  /\ ((forall fmt, In fmt formats ->
                   is_ok (Strptime.strptime s fmt) = false) ->
      local_to_utc tzdb s tz off
      = Raise (ValueError ("Could not parse timestamp: " ++ s))).
Proof.
  split; [reflexivity|]. split; [|split].
  - intros i fmt dt Hi Hok Hbefore. unfold local_to_utc.
    rewrite (try_formats_first s formats i fmt dt Hi Hok Hbefore).
    reflexivity.
  - intros fmt dt. apply strptime_consumes_all.
  - intros Hnone. unfold local_to_utc.
    rewrite (try_formats_none s formats Hnone). reflexivity.
Qed.

(** *** Time zones *)

Lemma trans_local_app (fold : bool) (prev : Z) (pre rest : list (Z * Z)) :
  ZoneInfo.trans_local fold prev (pre ++ rest)
  = (ZoneInfo.trans_local fold prev pre
     ++ ZoneInfo.trans_local fold (ZoneInfo.offset_after prev pre) rest)%list.
Proof.
  revert prev. induction pre as [|[t o] pre IH]; intros prev; cbn.
  - reflexivity.
  - rewrite IH. reflexivity.
Qed.

Lemma find_trans_local_skip (fold : bool) (ts : Z) (pre rest : list (Z * Z)) :
  forall prev,
    Forall (fun w => w <= ts) (ZoneInfo.trans_local fold prev pre) ->
    ZoneInfo.find_trans prev (pre ++ rest)
      (ZoneInfo.trans_local fold prev (pre ++ rest)) ts
    = ZoneInfo.find_trans (ZoneInfo.offset_after prev pre) rest
        (ZoneInfo.trans_local fold (ZoneInfo.offset_after prev pre) rest) ts.
Proof.
  induction pre as [|[t o] pre IH]; intros prev H; cbn.
  - reflexivity.
  - cbn in H. inversion H as [|? ? Hle Hrest]; subst.
    apply Z.leb_le in Hle. rewrite Hle. apply IH. exact Hrest.
Qed.

Lemma find_trans_utc_skip (u : Z) (pre rest : list (Z * Z)) :
  forall prev,
    Forall (fun w => w <= u) (map fst pre) ->
    ZoneInfo.find_trans prev (pre ++ rest) (map fst (pre ++ rest)) u
    = ZoneInfo.find_trans (ZoneInfo.offset_after prev pre) rest
        (map fst rest) u.
Proof.
  induction pre as [|[t o] pre IH]; intros prev H; cbn.
  - reflexivity.
  - cbn in H. inversion H as [|? ? Hle Hrest]; subst.
    apply Z.leb_le in Hle. rewrite Hle. apply IH. exact Hrest.
Qed.

Lemma increasing_cons (x : Z) (l : list Z) :
  ZoneInfo.increasing (x :: l) = true ->
  ZoneInfo.increasing l = true /\ Forall (fun w => x < w) l.
Proof.
  revert x. induction l as [|y l IH]; intros x H.
  - split; [reflexivity|constructor].
  - cbn [ZoneInfo.increasing] in H. apply andb_true_iff in H.
    destruct H as [Hxy Hl]. apply Z.ltb_lt in Hxy.
    split; [exact Hl|]. constructor; [exact Hxy|].
    destruct (IH y Hl) as [_ Hall].
    eapply Forall_impl; [exact Hall|]. cbn. intros; lia.
Qed.

Lemma increasing_before (l1 l2 : list Z) (x : Z) :
  ZoneInfo.increasing (l1 ++ x :: l2) = true ->
  Forall (fun w => w < x) l1.
Proof.
  induction l1 as [|y l1 IH]; intros H; [constructor|].
  change ((y :: l1) ++ x :: l2)%list with (y :: (l1 ++ x :: l2))%list in H.
  apply increasing_cons in H. destruct H as [Hinc Hall].
  constructor.
  - rewrite Forall_app in Hall. destruct Hall as [_ Hx].
    inversion Hx; subst. assumption.
  - apply IH. exact Hinc.
Qed.

(** C1: without a fixed offset ([None] or the empty string), a local
    time inside the hour that a fall-back transition of the zone repeats
    is resolved with the offset in force after the transition: the
    result is the second occurrence of that wall-clock reading, at or
    after the transition, and not the first one, which lies before it. *)
Theorem fall_back_resolves_to_second_occurrence
    (s name : string) (fixed_offset : option string) (z : ZoneInfo.zone)
    (dt : Datetime.datetime) (pre post : list (Z * Z)) (T b : Z) :
  try_formats s formats = Ok (Some dt) ->
  Py.truthy_opt fixed_offset = false ->
  tzdb name = Some z ->
  ZoneInfo.well_formed z = true ->
  ZoneInfo.transitions z = (pre ++ (T, b) :: post)%list ->
  b < ZoneInfo.offset_after (ZoneInfo.utcoff_before z) pre ->
  T + b <= Datetime.naive_seconds dt
        < T + ZoneInfo.offset_after (ZoneInfo.utcoff_before z) pre ->
  (forall t' o' post',
      post = (t', o') :: post' ->
      T + ZoneInfo.offset_after (ZoneInfo.utcoff_before z) pre
      <= t' + Z.min b o') ->
  local_to_utc tzdb s name fixed_offset = Ok (Datetime.naive_seconds dt - b)
  /\ T <= Datetime.naive_seconds dt - b
  /\ Datetime.naive_seconds dt
       - ZoneInfo.offset_after (ZoneInfo.utcoff_before z) pre < T
  /\ ZoneInfo.to_local z (Datetime.naive_seconds dt - b)
     = Datetime.naive_seconds dt.
Proof.
  intros Hparse Hnone Htz Hwf Htrans Hfall HL Hnext.
  set (L := Datetime.naive_seconds dt) in *.
  set (a := ZoneInfo.offset_after (ZoneInfo.utcoff_before z) pre) in *.
  unfold ZoneInfo.well_formed in Hwf. apply andb_true_iff in Hwf.
  destruct Hwf as [Hutc Hwall].
  rewrite Htrans in Hutc, Hwall.
  rewrite trans_local_app in Hwall. fold a in Hwall.
  cbn [ZoneInfo.trans_local] in Hwall.
  rewrite map_app in Hutc. cbn [map fst] in Hutc.
  apply increasing_before in Hwall. apply increasing_before in Hutc.
  assert (Hoff : ZoneInfo.utcoffset z true L = b).
  { unfold ZoneInfo.utcoffset. rewrite Htrans.
    rewrite find_trans_local_skip.
    2:{ eapply Forall_impl; [exact Hwall|]. cbv beta. intros; lia. }
    fold a. cbn [ZoneInfo.trans_local ZoneInfo.find_trans].
    assert (H1 : (T + Z.min a b <=? L) = true) by (apply Z.leb_le; lia).
    rewrite H1. destruct post as [|[t' o'] post']; [reflexivity|].
    cbn [ZoneInfo.trans_local ZoneInfo.find_trans].
    pose proof (Hnext t' o' post' eq_refl).
    assert (H2 : (t' + Z.min b o' <=? L) = false) by (apply Z.leb_gt; lia).
    rewrite H2. reflexivity. }
  split; [|split; [lia|split; [lia|]]].
  - assert (Hzone : to_utc tzdb dt name fixed_offset = apply_zone tzdb dt name).
    { unfold to_utc. destruct fixed_offset as [off|]; [|reflexivity].
      cbn [Py.truthy_opt] in Hnone. rewrite Hnone. reflexivity. }
    unfold local_to_utc. rewrite Hparse, Hzone. unfold apply_zone.
    rewrite Htz. fold L. rewrite Hoff. reflexivity.
  - unfold ZoneInfo.to_local, ZoneInfo.utcoffset_at. rewrite Htrans.
    rewrite find_trans_utc_skip.
    2:{ eapply Forall_impl; [exact Hutc|]. cbv beta. intros; lia. }
    fold a. cbn [map fst ZoneInfo.find_trans].
    assert (H1 : (T <=? L - b) = true) by (apply Z.leb_le; lia).
    rewrite H1. destruct post as [|[t' o'] post'];
      cbn [map fst ZoneInfo.find_trans]; [lia|].
    pose proof (Hnext t' o' post' eq_refl).
    assert (H2 : (t' <=? L - b) = false) by (apply Z.leb_gt; lia).
    rewrite H2. lia.
Qed.

(** C10: with a non-empty fixed offset the result of [local_to_utc], and
    so the conversion of every data row, is the same whatever time-zone
    name is passed: the zone is never looked up. *)
Theorem fixed_offset_ignores_timezone
    (s tz1 tz2 off : string) :
  Py.truthy off = true ->
  local_to_utc tzdb s tz1 (Some off) = local_to_utc tzdb s tz2 (Some off)
  /\ forall (float_t : Type) (py_float : string -> option float_t) (v : string),
       convert_row py_float tzdb tz1 (Some off) s v
       = convert_row py_float tzdb tz2 (Some off) s v.
Proof.
  intros Hoff.
  assert (H : local_to_utc tzdb s tz1 (Some off)
              = local_to_utc tzdb s tz2 (Some off)).
  { unfold local_to_utc, to_utc. rewrite Hoff. reflexivity. }
  split; [exact H|].
  intros F pf v. unfold convert_row. rewrite H. reflexivity.
Qed.

End NormalizerFacts.

Lemma fixed_offset_ignores_timezone_witness :
  Py.truthy "-04:00" = true
  /\ local_to_utc sample_tzdb "12/31/24 11:59:59 PM" "America/New_York"
       (Some "-04:00")
     = local_to_utc sample_tzdb "12/31/24 11:59:59 PM" "Asia/Tokyo"
         (Some "-04:00").
Proof.
  split; [reflexivity|].
  apply (fixed_offset_ignores_timezone sample_tzdb "12/31/24 11:59:59 PM"
           "America/New_York" "Asia/Tokyo" "-04:00").
  reflexivity.
Defined.

(** 2024-11-03 01:30:00 occurs twice in New York; the normaliser answers
    06:30:00 UTC, the reading under standard time. *)
Lemma fall_back_resolves_to_second_occurrence_witness :
  let dt := Datetime.mk_datetime 2024 11 3 1 30 0 in
  try_formats "11/03/24 01:30:00 AM" formats = Ok (Some dt)
  /\ Py.truthy_opt None = false
  /\ sample_tzdb "America/New_York" = Some new_york
  /\ ZoneInfo.well_formed new_york = true
  /\ -18000 < -14400
  /\ 1730613600 + -18000 <= Datetime.naive_seconds dt < 1730613600 + -14400
  /\ local_to_utc sample_tzdb "11/03/24 01:30:00 AM" "America/New_York" None
     = Ok 1730615400
  /\ ZoneInfo.to_local new_york 1730615400 = Datetime.naive_seconds dt.
Proof.
  intros dt.
  assert (Hparse : try_formats "11/03/24 01:30:00 AM" formats = Ok (Some dt))
    by reflexivity.
  assert (Hfall : -18000 < -14400) by reflexivity.
  assert (HL : 1730613600 + -18000 <= Datetime.naive_seconds dt
               < 1730613600 + -14400) by (vm_compute; split; congruence).
  assert (Hnext : forall t' o' post',
             [(1741503600, -14400)] = (t', o') :: post' ->
             1730613600 + -14400 <= t' + Z.min (-18000) o').
  { intros t' o' post' [= <- <- <-]. vm_compute. congruence. }
  destruct (fall_back_resolves_to_second_occurrence sample_tzdb
              "11/03/24 01:30:00 AM" "America/New_York" None new_york dt
              [(1710054000, -14400)] [(1741503600, -14400)]
              1730613600 (-18000)
              Hparse eq_refl eq_refl eq_refl eq_refl Hfall HL Hnext)
    as (Hres & _ & _ & Hloc).
  split; [exact Hparse|]. split; [reflexivity|]. split; [reflexivity|].
  split; [reflexivity|]. split; [exact Hfall|]. split; [exact HL|].
  split; [exact Hres|exact Hloc].
Defined.

Lemma formats_tried_in_order_witness :
  accepted_by "12/31/24 11:59:59 PM" = [true; false; false; false]
  /\ accepted_by "12/31/2024 11:59:59 PM" = [false; true; false; false]
  /\ accepted_by "2024-12-31 23:59:59" = [false; false; true; false]
  /\ accepted_by "12/31/24 23:59:59" = [false; false; false; true]
  /\ Strptime.strptime "2024-12-31 23:59:59" "%m/%d/%y %I:%M:%S %p"
    = Raise (ValueError "time data does not match format")
  /\ Strptime.strptime "2024-12-31 23:59:59" "%m/%d/%Y %I:%M:%S %p"
    = Raise (ValueError "time data does not match format")
  /\ Strptime.strptime "2024-12-31 23:59:59" "%Y-%m-%d %H:%M:%S"
    = Ok (Datetime.mk_datetime 2024 12 31 23 59 59)
  /\ local_to_utc sample_tzdb "2024-12-31 23:59:59" "America/New_York" None
     = Ok 1735707599
  /\ local_to_utc sample_tzdb "31.12.2024" "America/New_York" None
     = Raise (ValueError "Could not parse timestamp: 31.12.2024").
Proof.
  do 4 (split; [reflexivity|]).
  split; [reflexivity|]. split; [reflexivity|]. split; [reflexivity|].
  destruct (formats_tried_in_order sample_tzdb "2024-12-31 23:59:59"
              "America/New_York" None) as (_ & Hfirst & _ & _).
  destruct (formats_tried_in_order sample_tzdb "31.12.2024"
              "America/New_York" None) as (_ & _ & _ & Hnone).
  split.
  - rewrite (Hfirst 2%nat "%Y-%m-%d %H:%M:%S"
               (Datetime.mk_datetime 2024 12 31 23 59 59) eq_refl eq_refl).
    + reflexivity.
    + intros j fmt' Hj Hl.
      destruct j as [|[|j]]; [injection Hl as <-; reflexivity
                             |injection Hl as <-; reflexivity|lia].
  - apply Hnone. intros fmt Hin. cbn in Hin.
    destruct Hin as [<-|[<-|[<-|[<-|[]]]]]; reflexivity.
Defined.

Lemma fixed_offset_round_trip_witness :
  let dt := Datetime.mk_datetime 2024 12 31 23 59 59 in
  try_formats "12/31/24 11:59:59 PM" formats = Ok (Some dt)
  /\ signed_offset_seconds "-04:00" = Some (-14400)
  /\ local_to_utc sample_tzdb "12/31/24 11:59:59 PM" "America/New_York"
       (Some "-04:00") = Ok 1735703999
  /\ 1735703999 + -14400 = Datetime.naive_seconds dt.
Proof.
  intros dt.
  split; [reflexivity|]. split; [reflexivity|]. split; [reflexivity|].
  destruct (fixed_offset_round_trip sample_tzdb "12/31/24 11:59:59 PM"
              "America/New_York" "-04:00" dt (-14400) eq_refl eq_refl)
    as [Hback _].
  apply (Hback 1735703999). reflexivity.
Defined.

Lemma offset_without_plus_is_negative_witness :
  "0"%char <> "+"%char
  /\ local_to_utc sample_tzdb "12/31/24 11:59:59 PM" "America/New_York"
       (Some "04:00")
     = local_to_utc sample_tzdb "12/31/24 11:59:59 PM" "America/New_York"
         (Some "-04:00")
  /\ local_to_utc sample_tzdb "12/31/24 11:59:59 PM" "America/New_York"
       (Some "04:00") = Ok (1735689599 + 4 * 3600).
Proof.
  assert (Hc : "0"%char <> "+"%char) by discriminate.
  destruct (offset_without_plus_is_negative sample_tzdb
              "12/31/24 11:59:59 PM" "America/New_York" "0" "4:00" Hc)
    as (_ & _ & _ & Hunsigned & _).
  destruct (Hunsigned "0"%char "4"%char "0"%char "0"%char
              eq_refl eq_refl eq_refl eq_refl) as (_ & Hsame & _).
  split; [exact Hc|]. split; [exact (Hsame eq_refl)|].
  reflexivity.
Defined.

(** C9 as stated fails: an unsigned offset is not read as its negative; ["14:00"] moves
    the local time by 4 hours where ["-14:00"] moves it by 14, ["5:30"]
    raises where ["-5:30"] converts, and ["--4:00"], whose first character
    is not [+] either, moves the local time backward. *)
Lemma unsigned_offset_loses_its_first_character :
  let naive := Datetime.naive_seconds
                 (Datetime.mk_datetime 2024 12 31 23 59 59) in
  let convert off :=
    local_to_utc sample_tzdb "12/31/24 11:59:59 PM" "America/New_York"
      (Some off) in
  convert "14:00" = Ok (naive + 4 * 3600)
  /\ convert "-14:00" = Ok (naive + 14 * 3600)
  /\ convert "14:00" <> convert "-14:00"
  /\ convert "5:30" = Raise (ValueError "cannot unpack hours and minutes")
  /\ convert "-5:30" = Ok (naive + (5 * 3600 + 30 * 60))
  /\ convert "--4:00" = Ok (naive - 4 * 3600).
Proof.
  cbv zeta. split; [reflexivity|]. split; [reflexivity|].
  split; [vm_compute; discriminate|]. split; [reflexivity|].
  split; reflexivity.
Qed.

(** ** The label taken from the file name *)

Lemma string_app_assoc (a b c : string) : a ++ b ++ c = (a ++ b) ++ c.
Proof.
  induction a as [|x a IH]; [reflexivity|].
  change (String x (a ++ b ++ c) = String x ((a ++ b) ++ c)).
  rewrite IH. reflexivity.
Qed.

Lemma prefix_split (sep s : string) :
  String.prefix sep s = true -> exists r, s = sep ++ r.
Proof.
  revert s. induction sep as [|a sep IH]; intros s H.
  - exists s. reflexivity.
  - destruct s as [|b s]; [discriminate H|]. cbn in H.
    destruct (ascii_dec a b) as [->|]; [|discriminate H].
    destruct (IH s H) as [r ->]. exists r. reflexivity.
Qed.

Lemma prefix_app (sep a b : string) :
  String.prefix sep a = true -> String.prefix sep (a ++ b) = true.
Proof.
  revert a. induction sep as [|c sep IH]; intros a H.
  { destruct (a ++ b); reflexivity. }
  destruct a as [|d a]; [discriminate H|].
  change (String d a ++ b) with (String d (a ++ b)).
  cbn [String.prefix] in *.
  destruct (ascii_dec c d); [|discriminate H]. apply IH. exact H.
Qed.

Lemma before_split (sep s p : string) :
  Py.before sep s = Some p -> exists r, s = p ++ sep ++ r.
Proof.
  revert p. induction s as [|c s IH]; intros p H.
  - destruct sep; [|discriminate H]. injection H as <-.
    exists "". reflexivity.
  - cbn [Py.before] in H.
    destruct (String.prefix sep (String c s)) eqn:E.
    + injection H as <-. destruct (prefix_split _ _ E) as [r Hr].
      exists r. exact Hr.
    + destruct (Py.before sep s) as [p'|] eqn:E'; [|discriminate H].
      injection H as <-. destruct (IH p' eq_refl) as [r ->].
      exists r. reflexivity.
Qed.

Lemma contains_app (sep a b : string) :
  Py.contains sep a = true -> Py.contains sep (a ++ b) = true.
Proof.
  unfold Py.contains. induction a as [|c a IH]; intros H.
  - destruct sep; [|discriminate H]. cbn [append].
    destruct b; reflexivity.
  - cbn [Py.before] in H.
    change (String c a ++ b) with (String c (a ++ b)). cbn [Py.before].
    destruct (String.prefix sep (String c a)) eqn:E.
    + apply (prefix_app _ _ b) in E.
      change (String c a ++ b) with (String c (a ++ b)) in E. rewrite E.
      reflexivity.
    + destruct (String.prefix sep (String c (a ++ b))); [reflexivity|].
      destruct (Py.before sep a) as [p|]; [|discriminate H].
      specialize (IH eq_refl).
      destruct (Py.before sep (a ++ b)); [reflexivity|discriminate IH].
Qed.

(** The text before the first occurrence of a non-empty separator does
    not contain the separator. *)
Lemma before_free (sep s p : string) :
  sep <> "" -> Py.before sep s = Some p -> Py.contains sep p = false.
Proof.
  intros Hne. unfold Py.contains. revert p.
  induction s as [|c s IH]; intros p H.
  - destruct sep; [congruence|discriminate H].
  - cbn [Py.before] in H.
    destruct (String.prefix sep (String c s)) eqn:E.
    + injection H as <-. destruct sep as [|x sep]; [congruence|reflexivity].
    + destruct (Py.before sep s) as [p'|] eqn:E'; [|discriminate H].
      injection H as <-. cbn [Py.before].
      destruct (String.prefix sep (String c p')) eqn:E2.
      * destruct (before_split _ _ _ E') as [r ->].
        apply (prefix_app _ _ (sep ++ r)) in E2.
        change (String c p' ++ sep ++ r) with (String c (p' ++ sep ++ r))
          in E2.
        congruence.
      * specialize (IH p' eq_refl).
        destruct (Py.before sep p'); [discriminate IH|reflexivity].
Qed.

Lemma split_first_free (sep s : string) :
  sep <> "" -> Py.contains sep (Py.split_first sep s) = false.
Proof.
  intros Hne. unfold Py.split_first.
  destruct (Py.before sep s) as [p|] eqn:E.
  - exact (before_free sep s p Hne E).
  - unfold Py.contains. rewrite E. reflexivity.
Qed.

(** C8, as the code has it: when the file name contains ["_iButton_"]
    or ["_ibutton_"], spelled exactly so, the label is the text in front
    of such a marker and holds no marker itself; a file name without
    either spelling gives no label. *)
Theorem label_is_text_before_marker (filename : string) :
  (Py.contains "_iButton_" filename || Py.contains "_ibutton_" filename = true ->
   exists label marker rest,
     derive_label filename = Some label
     /\ (marker = "_iButton_" \/ marker = "_ibutton_")
     /\ filename = label ++ marker ++ rest
     /\ Py.contains "_iButton_" label = false
     /\ Py.contains "_ibutton_" label = false)
  /\ (Py.contains "_iButton_" filename || Py.contains "_ibutton_" filename = false ->
      derive_label filename = None).
Proof.
  split; intros H; unfold derive_label; rewrite H; [|reflexivity].
  set (p1 := Py.split_first "_iButton_" filename).
  assert (Hfree1 : Py.contains "_iButton_" p1 = false)
    by (apply split_first_free; discriminate).
  destruct (Py.before "_ibutton_" p1) as [l|] eqn:E2.
  - (* a lower-case marker in front of the first mixed-case one *)
    assert (Hl : Py.split_first "_ibutton_" p1 = l)
      by (unfold Py.split_first; rewrite E2; reflexivity).
    rewrite Hl.
    destruct (before_split _ _ _ E2) as [r2 Hp1].
    assert (Hfn : exists r, filename = l ++ "_ibutton_" ++ r).
    { subst p1. unfold Py.split_first in Hp1.
      destruct (Py.before "_iButton_" filename) as [q|] eqn:E1.
      - destruct (before_split _ _ _ E1) as [r1 ->]. rewrite Hp1.
        exists (r2 ++ "_iButton_" ++ r1).
        rewrite <- !string_app_assoc. reflexivity.
      - exists r2. exact Hp1. }
    destruct Hfn as [r Hfn].
    exists l, "_ibutton_", r. split; [reflexivity|].
    split; [right; reflexivity|]. split; [exact Hfn|]. split.
    + destruct (Py.contains "_iButton_" l) eqn:E; [|reflexivity].
      apply (contains_app _ _ ("_ibutton_" ++ r2)) in E.
      rewrite <- Hp1 in E. congruence.
    + apply (before_free "_ibutton_" p1 l); [discriminate|exact E2].
  - (* no lower-case marker in front: the mixed-case one is the marker *)
    assert (Hl : Py.split_first "_ibutton_" p1 = p1)
      by (unfold Py.split_first; rewrite E2; reflexivity).
    rewrite Hl.
    assert (Hfree2 : Py.contains "_ibutton_" p1 = false)
      by (unfold Py.contains; rewrite E2; reflexivity).
    subst p1. unfold Py.split_first in *.
    destruct (Py.before "_iButton_" filename) as [q|] eqn:E1.
    + destruct (before_split _ _ _ E1) as [r1 Hfn].
      exists q, "_iButton_", r1. split; [reflexivity|].
      split; [left; reflexivity|]. split; [exact Hfn|].
      split; [exact Hfree1|exact Hfree2].
    + exfalso. unfold Py.contains in H. rewrite E1, E2 in H. discriminate H.
Qed.

Lemma label_is_text_before_marker_witness :
  Py.contains "_iButton_" "Antenna_iButton_Dec2025"
    || Py.contains "_ibutton_" "Antenna_iButton_Dec2025" = true
  /\ derive_label "Antenna_iButton_Dec2025" = Some "Antenna"
  /\ derive_label "readings_2025" = None.
Proof.
  split; [reflexivity|].
  destruct (label_is_text_before_marker "readings_2025") as [_ Hnone].
  split; [reflexivity|]. apply Hnone. reflexivity.
Defined.

(** C8 as stated fails: an upper-case marker is a marker when case is
    ignored, yet no label is derived from it. *)
Lemma upper_case_marker_gives_no_label :
  has_marker_ignoring_case "Antenna_IBUTTON_Dec2025" = true
  /\ derive_label "Antenna_IBUTTON_Dec2025" = None.
Proof. split; reflexivity. Qed.

(** ** Properties of the ingestion pipeline *)

Section IngestFacts.

Variable float_t : Type.
Variable py_float : string -> option float_t.
Variable tzdb : string -> option ZoneInfo.zone.
Variable fs : string -> option csv_file.

Abbreviation world := (world float_t).
Abbreviation cur w := (current float_t (conn float_t w)).

Ltac run :=
  unfold bind, ret, raise, print, get_db, put_db, commit;
  cbn [conn console current committed fst snd
       sensors deployments sensor_deployments files temperature_readings
       set_sensors set_deployments set_sensor_deployments set_files
       set_readings].

Lemma get_or_create_sensor_raises (metadata : gmap string string)
    (label : option string) (w : world) :
  Py.is_empty (registration_number_of metadata) = true ->
  get_or_create_sensor metadata label w
  = (Raise (ValueError "Registration number not found in metadata"), w).
Proof.
  intros H. unfold get_or_create_sensor. rewrite H. reflexivity.
Qed.

Lemma get_or_create_sensor_runs (metadata : gmap string string)
    (label : option string) (w : world) :
  Py.is_empty (registration_number_of metadata) = false ->
  exists sensor_id w',
    get_or_create_sensor metadata label w = (Ok sensor_id, w')
    /\ same_console w w' /\ same_files_and_readings w w'
    /\ sensor_deployments _ (cur w') = sensor_deployments _ (cur w).
Proof.
  intros H. unfold get_or_create_sensor. rewrite H. run.
  destruct (find _ (sensors _ (cur w))) as [row|].
  - destruct (Py.truthy_opt label && negb (Py.truthy_opt (Store.label row))).
    + eexists _, _. split; [reflexivity|]. repeat split.
    + eexists _, _. split; [reflexivity|]. repeat split.
  - eexists _, _. split; [reflexivity|]. repeat split.
Qed.

Lemma upsert_sensor_deployment_runs (sensor_id deployment_id : Z)
    (location_notes notes : option string) (w : world) :
  exists w',
    upsert_sensor_deployment sensor_id deployment_id location_notes notes w
    = (Ok tt, w')
    /\ same_console w w' /\ same_files_and_readings w w'
    /\ sensors _ (cur w') = sensors _ (cur w).
Proof.
  unfold upsert_sensor_deployment. run.
  destruct (find _ (sensor_deployments _ (cur w))).
  - eexists. split; [reflexivity|]. repeat split.
  - eexists. split; [reflexivity|]. repeat split.
Qed.

Lemma registration_number_priority (m : gmap string string) :
  registration_number_of m
  = if Py.truthy_opt (m !! "1-Wire/iButton Registration Number")
    then default "" (m !! "1-Wire/iButton Registration Number")
    else if Py.truthy_opt (m !! "Registration Number")
         then default "" (m !! "Registration Number")
         else if Py.truthy_opt (m !! "Registration")
              then default "" (m !! "Registration")
              else "".
Proof.
  unfold registration_number_of, first_of, Py.or_.
  destruct (Py.truthy_opt (m !! "1-Wire/iButton Registration Number"));
    [reflexivity|].
  destruct (Py.truthy_opt (m !! "Registration Number")); [reflexivity|].
  destruct (Py.truthy_opt (m !! "Registration")); reflexivity.
Qed.

(** C4: when the metadata of a file has none of the three
    registration-number keys (looked up in the order long form,
    "Registration Number", "Registration"), [ingest_csv_file] raises the
    "Registration number not found" [ValueError] and the store is what it
    was: no sensor, sensor-deployment, file or reading row is written.
    The loop of [main] reports the error and goes on. *)
Theorem missing_registration_number_aborts_file
    (w : world) (csv_path : string) (f : csv_file) (deployment_id : Z)
    (timezone_name : string) (doc : deployment_metadata)
    (fixed_offset : option string)
    (metadata : gmap string string) (data_start_line : Z) :
  fs csv_path = Some f ->
  parse_ibutton_header csv_path f = Ok (metadata, data_start_line) ->
  metadata !! "1-Wire/iButton Registration Number" = None ->
  metadata !! "Registration Number" = None ->
  metadata !! "Registration" = None ->
  let e := ValueError "Registration number not found in metadata" in
  (exists w',
      ingest_csv_file py_float tzdb fs csv_path deployment_id timezone_name
        doc fixed_offset w = (Raise e, w')
      /\ conn _ w' = conn _ w
      /\ console _ w' = (console _ w ++ [Parsing (path_name csv_path)])%list)
  /\ (exists w',
        ingest_files py_float tzdb fs [csv_path] deployment_id timezone_name
          doc fixed_offset w = (Ok tt, w')
        /\ conn _ w' = conn _ w
        /\ console _ w'
           = (console _ w ++ [Parsing (path_name csv_path);
                              ErrorProcessing csv_path e])%list)
  /\ (forall m : gmap string string,
        registration_number_of m
        = if Py.truthy_opt (m !! "1-Wire/iButton Registration Number")
          then default "" (m !! "1-Wire/iButton Registration Number")
          else if Py.truthy_opt (m !! "Registration Number")
               then default "" (m !! "Registration Number")
               else if Py.truthy_opt (m !! "Registration")
                    then default "" (m !! "Registration")
                    else "").
Proof.
  intros Hfs Hparse H1 H2 H3 e.
  assert (Hreg : Py.is_empty (registration_number_of metadata) = true).
  { rewrite registration_number_priority, H1, H2, H3. reflexivity. }
  assert (Hrun : ingest_csv_file py_float tzdb fs csv_path deployment_id
                   timezone_name doc fixed_offset w
                 = (Raise e,
                    mk_world (conn _ w)
                      (console _ w ++ [Parsing (path_name csv_path)]))).
  { unfold ingest_csv_file. rewrite Hfs. run. rewrite Hparse.
    rewrite get_or_create_sensor_raises by exact Hreg. reflexivity. }
  split; [|split].
  - eexists. split; [exact Hrun|]. split; reflexivity.
  - cbn [ingest_files]. rewrite Hrun. cbn [conn console ret].
    eexists. split; [reflexivity|]. split; [reflexivity|].
    cbn [console]. rewrite <- app_assoc. reflexivity.
  - exact registration_number_priority.
Qed.

Lemma upsert_writes_row (sensor_id deployment_id : Z)
    (location_notes notes : option string) (w w' : world) :
  upsert_sensor_deployment sensor_id deployment_id location_notes notes w
  = (Ok tt, w') ->
  In (mk_sensor_deployment sensor_id deployment_id location_notes notes)
     (sensor_deployments _ (cur w')).
Proof.
  unfold upsert_sensor_deployment. run.
  destruct (find _ (sensor_deployments _ (cur w))) as [row|] eqn:E.
  - intros [= <-]. cbn [conn current sensor_deployments].
    apply find_some in E. destruct E as [Hin Hsame].
    apply andb_true_iff in Hsame. destruct Hsame as [Hs Hd].
    apply Z.eqb_eq in Hs, Hd.
    apply in_map_iff. exists row. split; [|exact Hin].
    rewrite <- Hs, <- Hd, !Z.eqb_refl. reflexivity.
  - intros [= <-]. cbn [conn current sensor_deployments].
    apply in_or_app. right. left. reflexivity.
Qed.

(** Label back-fill: a known sensor without a label gets the label of
    the file. *)
Lemma get_or_create_sensor_backfills (metadata : gmap string string)
    (label : string) (row : sensor) (w : world) :
  Py.is_empty (registration_number_of metadata) = false ->
  find (fun s => String.eqb (Store.registration_number s)
                   (registration_number_of metadata))
       (sensors _ (cur w)) = Some row ->
  Py.truthy label = true ->
  Py.truthy_opt (Store.label row) = false ->
  exists w',
    get_or_create_sensor metadata (Some label) w = (Ok (sensor_id row), w')
    /\ In (mk_sensor (sensor_id row) (sensor_type row) (part_number row)
             (Store.registration_number row) (Some label))
          (sensors _ (cur w'))
    /\ length (sensors _ (cur w')) = length (sensors _ (cur w)).
Proof.
  intros Hreg Hfind Hlabel Hnone.
  unfold get_or_create_sensor. rewrite Hreg. run. rewrite Hfind.
  cbn [Py.truthy_opt]. rewrite Hlabel, Hnone. cbn [negb andb].
  eexists. split; [reflexivity|]. cbn [conn current sensors]. split.
  - apply find_some in Hfind. destruct Hfind as [Hin _].
    apply in_map_iff. exists row. split; [|exact Hin].
    rewrite Z.eqb_refl. reflexivity.
  - apply length_map.
Qed.

Lemma seen_when_hash_stored (sha : string) (w : world) :
  (exists row, In row (files _ (cur w)) /\ sha256 row = sha) ->
  file_already_ingested sha w = (Ok true, w).
Proof.
  intros (row & Hin & Hsha). unfold file_already_ingested. run.
  assert (Hf : In row (List.filter (fun r => String.eqb (sha256 r) sha)
                         (files _ (cur w)))).
  { apply filter_In. split; [exact Hin|]. apply String.eqb_eq. exact Hsha. }
  destruct (List.filter _ (files _ (cur w))) as [|x l]; [contradiction|].
  reflexivity.
Qed.

Lemma unseen_when_hash_new (sha : string) (w : world) :
  (forall row, In row (files _ (cur w)) -> sha256 row <> sha) ->
  file_already_ingested sha w = (Ok false, w).
Proof.
  intros Hnew. unfold file_already_ingested. run.
  destruct (List.filter _ (files _ (cur w))) as [|x l] eqn:E; [reflexivity|].
  assert (Hx : In x (List.filter (fun r => String.eqb (sha256 r) sha)
                        (files _ (cur w))))
    by (rewrite E; left; reflexivity).
  apply filter_In in Hx. destruct Hx as [Hin Heq].
  apply String.eqb_eq in Heq. exfalso. exact (Hnew x Hin Heq).
Qed.


(** *** The loop over the data rows *)

Lemma well_formed_row (timezone_name : string) (fixed_offset : option string)
    (row : list string) :
  classify py_float tzdb timezone_name fixed_offset row = WellFormed ->
  exists c0 c1 c2 rest time_utc value_c,
    row = c0 :: c1 :: c2 :: rest
    /\ Py.is_empty (Py.strip c0) = false
    /\ Py.is_empty (Py.strip c2) = false
    /\ convert_row py_float tzdb timezone_name fixed_offset
         (Py.strip c0) (Py.strip c2) = Ok (time_utc, value_c)
    /\ forall file_id deployment_id sensor_id,
         reading_of py_float tzdb timezone_name fixed_offset
           file_id deployment_id sensor_id row
         = Some (mk_reading float_t file_id deployment_id sensor_id
                   (Py.strip c0) time_utc value_c 0).
Proof.
  destruct row as [|c0 [|c1 [|c2 rest]]]; try discriminate.
  unfold classify.
  destruct (Py.is_empty (Py.strip c0)) eqn:E0; [discriminate|].
  destruct (Py.is_empty (Py.strip c2)) eqn:E2; [discriminate|]. cbn [orb].
  destruct (local_to_utc tzdb (Py.strip c0) timezone_name fixed_offset)
    as [t|e] eqn:Et; [|discriminate].
  destruct (py_float (Py.strip c2)) as [v|] eqn:Ev.
  - intros _. exists c0, c1, c2, rest, t, v.
    split; [reflexivity|]. split; [exact E0|]. split; [exact E2|].
    unfold convert_row, reading_of. rewrite Et, Ev.
    split; [reflexivity|]. intros; reflexivity.
  - cbn [is_ok andb]. rewrite bool_decide_eq_false_2; [discriminate|].
    intros [x Hx]. discriminate Hx.
Qed.

Lemma malformed_row (timezone_name : string) (fixed_offset : option string)
    (row : list string) :
  classify py_float tzdb timezone_name fixed_offset row = Malformed ->
  exists c0 c1 c2 rest e,
    row = c0 :: c1 :: c2 :: rest
    /\ Py.is_empty (Py.strip c0) = false
    /\ Py.is_empty (Py.strip c2) = false
    /\ convert_row py_float tzdb timezone_name fixed_offset
         (Py.strip c0) (Py.strip c2) = Raise e.
Proof.
  destruct row as [|c0 [|c1 [|c2 rest]]]; try discriminate.
  unfold classify.
  destruct (Py.is_empty (Py.strip c0)) eqn:E0; [discriminate|].
  destruct (Py.is_empty (Py.strip c2)) eqn:E2; [discriminate|]. cbn [orb].
  destruct (local_to_utc tzdb (Py.strip c0) timezone_name fixed_offset)
    as [t|e] eqn:Et.
  - destruct (py_float (Py.strip c2)) as [v|] eqn:Ev.
    + cbn [is_ok andb]. rewrite bool_decide_eq_true_2; [discriminate|].
      exists v. reflexivity.
    + intros _. eexists c0, c1, c2, rest, _.
      split; [reflexivity|]. split; [exact E0|]. split; [exact E2|].
      unfold convert_row. rewrite Et, Ev. reflexivity.
  - intros _. exists c0, c1, c2, rest, e.
    split; [reflexivity|]. split; [exact E0|]. split; [exact E2|].
    unfold convert_row. rewrite Et. reflexivity.
Qed.

Section Loop.

Variables (data_start_line file_id deployment_id sensor_id : Z).
Variables (timezone_name : string) (fixed_offset : option string).

Abbreviation loop i rs acc :=
  (read_rows py_float tzdb i rs data_start_line file_id deployment_id
     sensor_id timezone_name fixed_offset acc).
Abbreviation readings_from rs :=
  (omap (reading_of py_float tzdb timezone_name fixed_offset file_id
           deployment_id sensor_id) rs).

(** The rows up to and including the data header are passed over. *)
Lemma read_rows_header (rs : list (list string)) :
  forall (i : Z) (acc : list (reading float_t)) (w : world),
    1 <= i <= data_start_line + 1 ->
    loop i rs acc w
    = loop (data_start_line + 1)
        (drop (Z.to_nat (data_start_line + 1 - i)) rs) acc w.
Proof.
  induction rs as [|row rs IH]; intros i acc w Hi.
  - rewrite drop_nil. reflexivity.
  - destruct (Z.eq_dec i (data_start_line + 1)) as [->|Hne].
    + replace (Z.to_nat _) with 0%nat by lia. reflexivity.
    + replace (Z.to_nat (data_start_line + 1 - i))
        with (S (Z.to_nat (data_start_line + 1 - (i + 1)))) by lia.
      cbn [drop read_rows].
      assert (Hle : (i <=? data_start_line) = true) by (apply Z.leb_le; lia).
      rewrite Hle. apply IH. lia.
Qed.

Lemma read_rows_good_prefix (xs ys : list (list string)) :
  forall (i : Z) (acc : list (reading float_t)) (w : world),
    data_start_line < i ->
    Forall (fun r => classify py_float tzdb timezone_name fixed_offset r
                     = WellFormed) xs ->
    loop i (xs ++ ys) acc w
    = loop (i + Z.of_nat (length xs)) ys (acc ++ readings_from xs)%list w.
Proof.
  induction xs as [|row xs IH]; intros i acc w Hi Hgood.
  - cbn [app length omap]. rewrite Z.add_0_r, app_nil_r. reflexivity.
  - inversion Hgood as [|? ? Hrow Hrest]; subst.
    destruct (well_formed_row _ _ _ Hrow)
      as (c0 & c1 & c2 & rest & t & v & -> & H0 & H2 & Hconv & Hread).
    change ((c0 :: c1 :: c2 :: rest) :: xs ++ ys)%list
      with (((c0 :: c1 :: c2 :: rest) :: xs) ++ ys)%list.
    cbn [app read_rows].
    assert (Hle : (i <=? data_start_line) = false) by (apply Z.leb_gt; lia).
    rewrite Hle, H0, H2. cbn [orb]. rewrite Hconv.
    rewrite IH by (try lia; exact Hrest).
    cbn [omap list_omap]. rewrite Hread.
    replace (i + 1 + Z.of_nat (length xs))
      with (i + Z.of_nat (length ((c0 :: c1 :: c2 :: rest) :: xs)))
      by (cbn [length]; lia).
    rewrite <- app_assoc. reflexivity.
Qed.

Lemma read_rows_good (xs : list (list string)) (i : Z)
    (acc : list (reading float_t)) (w : world) :
  data_start_line < i ->
  Forall (fun r => classify py_float tzdb timezone_name fixed_offset r
                   = WellFormed) xs ->
  loop i xs acc w = (Ok (acc ++ readings_from xs)%list, w).
Proof.
  intros Hi Hgood.
  rewrite <- (app_nil_r xs) at 1.
  rewrite read_rows_good_prefix by assumption. reflexivity.
Qed.

Lemma read_rows_bad (bad : list string) (ys : list (list string)) (i : Z)
    (acc : list (reading float_t)) (w : world) :
  data_start_line < i ->
  classify py_float tzdb timezone_name fixed_offset bad = Malformed ->
  exists e,
    loop i (bad :: ys) acc w
    = loop (i + 1) ys acc
        (mk_world (conn _ w) (console _ w ++ [RowWarning i e])).
Proof.
  intros Hi Hbad.
  destruct (malformed_row _ _ _ Hbad)
    as (c0 & c1 & c2 & rest & e & -> & H0 & H2 & Hconv).
  exists e. cbn [read_rows].
  assert (Hle : (i <=? data_start_line) = false) by (apply Z.leb_gt; lia).
  rewrite Hle, H0, H2. cbn [orb]. rewrite Hconv. reflexivity.
Qed.

Lemma readings_from_good (xs : list (list string)) :
  Forall (fun r => classify py_float tzdb timezone_name fixed_offset r
                   = WellFormed) xs ->
  map Some (readings_from xs)
  = map (reading_of py_float tzdb timezone_name fixed_offset file_id
           deployment_id sensor_id) xs
  /\ length (readings_from xs) = length xs
  /\ Forall (fun r => quality_flag _ r = 0 /\ r_file_id _ r = file_id)
       (readings_from xs).
Proof.
  induction 1 as [|row xs Hrow Hrest IH].
  - repeat split. constructor.
  - destruct (well_formed_row _ _ _ Hrow)
      as (c0 & c1 & c2 & rest & t & v & -> & _ & _ & _ & Hread).
    destruct IH as (IH1 & IH2 & IH3).
    cbn [omap list_omap map]. rewrite Hread. cbn [map length].
    rewrite IH1, IH2. repeat split. constructor; [split; reflexivity|exact IH3].
Qed.

End Loop.

Lemma scan_header_line (rs : list (list string)) :
  forall (i : Z) (m m' : gmap string string) (d : Z),
    scan_header i rs m = (m', d) -> d = 0 \/ i <= d.
Proof.
  induction rs as [|row rs IH]; intros i m m' d H; cbn [scan_header] in H.
  - injection H as _ <-. left. reflexivity.
  - assert (Hrec : forall m0, scan_header (i + 1) rs m0 = (m', d) ->
                              d = 0 \/ i <= d).
    { intros m0 H0. destruct (IH _ _ _ _ H0); [left; assumption|right; lia]. }
    destruct row as [|c0 cs]; [exact (Hrec _ H)|].
    destruct (_ || _).
    + injection H as _ <-. right. lia.
    + destruct cs as [|c1 cs']; [|exact (Hrec _ H)].
      destruct (Py.split_once ":" c0) as [|k [|v [|x l]]]; exact (Hrec _ H).
Qed.

Lemma data_start_line_positive (csv_path : string) (f : csv_file)
    (metadata : gmap string string) (data_start_line : Z) :
  parse_ibutton_header csv_path f = Ok (metadata, data_start_line) ->
  1 <= data_start_line.
Proof.
  unfold parse_ibutton_header.
  destruct (scan_header 1 (rows f) ∅) as [m d] eqn:E.
  destruct (d =? 0) eqn:E0; [discriminate|]. intros [= <- <-].
  apply Z.eqb_neq in E0.
  destruct (scan_header_line _ _ _ _ _ E); lia.
Qed.

(** C7: a file that is not a duplicate and whose data block holds N rows
    that convert and one row whose time or value does not convert gets N
    rows in [temperature_readings], the readings of the N rows in order
    and each with quality flag 0, one row in [files], and exactly one
    row warning on the console; the call returns normally. *)
Theorem one_malformed_row_is_dropped
    (w : world) (csv_path : string) (f : csv_file) (deployment_id : Z)
    (timezone_name : string) (doc : deployment_metadata)
    (fixed_offset : option string)
    (metadata : gmap string string) (data_start_line : Z)
    (before after : list (list string)) (bad : list string) :
  fs csv_path = Some f ->
  parse_ibutton_header csv_path f = Ok (metadata, data_start_line) ->
  Py.is_empty (registration_number_of metadata) = false ->
  (forall row, In row (files _ (cur w)) -> sha256 row <> sha256_hex f) ->
  drop (Z.to_nat data_start_line) (rows f) = (before ++ bad :: after)%list ->
  Forall (fun r => classify py_float tzdb timezone_name fixed_offset r
                   = WellFormed) (before ++ after) ->
  classify py_float tzdb timezone_name fixed_offset bad = Malformed ->
  exists w' sensor_id file_row new_readings e,
    ingest_csv_file py_float tzdb fs csv_path deployment_id timezone_name
      doc fixed_offset w = (Ok tt, w')
    /\ temperature_readings _ (cur w')
       = (temperature_readings _ (cur w) ++ new_readings)%list
    /\ map Some new_readings
       = map (reading_of py_float tzdb timezone_name fixed_offset
                (file_id file_row) deployment_id sensor_id)
             (before ++ after)
    /\ length new_readings = (length before + length after)%nat
    /\ Forall (fun r => quality_flag _ r = 0
                        /\ r_file_id _ r = file_id file_row) new_readings
    /\ List.filter is_row_warning (console _ w')
       = (List.filter is_row_warning (console _ w)
          ++ [RowWarning (data_start_line + 1 + Z.of_nat (length before)) e])%list
    /\ files _ (cur w') = (files _ (cur w) ++ [file_row])%list
    /\ sha256 file_row = sha256_hex f
    /\ path file_row = csv_path
    /\ (new_readings <> [] -> committed _ (conn _ w') = cur w').
Proof.
  intros Hfs Hparse Hreg Hnew Hdrop Hgood Hbad.
  pose proof (data_start_line_positive _ _ _ _ Hparse) as Hpos.
  apply Forall_app in Hgood. destruct Hgood as [Hgood1 Hgood2].
  unfold ingest_csv_file. rewrite Hfs. unfold bind at 1. unfold print at 1.
  set (w0 := mk_world (conn _ w) (console _ w ++ [Parsing (path_name csv_path)])).
  rewrite Hparse.
  set (label := derive_label (path_stem csv_path)).
  set (entry := sensor_entry doc label).
  destruct (get_or_create_sensor_runs metadata label w0 Hreg)
    as (sid & w1 & Hs & Hc1 & [Hf1 Hr1] & _).
  destruct (upsert_sensor_deployment_runs sid deployment_id
              (entry ≫= sm_location) (entry ≫= sm_notes) w1)
    as (w2 & Hu & Hc2 & [Hf2 Hr2] & _).
  assert (Hfiles : files _ (cur w2) = files _ (cur w))
    by (rewrite Hf2, Hf1; reflexivity).
  assert (Hreads : temperature_readings _ (cur w2)
                   = temperature_readings _ (cur w))
    by (rewrite Hr2, Hr1; reflexivity).
  assert (Hcons : console _ w2
                  = (console _ w ++ [Parsing (path_name csv_path)])%list)
    by (rewrite Hc2, Hc1; reflexivity).
  assert (Hunseen : file_already_ingested (sha256_hex f) w2 = (Ok false, w2)).
  { apply unseen_when_hash_new. rewrite Hfiles. exact Hnew. }
  unfold bind at 1. rewrite Hs. unfold bind at 1. rewrite Hu.
  unfold bind at 1. rewrite Hunseen.
  set (file_metadata := if Py.truthy_opt (entry ≫= sm_notes) then _ else _).
  set (fid := next_id (map file_id (files _ (cur w2)))).
  set (frow := mk_file_row fid deployment_id sid csv_path (sha256_hex f)
                 file_metadata).
  unfold bind at 1. unfold get_db at 1. cbv beta iota. fold fid. fold frow.
  unfold bind at 1. unfold put_db at 1. cbv beta iota.
  set (w3 := mk_world _ _).
  unfold bind at 1.
  rewrite read_rows_header by lia.
  replace (Z.to_nat (data_start_line + 1 - 1)) with (Z.to_nat data_start_line)
    by lia.
  rewrite Hdrop.
  rewrite read_rows_good_prefix by (try lia; exact Hgood1).
  destruct (read_rows_bad data_start_line fid deployment_id sid timezone_name
              fixed_offset bad after
              (data_start_line + 1 + Z.of_nat (length before))
              ([] ++ omap (reading_of py_float tzdb timezone_name fixed_offset
                             fid deployment_id sid) before)%list
              w3 ltac:(lia) Hbad) as [e He].
  rewrite He. rewrite read_rows_good by (try lia; exact Hgood2).
  cbn [app].
  destruct (readings_from_good fid deployment_id sid timezone_name
              fixed_offset before Hgood1) as (Hm1 & Hl1 & Hq1).
  destruct (readings_from_good fid deployment_id sid timezone_name
              fixed_offset after Hgood2) as (Hm2 & Hl2 & Hq2).
  set (new := (omap _ before ++ omap _ after)%list).
  assert (Hmap : map Some new
                 = map (reading_of py_float tzdb timezone_name fixed_offset
                          fid deployment_id sid) (before ++ after)).
  { subst new. rewrite !map_app, Hm1, Hm2. reflexivity. }
  assert (Hlen : length new = (length before + length after)%nat).
  { subst new. rewrite length_app, Hl1, Hl2. reflexivity. }
  assert (Hq : Forall (fun r => quality_flag _ r = 0 /\ r_file_id _ r = fid)
                 new).
  { subst new. apply Forall_app. split; assumption. }
  assert (Hwarn : forall tail,
             List.filter is_row_warning
               ((console _ w2
                 ++ [RowWarning
                       (data_start_line + 1 + Z.of_nat (length before)) e])
                ++ [tail])%list
             = (List.filter is_row_warning (console _ w)
                ++ [RowWarning
                      (data_start_line + 1 + Z.of_nat (length before)) e]
                ++ List.filter is_row_warning [tail])%list).
  { intros tail. rewrite Hcons.
    rewrite !List.filter_app. cbn [List.filter is_row_warning app].
    rewrite app_nil_r, <- app_assoc. reflexivity. }
  clearbody new.
  destruct new as [|r0 new'].
  - exists (mk_world (conn _ w3)
              ((console _ w3
                ++ [RowWarning
                      (data_start_line + 1 + Z.of_nat (length before)) e])
               ++ [NoValidReadings (path_name csv_path)])),
           sid, frow, [], e.
    split; [reflexivity|].
    subst w3. cbn [conn current console temperature_readings files set_files].
    split; [rewrite app_nil_r; exact Hreads|].
    split; [exact Hmap|]. split; [exact Hlen|]. split; [exact Hq|].
    split.
    { rewrite (Hwarn (NoValidReadings (path_name csv_path))).
      cbn [List.filter is_row_warning]. reflexivity. }
    split; [rewrite Hfiles; reflexivity|].
    split; [reflexivity|]. split; [reflexivity|]. congruence.
  - run. eexists _, sid, frow, (r0 :: new'), e.
    split; [reflexivity|].
    subst w3. cbn [conn current console temperature_readings files set_files
                   set_readings committed].
    split; [rewrite Hreads; reflexivity|].
    split; [exact Hmap|]. split; [exact Hlen|]. split; [exact Hq|].
    split.
    { pose proof (Hwarn (Ingested (Z.of_nat (length (r0 :: new')))
                           (path_name csv_path))) as Hw.
      cbn [console] in Hw. rewrite Hw.
      cbn [List.filter is_row_warning]. reflexivity. }
    split; [rewrite Hfiles; reflexivity|].
    split; [reflexivity|]. split; [reflexivity|]. intros _. reflexivity.
Qed.

(** The loop over the rows always returns, and writes nothing but
    console lines. *)
Lemma read_rows_runs (data_start_line file_id deployment_id sensor_id : Z)
    (timezone_name : string) (fixed_offset : option string)
    (rs : list (list string)) :
  forall (i : Z) (acc : list (reading float_t)) (w : world),
  exists readings msgs,
    read_rows py_float tzdb i rs data_start_line file_id deployment_id
      sensor_id timezone_name fixed_offset acc w
    = (Ok readings, mk_world (conn _ w) (console _ w ++ msgs)).
Proof.
  induction rs as [|row rs IH]; intros i acc w.
  - exists acc, []. cbn [read_rows]. unfold ret. rewrite app_nil_r.
    destruct w; reflexivity.
  - cbn [read_rows].
    destruct (i <=? data_start_line); [apply IH|].
    destruct row as [|c0 [|c1 [|c2 rest]]]; try apply IH.
    destruct (_ || _); [apply IH|].
    destruct (convert_row _ _ _ _ _ _) as [[t v]|e]; [apply IH|].
    unfold bind, print.
    destruct (IH (i + 1) acc
                (mk_world (conn _ w) (console _ w ++ [RowWarning i e])))
      as (rd & msgs & ->).
    exists rd, (RowWarning i e :: msgs). cbn [conn console].
    rewrite <- app_assoc. reflexivity.
Qed.

(** A file that exists, has a data section and names its sensor is
    processed to the end, and the sensor-deployment row carries what the
    metadata document says about the label of the file. *)
Lemma sensor_overrides_apply
    (w : world) (csv_path : string) (f : csv_file) (deployment_id : Z)
    (timezone_name : string) (doc : deployment_metadata)
    (fixed_offset : option string)
    (metadata : gmap string string) (data_start_line : Z) :
  fs csv_path = Some f ->
  parse_ibutton_header csv_path f = Ok (metadata, data_start_line) ->
  Py.is_empty (registration_number_of metadata) = false ->
  let entry := sensor_entry doc (derive_label (path_stem csv_path)) in
  exists sensor_id w',
    ingest_csv_file py_float tzdb fs csv_path deployment_id timezone_name
      doc fixed_offset w = (Ok tt, w')
    /\ In (mk_sensor_deployment sensor_id deployment_id
             (entry ≫= sm_location) (entry ≫= sm_notes))
          (sensor_deployments _ (cur w')).
Proof.
  intros Hfs Hparse Hreg entry. subst entry.
  unfold ingest_csv_file. rewrite Hfs. unfold bind at 1. unfold print at 1.
  set (w0 := mk_world (conn _ w) (console _ w ++ [Parsing (path_name csv_path)])).
  rewrite Hparse.
  set (label := derive_label (path_stem csv_path)).
  set (entry := sensor_entry doc label).
  destruct (get_or_create_sensor_runs metadata label w0 Hreg)
    as (sid & w1 & Hs & _).
  destruct (upsert_sensor_deployment_runs sid deployment_id
              (entry ≫= sm_location) (entry ≫= sm_notes) w1)
    as (w2 & Hu & _).
  pose proof (upsert_writes_row _ _ _ _ _ _ Hu) as Hrow.
  unfold bind at 1. rewrite Hs. unfold bind at 1. rewrite Hu.
  unfold bind at 1. unfold file_already_ingested, bind, get_db, ret.
  exists sid.
  destruct (0 <? _).
  - unfold print. eexists. split; [reflexivity|]. exact Hrow.
  - unfold put_db, commit, print. cbn [conn console current committed].
    match goal with
    | |- context [read_rows ?pf ?db ?i ?rs ?d ?fid ?did ?s ?tz ?off ?acc ?w0] =>
        destruct (read_rows_runs d fid did s tz off rs i acc w0)
          as (rd & msgs & ->)
    end.
    destruct rd as [|r0 rd]; eexists; (split; [reflexivity|]); exact Hrow.
Qed.

(** C2, as the code has it: the deployment name, the site and the notes
    given on the command line win over the metadata document; the time
    zone of the document, when it has one, wins over [--timezone], which
    counts only when the document has none; the fixed offset comes from
    the document alone; and the per-sensor location and notes of the
    document are written for every file that is processed. *)
Theorem settings_precedence (args : arguments) (doc : deployment_metadata) :
  let s := resolve_settings args doc in
  (Py.truthy_opt (arg_deployment args) = true ->
   deployment_name s = arg_deployment args)
  /\ (Py.truthy_opt (arg_site args) = true -> site_name s = arg_site args)
  /\ (Py.truthy_opt (arg_notes args) = true ->
      deployment_notes s = arg_notes args)
  /\ (forall tz, dm_timezone doc = Some tz -> Py.truthy tz = true ->
                 st_timezone_name s = tz)
  /\ (Py.truthy_opt (dm_timezone doc) = false ->
      st_timezone_name s = arg_timezone args)
  /\ st_fixed_offset s = dm_timezone_fixed_offset doc
  /\ (forall (w : world) (csv_path : string) (f : csv_file)
             (deployment_id : Z) (metadata : gmap string string)
             (data_start_line : Z),
        fs csv_path = Some f ->
        parse_ibutton_header csv_path f = Ok (metadata, data_start_line) ->
        Py.is_empty (registration_number_of metadata) = false ->
        let entry := sensor_entry doc (derive_label (path_stem csv_path)) in
        exists sensor_id w',
          ingest_csv_file py_float tzdb fs csv_path deployment_id
            (st_timezone_name s) doc (st_fixed_offset s) w = (Ok tt, w')
          /\ In (mk_sensor_deployment sensor_id deployment_id
                   (entry ≫= sm_location) (entry ≫= sm_notes))
                (sensor_deployments _ (cur w'))).
Proof.
  intros s. subst s. unfold resolve_settings, Py.or_.
  cbn [deployment_name site_name deployment_notes st_timezone_name
       st_fixed_offset].
  split; [intros ->; reflexivity|]. split; [intros ->; reflexivity|].
  split; [intros ->; reflexivity|]. split.
  { intros tz -> Htz. cbn [Py.truthy_opt]. rewrite Htz. reflexivity. }
  split; [intros ->; reflexivity|]. split; [reflexivity|].
  intros w csv_path f deployment_id metadata data_start_line Hfs Hparse Hreg.
  exact (sensor_overrides_apply w csv_path f deployment_id _ doc _ metadata
           data_start_line Hfs Hparse Hreg).
Qed.

End IngestFacts.

(** ** The properties on the sample data *)

Lemma settings_precedence_witness :
  let args := mk_arguments (Some "CLI_name") None "America/Chicago" None in
  let s := resolve_settings args sample_doc in
  Py.truthy_opt (arg_deployment args) = true
  /\ deployment_name s = Some "CLI_name"
  /\ site_name s = Some "TestSite"
  /\ st_timezone_name s = "America/New_York".
Proof.
  intros args s.
  destruct (settings_precedence (Z * nat) sample_float sample_tzdb sample_fs
              args sample_doc) as (Hname & _ & _ & Htz & _).
  split; [reflexivity|]. split; [apply Hname; reflexivity|].
  split; [reflexivity|]. apply Htz; reflexivity.
Defined.

(** C2 as stated fails for the time zone: with [--timezone
    America/Chicago] on the command line and a document that names
    America/New_York, the document's zone is the one used. *)
Lemma document_timezone_overrides_command_line :
  let args := mk_arguments (Some "Test_2025") (Some "TestSite")
                "America/Chicago" None in
  dm_timezone sample_doc = Some "America/New_York"
  /\ st_timezone_name (resolve_settings args sample_doc) = "America/New_York"
  /\ st_timezone_name (resolve_settings args sample_doc) <> arg_timezone args.
Proof. repeat split. discriminate. Qed.


Lemma missing_registration_number_aborts_file_witness :
  sample_fs "data/anonymous.csv" = Some anonymous_csv
  /\ parse_ibutton_header "data/anonymous.csv" anonymous_csv
     = Ok (<["Part Number" := "DS1925L"]> ∅, 2)
  /\ exists w',
       ingest_csv_file sample_float sample_tzdb sample_fs
         "data/anonymous.csv" 1 "America/New_York" sample_doc None
         after_first_ingest
       = (Raise (ValueError "Registration number not found in metadata"), w')
       /\ conn _ w' = conn _ after_first_ingest.
Proof.
  assert (Hparse : parse_ibutton_header "data/anonymous.csv" anonymous_csv
                   = Ok (<["Part Number" := "DS1925L"]> ∅, 2))
    by (vm_compute; reflexivity).
  split; [reflexivity|]. split; [exact Hparse|].
  destruct (missing_registration_number_aborts_file (Z * nat) sample_float
              sample_tzdb sample_fs after_first_ingest "data/anonymous.csv"
              anonymous_csv 1 "America/New_York" sample_doc None
              (<["Part Number" := "DS1925L"]> ∅) 2 eq_refl Hparse
              ltac:(vm_compute; reflexivity) ltac:(vm_compute; reflexivity)
              ltac:(vm_compute; reflexivity))
    as ((w' & Hrun & Hconn & _) & _).
  exists w'. split; [exact Hrun|exact Hconn].
Defined.

Lemma one_malformed_row_is_dropped_witness :
  sample_fs "data/Antenna_iButton_Dec2025.csv" = Some antenna_csv
  /\ parse_ibutton_header "data/Antenna_iButton_Dec2025.csv" antenna_csv
     = Ok (antenna_metadata, 3)
  /\ classify sample_float sample_tzdb "America/New_York" None
       ["12/31/24 11:59:59 PM"; "C"; "n/a"] = Malformed
  /\ exists w' new_readings e,
       ingest_csv_file sample_float sample_tzdb sample_fs
         "data/Antenna_iButton_Dec2025.csv" 1 "America/New_York" sample_doc
         None empty_world = (Ok tt, w')
       /\ temperature_readings _ (current _ (conn _ w')) = new_readings
       /\ length new_readings = 2%nat
       /\ List.filter is_row_warning (console _ w') = [RowWarning 5 e].
Proof.
  assert (Hparse : parse_ibutton_header "data/Antenna_iButton_Dec2025.csv"
                     antenna_csv = Ok (antenna_metadata, 3))
    by (vm_compute; reflexivity).
  assert (Hbad : classify sample_float sample_tzdb "America/New_York" None
                   ["12/31/24 11:59:59 PM"; "C"; "n/a"] = Malformed)
    by (vm_compute; reflexivity).
  split; [reflexivity|]. split; [exact Hparse|]. split; [exact Hbad|].
  destruct (one_malformed_row_is_dropped (Z * nat) sample_float sample_tzdb
              sample_fs empty_world "data/Antenna_iButton_Dec2025.csv"
              antenna_csv 1 "America/New_York" sample_doc None
              antenna_metadata 3
              [["12/31/24 11:59:59 PM"; "C"; "-5.25"]]
              [["01/01/25 12:00:00 AM"; "C"; "-5.10"]]
              ["12/31/24 11:59:59 PM"; "C"; "n/a"]
              eq_refl Hparse ltac:(vm_compute; reflexivity)
              ltac:(intros row [])
              eq_refl
              ltac:(repeat constructor; vm_compute; reflexivity)
              Hbad)
    as (w' & sid & frow & new & e & Hrun & Hread & _ & Hlen & _ & Hwarn & _).
  exists w', new, e. split; [exact Hrun|]. split; [exact Hread|].
  split; [exact Hlen|exact Hwarn].
Defined.

(** ** Further properties of the store operations *)

Section StoreFacts.

Variable float_t : Type.

Abbreviation world := (world float_t).
Abbreviation cur w := (current float_t (conn float_t w)).

Ltac step :=
  unfold bind, ret, raise, print, get_db, put_db, commit;
  cbn [conn console current committed fst snd
       sensors deployments sensor_deployments files temperature_readings
       set_sensors set_deployments set_sensor_deployments set_files
       set_readings].

Lemma next_id_above (ids : list Z) (x : Z) : In x ids -> x < next_id ids.
Proof.
  unfold next_id. induction ids as [|y ids IH]; [contradiction|].
  cbn [fold_right]. intros [->|H]; [lia|]. specialize (IH H). lia.
Qed.

Lemma next_id_fresh (ids : list Z) : ~ In (next_id ids) ids.
Proof. intros H. apply next_id_above in H. lia. Qed.

Lemma NoDup_snoc {A} (l : list A) (x : A) :
  NoDup l -> ~ In x l -> NoDup (l ++ [x]).
Proof.
  intros Hl Hx. apply NoDup_app. split; [exact Hl|]. split.
  - intros y Hy Hin. apply list_elem_of_In in Hy.
    apply list_elem_of_In in Hin. cbn in Hin.
    destruct Hin as [->|[]]. contradiction.
  - apply NoDup_singleton.
Qed.

Lemma map_update_key {A B} (key : A -> B) (p : A -> bool) (g : A -> A)
    (l : list A) :
  (forall a, key (g a) = key a) ->
  map key (map (fun a => if p a then g a else a) l) = map key l.
Proof.
  intros Hg. rewrite map_map. apply map_ext. intros a.
  destruct (p a); [apply Hg|reflexivity].
Qed.

Lemma find_app_none {A} (p : A -> bool) (l : list A) (x : A) :
  find p l = None -> find p (l ++ [x]) = if p x then Some x else None.
Proof.
  induction l as [|a l IH]; cbn [app find]; [reflexivity|].
  destruct (p a); [discriminate|exact IH].
Qed.

Lemma find_map_update {A} (p q : A -> bool) (g : A -> A) (l : list A) :
  (forall a, p (g a) = p a) ->
  find p (map (fun a => if q a then g a else a) l)
  = (fun a => if q a then g a else a) <$> find p l.
Proof.
  intros Hg. induction l as [|a l IH]; [reflexivity|]. cbn [map find].
  assert (Hp : p (if q a then g a else a) = p a)
    by (destruct (q a); [apply Hg|reflexivity]).
  rewrite Hp. destruct (p a); [reflexivity|exact IH].
Qed.

(** *** [get_or_create_sensor] *)

(** What the call does, case by case. *)
Lemma get_or_create_sensor_cases (metadata : gmap string string)
    (label : option string) (w : world) :
  Py.is_empty (registration_number_of metadata) = false ->
  let reg := registration_number_of metadata in
  let known := find (fun s => String.eqb (registration_number s) reg)
                 (sensors _ (cur w)) in
  match known with
  | Some row =>
      if Py.truthy_opt label && negb (Py.truthy_opt (Store.label row))
      then
        let d := set_sensors (cur w)
                   (map (fun s => if sensor_id s =? sensor_id row
                                  then mk_sensor (sensor_id s) (sensor_type s)
                                         (part_number s)
                                         (registration_number s) label
                                  else s)
                        (sensors _ (cur w))) in
        get_or_create_sensor metadata label w
        = (Ok (sensor_id row), mk_world (mk_connection d d) (console _ w))
      else get_or_create_sensor metadata label w = (Ok (sensor_id row), w)
  | None =>
      let new_id := next_id (map sensor_id (sensors _ (cur w))) in
      let d := set_sensors (cur w)
                 (sensors _ (cur w)
                  ++ [mk_sensor new_id "ibutton_ds1925"
                        (part_number_of metadata) reg label]) in
      get_or_create_sensor metadata label w
      = (Ok new_id, mk_world (mk_connection d d) (console _ w))
  end.
Proof.
  intros Hreg reg known. subst reg known.
  unfold get_or_create_sensor. rewrite Hreg. step.
  destruct (find _ (sensors _ (cur w))) as [row|]; [|reflexivity].
  destruct (_ && _); reflexivity.
Qed.

(** X1: resolving the same sensor again changes nothing and gives the same
    identifier, whether the first call created the sensor, back-filled its
    label or only found it. *)
Theorem get_or_create_sensor_is_stable (metadata : gmap string string)
    (label : option string) (w w1 : world) (sid : Z) :
  get_or_create_sensor metadata label w = (Ok sid, w1) ->
  get_or_create_sensor metadata label w1 = (Ok sid, w1).
Proof.
  intros H.
  destruct (Py.is_empty (registration_number_of metadata)) eqn:Hreg.
  { unfold get_or_create_sensor in H. rewrite Hreg in H. discriminate H. }
  pose proof (get_or_create_sensor_cases metadata label w Hreg) as Hc.
  cbv zeta in Hc.
  destruct (find _ (sensors _ (cur w))) as [row|] eqn:Hfind.
  - destruct (Py.truthy_opt label && negb (Py.truthy_opt (Store.label row)))
      eqn:Hupd.
    + rewrite Hc in H. injection H as <- <-.
      pose proof (get_or_create_sensor_cases metadata label
                    (mk_world
                       (mk_connection
                          (set_sensors (cur w)
                             (map (fun s => if sensor_id s =? sensor_id row
                                            then mk_sensor (sensor_id s)
                                                   (sensor_type s)
                                                   (part_number s)
                                                   (registration_number s) label
                                            else s)
                                  (sensors _ (cur w))))
                          (set_sensors (cur w)
                             (map (fun s => if sensor_id s =? sensor_id row
                                            then mk_sensor (sensor_id s)
                                                   (sensor_type s)
                                                   (part_number s)
                                                   (registration_number s) label
                                            else s)
                                  (sensors _ (cur w)))))
                       (console _ w)) Hreg) as Hc2.
      cbv zeta in Hc2. cbn [conn current sensors set_sensors] in Hc2.
      rewrite (find_map_update
                 (fun s => String.eqb (registration_number s)
                             (registration_number_of metadata))
                 (fun s => sensor_id s =? sensor_id row)
                 (fun s => mk_sensor (sensor_id s) (sensor_type s)
                             (part_number s) (registration_number s) label))
        in Hc2 by reflexivity.
      rewrite Hfind in Hc2. cbn [fmap option_fmap option_map] in Hc2.
      rewrite Z.eqb_refl in Hc2. cbn [Store.label sensor_id] in Hc2.
      apply andb_true_iff in Hupd. destruct Hupd as [Hl _].
      rewrite Hl in Hc2. cbn [negb andb] in Hc2. exact Hc2.
    + rewrite Hc in H. injection H as <- <-.
      pose proof (get_or_create_sensor_cases metadata label w Hreg) as Hc2.
      cbv zeta in Hc2. rewrite Hfind, Hupd in Hc2. exact Hc2.
  - rewrite Hc in H. injection H as <- <-.
    match goal with
    | |- get_or_create_sensor _ _ ?w1 = _ =>
        pose proof (get_or_create_sensor_cases metadata label w1 Hreg) as Hc2
    end.
    cbv zeta in Hc2. cbn [conn current sensors set_sensors] in Hc2.
    rewrite (find_app_none _ _ _ Hfind) in Hc2.
    cbn [registration_number] in Hc2. rewrite String.eqb_refl in Hc2.
    cbn [Store.label sensor_id] in Hc2.
    destruct (Py.truthy_opt label); cbn [negb andb] in Hc2; exact Hc2.
Qed.

Lemma NoDup_map_eq {A B} (f : A -> B) (l : list A) (a b : A) :
  NoDup (map f l) -> In a l -> In b l -> f a = f b -> a = b.
Proof.
  induction l as [|x l IH]; [contradiction|]. cbn [map].
  intros Hnd Ha Hb Hf. apply NoDup_cons in Hnd. destruct Hnd as [Hx Hnd].
  assert (Hin : forall y, In y l -> f y ∈ map f l).
  { intros y Hy. apply list_elem_of_In. apply in_map. exact Hy. }
  destruct Ha as [<-|Ha], Hb as [<-|Hb].
  - reflexivity.
  - exfalso. apply Hx. rewrite Hf. apply Hin. exact Hb.
  - exfalso. apply Hx. rewrite <- Hf. apply Hin. exact Ha.
  - exact (IH Hnd Ha Hb Hf).
Qed.

(** X2: a sensor that has a label keeps its row: no later file, whatever
    its metadata and file name, rewrites it. *)
Theorem labelled_sensor_is_kept (metadata : gmap string string)
    (label : option string) (w w' : world) (r : result Z) (s : sensor) :
  NoDup (map sensor_id (sensors _ (cur w))) ->
  In s (sensors _ (cur w)) ->
  Py.truthy_opt (Store.label s) = true ->
  get_or_create_sensor metadata label w = (r, w') ->
  In s (sensors _ (cur w')).
Proof.
  intros Hnd Hin Hlab H.
  destruct (Py.is_empty (registration_number_of metadata)) eqn:Hreg.
  { unfold get_or_create_sensor in H. rewrite Hreg in H.
    injection H as _ <-. exact Hin. }
  pose proof (get_or_create_sensor_cases metadata label w Hreg) as Hc.
  cbv zeta in Hc.
  destruct (find _ (sensors _ (cur w))) as [row|] eqn:Hfind.
  - destruct (Py.truthy_opt label && negb (Py.truthy_opt (Store.label row)))
      eqn:Hupd; rewrite Hc in H; injection H as _ <-; [|exact Hin].
    cbn [conn current sensors set_sensors].
    apply in_map_iff. exists s. split; [|exact Hin].
    destruct (Z.eqb_spec (sensor_id s) (sensor_id row)) as [Heq|]; [|reflexivity].
    exfalso. apply find_some in Hfind. destruct Hfind as [Hrow _].
    assert (s = row) by exact (NoDup_map_eq sensor_id _ s row Hnd Hin Hrow Heq).
    subst s. apply andb_true_iff in Hupd. destruct Hupd as [_ Hno].
    rewrite Hlab in Hno. discriminate Hno.
  - rewrite Hc in H. injection H as _ <-.
    cbn [conn current sensors set_sensors]. apply in_or_app. left. exact Hin.
Qed.

Lemma get_or_create_sensor_keeps_keys (metadata : gmap string string)
    (label : option string) (w w' : world) (r : result Z) :
  get_or_create_sensor metadata label w = (r, w') ->
  unique_keys (cur w) -> unique_keys (cur w').
Proof.
  intros H Hu.
  destruct (Py.is_empty (registration_number_of metadata)) eqn:Hreg.
  { unfold get_or_create_sensor in H. rewrite Hreg in H.
    injection H as _ <-. exact Hu. }
  pose proof (get_or_create_sensor_cases metadata label w Hreg) as Hc.
  cbv zeta in Hc.
  destruct Hu as (U1 & U2 & U3 & U4 & U5 & U6 & U7).
  destruct (find _ (sensors _ (cur w))) as [row|] eqn:Hfind.
  - destruct (Py.truthy_opt label && negb (Py.truthy_opt (Store.label row)));
      rewrite Hc in H; injection H as _ <-;
      [|repeat split; assumption].
    unfold unique_keys.
    cbn [conn current sensors deployments sensor_deployments files
         set_sensors].
    rewrite !map_update_key by reflexivity. repeat split; assumption.
  - rewrite Hc in H. injection H as _ <-. unfold unique_keys.
    cbn [conn current sensors deployments sensor_deployments files
         set_sensors].
    rewrite !map_app. cbn [map sensor_id registration_number].
    split; [apply NoDup_snoc; [exact U1|apply next_id_fresh]|].
    split; [|repeat split; assumption].
    apply NoDup_snoc; [exact U2|].
    intros Hin. apply in_map_iff in Hin. destruct Hin as (s & Hs & Hin).
    pose proof (find_none _ _ Hfind s Hin) as Hne. cbv beta in Hne.
    rewrite Hs, String.eqb_refl in Hne. discriminate Hne.
Qed.

(** *** [upsert_sensor_deployment] *)

Lemma upsert_sensor_deployment_cases (sensor_id deployment_id : Z)
    (location_notes notes : option string) (w : world) :
  let same (r : sensor_deployment) :=
    (sd_sensor_id r =? sensor_id) && (sd_deployment_id r =? deployment_id) in
  let rows :=
    match find same (sensor_deployments _ (cur w)) with
    | Some _ =>
        map (fun r => if same r
                      then mk_sensor_deployment (sd_sensor_id r)
                             (sd_deployment_id r) location_notes notes
                      else r)
            (sensor_deployments _ (cur w))
    | None =>
        (sensor_deployments _ (cur w)
         ++ [mk_sensor_deployment sensor_id deployment_id location_notes
               notes])%list
    end in
  let d := set_sensor_deployments (cur w) rows in
  upsert_sensor_deployment sensor_id deployment_id location_notes notes w
  = (Ok tt, mk_world (mk_connection d d) (console _ w)).
Proof.
  cbv zeta. unfold upsert_sensor_deployment. step.
  destruct (find _ (sensor_deployments _ (cur w))); reflexivity.
Qed.

Lemma upsert_keeps_keys (sensor_id deployment_id : Z)
    (location_notes notes : option string) (w w' : world) (r : result unit) :
  upsert_sensor_deployment sensor_id deployment_id location_notes notes w
  = (r, w') ->
  unique_keys (cur w) -> unique_keys (cur w').
Proof.
  rewrite upsert_sensor_deployment_cases. intros [= _ <-].
  intros (U1 & U2 & U3 & U4 & U5 & U6 & U7). unfold unique_keys.
  cbn [conn current sensors deployments sensor_deployments files
       set_sensor_deployments].
  do 4 (split; [assumption|]). split; [|split; assumption].
  destruct (find _ (sensor_deployments _ (cur w))) as [row|] eqn:Hfind.
  - rewrite map_update_key by reflexivity. exact U5.
  - rewrite map_app. cbn [map sd_sensor_id sd_deployment_id].
    apply NoDup_snoc; [exact U5|].
    intros Hin. apply in_map_iff in Hin. destruct Hin as (x & Hx & Hin).
    pose proof (find_none _ _ Hfind x Hin) as Hne. cbv beta in Hne.
    injection Hx as Hs Hd. rewrite Hs, Hd, !Z.eqb_refl in Hne.
    discriminate Hne.
Qed.

(** X3: after an upsert every row of the pair carries the values just
    given, whatever was stored before, the rows of other pairs are what
    they were, and a pair that was present gets no second row. *)
Theorem upsert_sensor_deployment_overwrites (sensor_id deployment_id : Z)
    (location_notes notes : option string) (w w' : world) :
  upsert_sensor_deployment sensor_id deployment_id location_notes notes w
  = (Ok tt, w') ->
  (forall r, In r (sensor_deployments _ (cur w')) ->
             sd_sensor_id r = sensor_id -> sd_deployment_id r = deployment_id ->
             r = mk_sensor_deployment sensor_id deployment_id location_notes
                   notes)
  /\ (forall r, sd_sensor_id r <> sensor_id \/ sd_deployment_id r <> deployment_id ->
                (In r (sensor_deployments _ (cur w'))
                 <-> In r (sensor_deployments _ (cur w))))
  /\ ((exists r, In r (sensor_deployments _ (cur w))
                 /\ sd_sensor_id r = sensor_id
                 /\ sd_deployment_id r = deployment_id) ->
      length (sensor_deployments _ (cur w'))
      = length (sensor_deployments _ (cur w))).
Proof.
  rewrite upsert_sensor_deployment_cases. intros [= <-].
  cbn [conn current sensor_deployments set_sensor_deployments].
  assert (Hsame : forall r,
             (sd_sensor_id r =? sensor_id)
             && (sd_deployment_id r =? deployment_id) = true
             <-> sd_sensor_id r = sensor_id
                 /\ sd_deployment_id r = deployment_id).
  { intros r. rewrite andb_true_iff, !Z.eqb_eq. tauto. }
  assert (Hnot : forall r,
             (sd_sensor_id r =? sensor_id)
             && (sd_deployment_id r =? deployment_id) = false ->
             sd_sensor_id r = sensor_id -> sd_deployment_id r = deployment_id ->
             False).
  { intros r Hf Hs Hd. assert (Ht := proj2 (Hsame r) (conj Hs Hd)).
    congruence. }
  destruct (find _ (sensor_deployments _ (cur w))) as [row|] eqn:Hfind.
  - split; [|split].
    + intros r Hin Hs Hd. apply in_map_iff in Hin.
      destruct Hin as (x & Hx & _).
      destruct ((sd_sensor_id x =? sensor_id)
                && (sd_deployment_id x =? deployment_id)) eqn:Ex.
      * apply Hsame in Ex. destruct Ex as [E1 E2]. subst r.
        rewrite E1, E2. reflexivity.
      * subst x. exfalso. exact (Hnot r Ex Hs Hd).
    + intros r Hne. rewrite in_map_iff. split.
      * intros (x & Hx & Hin).
        destruct ((sd_sensor_id x =? sensor_id)
                  && (sd_deployment_id x =? deployment_id)) eqn:Ex.
        -- exfalso. apply Hsame in Ex. subst r. cbn in Hne. lia.
        -- subst x. exact Hin.
      * intros Hin. exists r. split; [|exact Hin].
        destruct ((sd_sensor_id r =? sensor_id)
                  && (sd_deployment_id r =? deployment_id)) eqn:Er;
          [|reflexivity].
        exfalso. apply Hsame in Er. lia.
    + intros _. apply length_map.
  - split; [|split].
    + intros r Hin Hs Hd. apply in_app_or in Hin. destruct Hin as [Hin|Hin].
      * pose proof (find_none _ _ Hfind r Hin) as Hn. cbv beta in Hn.
        exfalso. exact (Hnot r Hn Hs Hd).
      * destruct Hin as [<-|[]]. reflexivity.
    + intros r Hne. rewrite in_app_iff. split; [|tauto].
      intros [Hin|[<-|[]]]; [exact Hin|]. exfalso. cbn in Hne. lia.
    + intros (r & Hin & Hs & Hd). exfalso.
      pose proof (find_none _ _ Hfind r Hin) as Hn. cbv beta in Hn.
      exact (Hnot r Hn Hs Hd).
Qed.

(** *** [get_or_create_deployment] *)

Lemma get_or_create_deployment_cases (name site timezone_name : string)
    (notes : option string) (w : world) :
  match find (fun r => String.eqb (Store.name r) name)
          (deployments _ (cur w)) with
  | Some row =>
      if Py.truthy_opt notes
      then
        let d := set_deployments (cur w)
                   (map (fun r => if deployment_id r =? deployment_id row
                                  then mk_deployment (deployment_id r)
                                         (Store.name r) (Store.site r)
                                         (Store.timezone_name r) notes
                                  else r)
                        (deployments _ (cur w))) in
        get_or_create_deployment name site timezone_name notes w
        = (Ok (deployment_id row),
           mk_world (mk_connection d d) (console _ w))
      else get_or_create_deployment name site timezone_name notes w
           = (Ok (deployment_id row), w)
  | None =>
      let new_id := next_id (map deployment_id (deployments _ (cur w))) in
      let d := set_deployments (cur w)
                 (deployments _ (cur w)
                  ++ [mk_deployment new_id name site timezone_name notes]) in
      get_or_create_deployment name site timezone_name notes w
      = (Ok new_id, mk_world (mk_connection d d) (console _ w))
  end.
Proof.
  unfold get_or_create_deployment. step.
  destruct (find _ (deployments _ (cur w))) as [row|]; [|reflexivity].
  destruct (Py.truthy_opt notes); reflexivity.
Qed.

Lemma get_or_create_deployment_keeps_keys (name site timezone_name : string)
    (notes : option string) (w w' : world) (r : result Z) :
  get_or_create_deployment name site timezone_name notes w = (r, w') ->
  unique_keys (cur w) -> unique_keys (cur w').
Proof.
  intros H (U1 & U2 & U3 & U4 & U5 & U6 & U7).
  pose proof (get_or_create_deployment_cases name site timezone_name notes w)
    as Hc. cbv zeta in Hc.
  destruct (find _ (deployments _ (cur w))) as [row|] eqn:Hfind.
  - destruct (Py.truthy_opt notes); rewrite Hc in H; injection H as _ <-;
      [|repeat split; assumption].
    unfold unique_keys.
    cbn [conn current sensors deployments sensor_deployments files
         set_deployments].
    rewrite !map_update_key by reflexivity. repeat split; assumption.
  - rewrite Hc in H. injection H as _ <-. unfold unique_keys.
    cbn [conn current sensors deployments sensor_deployments files
         set_deployments].
    rewrite !map_app. cbn [map deployment_id Store.name].
    do 2 (split; [assumption|]).
    split; [apply NoDup_snoc; [exact U3|apply next_id_fresh]|].
    split; [|repeat split; assumption].
    apply NoDup_snoc; [exact U4|].
    intros Hin. apply in_map_iff in Hin. destruct Hin as (x & Hx & Hin).
    pose proof (find_none _ _ Hfind x Hin) as Hne. cbv beta in Hne.
    rewrite Hx, String.eqb_refl in Hne. discriminate Hne.
Qed.

(** X4: a deployment that exists under the name is reused as it is: the
    site and the time zone passed to the call are not stored, no row is
    added, and the notes change only when non-empty notes are given. *)
Theorem existing_deployment_keeps_site_and_zone
    (name site timezone_name : string) (notes : option string)
    (w : world) (row : deployment) :
  find (fun r => String.eqb (Store.name r) name) (deployments _ (cur w))
  = Some row ->
  exists w',
    get_or_create_deployment name site timezone_name notes w
    = (Ok (deployment_id row), w')
    /\ map (fun r => (deployment_id r, Store.name r, Store.site r,
                      Store.timezone_name r))
           (deployments _ (cur w'))
       = map (fun r => (deployment_id r, Store.name r, Store.site r,
                        Store.timezone_name r))
             (deployments _ (cur w))
    /\ (Py.truthy_opt notes = false -> w' = w).
Proof.
  intros Hfind.
  pose proof (get_or_create_deployment_cases name site timezone_name notes w)
    as Hc. cbv zeta in Hc. rewrite Hfind in Hc.
  destruct (Py.truthy_opt notes); eexists; (split; [exact Hc|]).
  - cbn [conn current deployments set_deployments].
    split; [|discriminate]. rewrite map_update_key by reflexivity.
    reflexivity.
  - split; reflexivity.
Qed.

End StoreFacts.

(** ** Further properties of the ingestion pipeline *)

Section IngestMore.

Variable float_t : Type.
Variable py_float : string -> option float_t.
Variable tzdb : string -> option ZoneInfo.zone.
Variable fs : string -> option csv_file.

Abbreviation world := (world float_t).
Abbreviation cur w := (current float_t (conn float_t w)).

Ltac step :=
  unfold bind, ret, raise, print, get_db, put_db, commit;
  cbn [conn console current committed fst snd
       sensors deployments sensor_deployments files temperature_readings
       set_sensors set_deployments set_sensor_deployments set_files
       set_readings].

(** *** The loop over the rows, in general *)

Lemma skipped_row_is_passed_over (data_start_line file_id deployment_id
    sensor_id : Z) (timezone_name : string) (fixed_offset : option string)
    (row : list string) (rs : list (list string)) (i : Z)
    (acc : list (reading float_t)) (w : world) :
  classify py_float tzdb timezone_name fixed_offset row = Skipped ->
  read_rows py_float tzdb i (row :: rs) data_start_line file_id deployment_id
    sensor_id timezone_name fixed_offset acc w
  = read_rows py_float tzdb (i + 1) rs data_start_line file_id deployment_id
      sensor_id timezone_name fixed_offset acc w.
Proof.
  intros Hc. cbn [read_rows].
  destruct (i <=? data_start_line); [reflexivity|].
  destruct row as [|c0 [|c1 [|c2 rest]]]; try reflexivity.
  unfold classify in Hc.
  destruct (Py.is_empty (Py.strip c0) || Py.is_empty (Py.strip c2));
    [reflexivity|].
  destruct (_ && _); discriminate Hc.
Qed.

Lemma count_class_cons (timezone_name : string) (fixed_offset : option string)
    (c : row_class) (row : list string) (rs : list (list string)) :
  count_class py_float tzdb timezone_name fixed_offset c (row :: rs)
  = ((if row_class_eqb
            (classify py_float tzdb timezone_name fixed_offset row) c
      then 1 else 0)
     + count_class py_float tzdb timezone_name fixed_offset c rs)%nat.
Proof.
  unfold count_class. cbn [List.filter].
  destruct (row_class_eqb _ c); reflexivity.
Qed.

Lemma read_rows_counts (data_start_line file_id deployment_id sensor_id : Z)
    (timezone_name : string) (fixed_offset : option string)
    (rs : list (list string)) :
  forall (i : Z) (acc : list (reading float_t)) (w : world),
    data_start_line < i ->
    exists new msgs,
      read_rows py_float tzdb i rs data_start_line file_id deployment_id
        sensor_id timezone_name fixed_offset acc w
      = (Ok (acc ++ new)%list, mk_world (conn _ w) (console _ w ++ msgs))
      /\ length new
         = count_class py_float tzdb timezone_name fixed_offset WellFormed rs
      /\ length msgs
         = count_class py_float tzdb timezone_name fixed_offset Malformed rs
      /\ Forall (fun m => is_row_warning m = true) msgs
      /\ Forall (reading_belongs_to tzdb timezone_name fixed_offset file_id
                   deployment_id sensor_id) new.
Proof.
  induction rs as [|row rs IH]; intros i acc w Hi.
  - exists [], []. cbn [read_rows]. unfold ret. rewrite !app_nil_r.
    destruct w. repeat split; constructor.
  - rewrite !count_class_cons.
    destruct (classify py_float tzdb timezone_name fixed_offset row) eqn:Hc;
      cbn [row_class_eqb].
    + rewrite skipped_row_is_passed_over by exact Hc.
      destruct (IH (i + 1) acc w ltac:(lia)) as (new & msgs & H & Hrest).
      exists new, msgs. split; [exact H|exact Hrest].
    + destruct (well_formed_row _ _ _ _ _ _ Hc)
        as (c0 & c1 & c2 & rest & t & v & -> & H0 & H2 & Hconv & _).
      cbn [read_rows].
      assert (Hle : (i <=? data_start_line) = false) by (apply Z.leb_gt; lia).
      rewrite Hle, H0, H2. cbn [orb]. rewrite Hconv.
      destruct (IH (i + 1)
                  (acc ++ [mk_reading float_t file_id deployment_id sensor_id
                             (Py.strip c0) t v 0])%list w ltac:(lia))
        as (new & msgs & H & Hn & Hm & Hw & Hb).
      exists (mk_reading float_t file_id deployment_id sensor_id
                (Py.strip c0) t v 0 :: new), msgs.
      rewrite H, <- app_assoc. cbn [app length].
      split; [reflexivity|]. split; [lia|]. split; [exact Hm|].
      split; [exact Hw|]. constructor; [|exact Hb].
      unfold reading_belongs_to.
      cbn [r_file_id r_deployment_id r_sensor_id quality_flag
           time_local_text time_utc].
      do 4 (split; [reflexivity|]).
      unfold convert_row in Hconv.
      destruct (local_to_utc tzdb (Py.strip c0) timezone_name fixed_offset)
        as [t'|e]; [|discriminate Hconv].
      destruct (py_float (Py.strip c2)); [|discriminate Hconv].
      injection Hconv as -> _. reflexivity.
    + destruct (malformed_row _ _ _ _ _ _ Hc)
        as (c0 & c1 & c2 & rest & e & -> & H0 & H2 & Hconv).
      cbn [read_rows].
      assert (Hle : (i <=? data_start_line) = false) by (apply Z.leb_gt; lia).
      rewrite Hle, H0, H2. cbn [orb]. rewrite Hconv. unfold bind, print.
      destruct (IH (i + 1) acc
                  (mk_world (conn _ w) (console _ w ++ [RowWarning i e]))
                  ltac:(lia))
        as (new & msgs & H & Hn & Hm & Hw & Hb).
      exists new, (RowWarning i e :: msgs).
      rewrite H. cbn [conn console length]. rewrite <- app_assoc.
      split; [reflexivity|]. split; [lia|]. split; [lia|].
      split; [constructor; [reflexivity|exact Hw]|exact Hb].
Qed.

(** *** One file, in general *)

(** What [ingest_csv_file] does with a file that is not yet in table
    [files]. *)
Lemma ingest_fresh_file
    (w : world) (csv_path : string) (f : csv_file) (deployment_id : Z)
    (timezone_name : string) (doc : deployment_metadata)
    (fixed_offset : option string)
    (metadata : gmap string string) (data_start_line : Z) :
  fs csv_path = Some f ->
  parse_ibutton_header csv_path f = Ok (metadata, data_start_line) ->
  Py.is_empty (registration_number_of metadata) = false ->
  (forall row, In row (files _ (cur w)) -> sha256 row <> sha256_hex f) ->
  let label := derive_label (path_stem csv_path) in
  let entry := sensor_entry doc label in
  let data := drop (Z.to_nat data_start_line) (rows f) in
  exists w' sid w1 w2 frow new msgs,
    ingest_csv_file py_float tzdb fs csv_path deployment_id timezone_name
      doc fixed_offset w = (Ok tt, w')
    /\ get_or_create_sensor metadata label
         (mk_world (conn _ w) (console _ w ++ [Parsing (path_name csv_path)]))
       = (Ok sid, w1)
    /\ upsert_sensor_deployment sid deployment_id (entry ≫= sm_location)
         (entry ≫= sm_notes) w1 = (Ok tt, w2)
    /\ cur w' = set_readings (set_files (cur w2) (files _ (cur w) ++ [frow]))
                  (temperature_readings _ (cur w) ++ new)
    /\ file_id frow = next_id (map file_id (files _ (cur w)))
    /\ f_deployment_id frow = deployment_id /\ f_sensor_id frow = sid
    /\ path frow = csv_path /\ sha256 frow = sha256_hex f
    /\ length new
       = count_class py_float tzdb timezone_name fixed_offset WellFormed data
    /\ length msgs
       = count_class py_float tzdb timezone_name fixed_offset Malformed data
    /\ Forall (fun m => is_row_warning m = true) msgs
    /\ Forall (reading_belongs_to tzdb timezone_name fixed_offset
                 (file_id frow) deployment_id sid) new
    /\ console _ w'
       = (console _ w ++ [Parsing (path_name csv_path)] ++ msgs
          ++ [if decide (new = [])
              then NoValidReadings (path_name csv_path)
              else Ingested (Z.of_nat (length new)) (path_name csv_path)])%list
    /\ committed _ (conn _ w')
       = (if decide (new = []) then cur w2 else cur w')
    /\ files _ (cur w2) = files _ (cur w).
Proof.
  intros Hfs Hparse Hreg Hnew label entry data.
  pose proof (data_start_line_positive _ _ _ _ Hparse) as Hpos.
  unfold ingest_csv_file. rewrite Hfs. unfold bind at 1. unfold print at 1.
  set (w0 := mk_world (conn _ w) (console _ w ++ [Parsing (path_name csv_path)])).
  rewrite Hparse. fold label. fold entry.
  destruct (get_or_create_sensor_runs _ metadata label w0 Hreg)
    as (sid & w1 & Hs & Hc1 & [Hf1 Hr1] & _).
  destruct (upsert_sensor_deployment_runs _ sid deployment_id
              (entry ≫= sm_location) (entry ≫= sm_notes) w1)
    as (w2 & Hu & Hc2 & [Hf2 Hr2] & _).
  assert (Hcommitted : committed _ (conn _ w2) = cur w2).
  { pose proof (upsert_sensor_deployment_cases _ sid deployment_id
                  (entry ≫= sm_location) (entry ≫= sm_notes) w1) as Hcase.
    cbv zeta in Hcase. rewrite Hu in Hcase. injection Hcase as ->.
    reflexivity. }
  assert (Hfiles : files _ (cur w2) = files _ (cur w))
    by (rewrite Hf2, Hf1; reflexivity).
  assert (Hreads : temperature_readings _ (cur w2)
                   = temperature_readings _ (cur w))
    by (rewrite Hr2, Hr1; reflexivity).
  assert (Hcons : console _ w2
                  = (console _ w ++ [Parsing (path_name csv_path)])%list)
    by (rewrite Hc2, Hc1; reflexivity).
  assert (Hunseen : file_already_ingested (sha256_hex f) w2 = (Ok false, w2)).
  { apply unseen_when_hash_new. rewrite Hfiles. exact Hnew. }
  unfold bind at 1. rewrite Hs. unfold bind at 1. rewrite Hu.
  unfold bind at 1. rewrite Hunseen.
  set (file_metadata := if Py.truthy_opt (entry ≫= sm_notes) then _ else _).
  set (fid := next_id (map file_id (files _ (cur w2)))).
  set (frow := mk_file_row fid deployment_id sid csv_path (sha256_hex f)
                 file_metadata).
  unfold bind at 1. unfold get_db at 1. cbv beta iota. fold fid. fold frow.
  unfold bind at 1. unfold put_db at 1. cbv beta iota.
  set (w3 := mk_world _ _).
  unfold bind at 1.
  rewrite read_rows_header by lia.
  replace (Z.to_nat (data_start_line + 1 - 1)) with (Z.to_nat data_start_line)
    by lia.
  fold data.
  destruct (read_rows_counts data_start_line fid deployment_id sid
              timezone_name fixed_offset data (data_start_line + 1) [] w3
              ltac:(lia))
    as (new & msgs & Hloop & Hn & Hm & Hw & Hb).
  rewrite Hloop. cbn [app].
  assert (Hfid : fid = next_id (map file_id (files _ (cur w))))
    by (subst fid; rewrite Hfiles; reflexivity).
  destruct new as [|r0 new'].
  - exists (mk_world (conn _ w3)
              ((console _ w3 ++ msgs)
               ++ [NoValidReadings (path_name csv_path)])),
           sid, w1, w2, frow, [], msgs.
    split; [reflexivity|]. split; [first [exact Hs|reflexivity]|].
    split; [first [exact Hu|reflexivity]|].
    subst w3. cbn [conn current console committed].
    split.
    { rewrite app_nil_r, Hfiles, <- Hreads. destruct (cur w2); reflexivity. }
    split; [exact Hfid|]. do 4 (split; [reflexivity|]).
    split; [exact Hn|]. split; [exact Hm|]. split; [exact Hw|].
    split; [exact Hb|]. split.
    { rewrite Hcons, <- !app_assoc. reflexivity. }
    split; [exact Hcommitted|exact Hfiles].
  - step.
    eexists _, sid, w1, w2, frow, (r0 :: new'), msgs.
    split; [reflexivity|]. split; [first [exact Hs|reflexivity]|].
    split; [first [exact Hu|reflexivity]|].
    subst w3. cbn [conn current console committed files
                   temperature_readings set_files set_readings].
    split.
    { rewrite Hfiles, Hreads. reflexivity. }
    split; [exact Hfid|]. do 4 (split; [reflexivity|]).
    split; [exact Hn|]. split; [exact Hm|]. split; [exact Hw|].
    split; [exact Hb|]. split.
    { rewrite Hcons, <- !app_assoc. reflexivity. }
    split; [|exact Hfiles]. rewrite Hfiles, Hreads. reflexivity.
Qed.

(** What [ingest_csv_file] does with a file whose hash is in table
    [files]. *)
Lemma ingest_duplicate_file
    (w : world) (csv_path : string) (f : csv_file) (deployment_id : Z)
    (timezone_name : string) (doc : deployment_metadata)
    (fixed_offset : option string)
    (metadata : gmap string string) (data_start_line : Z) :
  fs csv_path = Some f ->
  parse_ibutton_header csv_path f = Ok (metadata, data_start_line) ->
  Py.is_empty (registration_number_of metadata) = false ->
  (exists row, In row (files _ (cur w)) /\ sha256 row = sha256_hex f) ->
  let label := derive_label (path_stem csv_path) in
  let entry := sensor_entry doc label in
  exists sid w1 w2,
    get_or_create_sensor metadata label
      (mk_world (conn _ w) (console _ w ++ [Parsing (path_name csv_path)]))
    = (Ok sid, w1)
    /\ upsert_sensor_deployment sid deployment_id (entry ≫= sm_location)
         (entry ≫= sm_notes) w1 = (Ok tt, w2)
    /\ ingest_csv_file py_float tzdb fs csv_path deployment_id timezone_name
         doc fixed_offset w
       = (Ok tt,
          mk_world (conn _ w2)
            (console _ w2 ++ [AlreadyIngested (path_name csv_path)]))
    /\ files _ (cur w2) = files _ (cur w)
    /\ temperature_readings _ (cur w2) = temperature_readings _ (cur w).
Proof.
  intros Hfs Hparse Hreg Hdup label entry.
  unfold ingest_csv_file. rewrite Hfs. unfold bind at 1. unfold print at 1.
  set (w0 := mk_world (conn _ w) (console _ w ++ [Parsing (path_name csv_path)])).
  rewrite Hparse. fold label. fold entry.
  destruct (get_or_create_sensor_runs _ metadata label w0 Hreg)
    as (sid & w1 & Hs & Hc1 & [Hf1 Hr1] & _).
  destruct (upsert_sensor_deployment_runs _ sid deployment_id
              (entry ≫= sm_location) (entry ≫= sm_notes) w1)
    as (w2 & Hu & Hc2 & [Hf2 Hr2] & _).
  assert (Hfiles : files _ (cur w2) = files _ (cur w))
    by (rewrite Hf2, Hf1; reflexivity).
  assert (Hreads : temperature_readings _ (cur w2)
                   = temperature_readings _ (cur w))
    by (rewrite Hr2, Hr1; reflexivity).
  assert (Hseen : file_already_ingested (sha256_hex f) w2 = (Ok true, w2)).
  { apply seen_when_hash_stored. destruct Hdup as (row & Hin & Hsha).
    exists row. split; [|exact Hsha]. rewrite Hfiles. exact Hin. }
  exists sid, w1, w2. split; [exact Hs|]. split; [exact Hu|].
  unfold bind at 1. rewrite Hs. unfold bind at 1. rewrite Hu.
  unfold bind at 1. rewrite Hseen. unfold print.
  split; [reflexivity|]. split; [exact Hfiles|exact Hreads].
Qed.

Lemma hash_stored_or_new (sha : string) (l : list file_row) :
  (exists row, In row l /\ sha256 row = sha)
  \/ (forall row, In row l -> sha256 row <> sha).
Proof.
  induction l as [|x l IH].
  - right. intros row [].
  - destruct (String.eqb_spec (sha256 x) sha) as [Heq|Hne].
    + left. exists x. split; [left; reflexivity|exact Heq].
    + destruct IH as [(row & Hin & Hsha)|Hnew].
      * left. exists row. split; [right; exact Hin|exact Hsha].
      * right. intros row [<-|Hin]; [exact Hne|exact (Hnew row Hin)].
Qed.

(** The ways [ingest_csv_file] can raise. *)
Lemma ingest_raises_early
    (w w' : world) (csv_path : string) (deployment_id : Z)
    (timezone_name : string) (doc : deployment_metadata)
    (fixed_offset : option string) (e : exn) :
  ingest_csv_file py_float tzdb fs csv_path deployment_id timezone_name
    doc fixed_offset w = (Raise e, w') ->
  conn _ w' = conn _ w
  /\ ((fs csv_path = None
       /\ e = FileNotFoundError ("CSV file not found: " ++ csv_path)
       /\ w' = w)
      \/ (exists f, fs csv_path = Some f
                    /\ parse_ibutton_header csv_path f = Raise e
                    /\ e = ValueError ("Could not find data section in "
                                         ++ csv_path))
      \/ (exists f metadata data_start_line,
             fs csv_path = Some f
             /\ parse_ibutton_header csv_path f
                = Ok (metadata, data_start_line)
             /\ Py.is_empty (registration_number_of metadata) = true
             /\ e = ValueError "Registration number not found in metadata")).
Proof.
  intros H.
  destruct (fs csv_path) as [f|] eqn:Hfs.
  2:{ unfold ingest_csv_file in H. rewrite Hfs in H. unfold raise in H.
      injection H as <- <-. split; [reflexivity|]. left. repeat split. }
  destruct (parse_ibutton_header csv_path f) as [[metadata dsl]|e0] eqn:Hparse.
  2:{ unfold ingest_csv_file in H. rewrite Hfs in H.
      unfold bind at 1 in H. unfold print at 1 in H. rewrite Hparse in H.
      unfold raise in H.
      injection H as <- <-. split; [reflexivity|]. right. left.
      exists f. split; [reflexivity|]. split; [exact Hparse|].
      unfold parse_ibutton_header in Hparse.
      destruct (scan_header 1 (rows f) ∅) as [m d].
      destruct (d =? 0); [|discriminate Hparse].
      injection Hparse as <-. reflexivity. }
  destruct (Py.is_empty (registration_number_of metadata)) eqn:Hreg.
  - unfold ingest_csv_file in H. rewrite Hfs in H.
    unfold bind at 1 in H. unfold print at 1 in H. rewrite Hparse in H.
    unfold bind at 1 in H.
    rewrite get_or_create_sensor_raises in H by exact Hreg.
    injection H as <- <-. split; [reflexivity|]. right. right.
    exists f, metadata, dsl.
    split; [reflexivity|]. split; [exact Hparse|]. split; [exact Hreg|].
    reflexivity.
  - exfalso.
    destruct (sensor_overrides_apply _ py_float tzdb fs w csv_path f
                deployment_id timezone_name doc fixed_offset metadata dsl
                Hfs Hparse Hreg) as (sid & w'' & Hok & _).
    rewrite Hok in H. discriminate H.
Qed.

Lemma count_class_total (timezone_name : string) (fixed_offset : option string)
    (rs : list (list string)) :
  (count_class py_float tzdb timezone_name fixed_offset Skipped rs
   + count_class py_float tzdb timezone_name fixed_offset WellFormed rs
   + count_class py_float tzdb timezone_name fixed_offset Malformed rs)%nat
  = length rs.
Proof.
  induction rs as [|row rs IH]; [reflexivity|].
  rewrite !count_class_cons. cbn [length].
  destruct (classify py_float tzdb timezone_name fixed_offset row);
    cbn [row_class_eqb]; lia.
Qed.

Lemma filter_all_true {A} (p : A -> bool) (l : list A) :
  Forall (fun a => p a = true) l -> List.filter p l = l.
Proof.
  induction 1 as [|a l Ha _ IH]; [reflexivity|].
  cbn [List.filter]. rewrite Ha, IH. reflexivity.
Qed.

(** X8: every row of the data block of a new file is accounted for: the
    rows that convert become the new readings, each tied to the new file
    row, its sensor and the deployment; each row that does not convert
    gives one warning; the other rows are passed over in silence. *)
Theorem every_data_row_is_stored_warned_or_skipped
    (w : world) (csv_path : string) (f : csv_file) (deployment_id : Z)
    (timezone_name : string) (doc : deployment_metadata)
    (fixed_offset : option string)
    (metadata : gmap string string) (data_start_line : Z) :
  fs csv_path = Some f ->
  parse_ibutton_header csv_path f = Ok (metadata, data_start_line) ->
  Py.is_empty (registration_number_of metadata) = false ->
  (forall row, In row (files _ (cur w)) -> sha256 row <> sha256_hex f) ->
  let data := drop (Z.to_nat data_start_line) (rows f) in
  let count := count_class py_float tzdb timezone_name fixed_offset in
  exists w' sid frow new msgs,
    ingest_csv_file py_float tzdb fs csv_path deployment_id timezone_name
      doc fixed_offset w = (Ok tt, w')
    /\ files _ (cur w') = (files _ (cur w) ++ [frow])%list
    /\ temperature_readings _ (cur w')
       = (temperature_readings _ (cur w) ++ new)%list
    /\ List.filter is_row_warning (console _ w')
       = (List.filter is_row_warning (console _ w) ++ msgs)%list
    /\ length new = count WellFormed data
    /\ length msgs = count Malformed data
    /\ (length new + length msgs + count Skipped data)%nat = length data
    /\ Forall (reading_belongs_to tzdb timezone_name fixed_offset
                 (file_id frow) deployment_id sid) new
    /\ f_sensor_id frow = sid /\ f_deployment_id frow = deployment_id.
Proof.
  intros Hfs Hparse Hreg Hnew data count.
  destruct (ingest_fresh_file w csv_path f deployment_id timezone_name doc
              fixed_offset metadata data_start_line Hfs Hparse Hreg Hnew)
    as (w' & sid & w1 & w2 & frow & new & msgs & Hrun & _ & _ & Hcur & _
        & Hfd & Hfs' & _ & _ & Hn & Hm & Hw & Hb & Hcons & _).
  exists w', sid, frow, new, msgs.
  split; [exact Hrun|]. rewrite Hcur.
  cbn [files temperature_readings set_files set_readings].
  do 2 (split; [reflexivity|]). split.
  { rewrite Hcons, !List.filter_app. cbn [List.filter is_row_warning].
    rewrite (filter_all_true _ _ Hw).
    destruct (decide (new = [])); cbn [List.filter is_row_warning];
      rewrite !app_nil_r; reflexivity. }
  split; [exact Hn|]. split; [exact Hm|]. split.
  { subst count data. rewrite Hn, Hm.
    pose proof (count_class_total timezone_name fixed_offset
                  (drop (Z.to_nat data_start_line) (rows f))). lia. }
  split; [exact Hb|]. split; [exact Hfs'|exact Hfd].
Qed.

(** X10: a new file none of whose rows converts is entered in table
    [files] on the connection, but the call does not commit it: when it
    returns, the committed table does not hold the file's hash. *)
Theorem file_without_readings_is_not_committed
    (w : world) (csv_path : string) (f : csv_file) (deployment_id : Z)
    (timezone_name : string) (doc : deployment_metadata)
    (fixed_offset : option string)
    (metadata : gmap string string) (data_start_line : Z) :
  fs csv_path = Some f ->
  parse_ibutton_header csv_path f = Ok (metadata, data_start_line) ->
  Py.is_empty (registration_number_of metadata) = false ->
  (forall row, In row (files _ (cur w)) -> sha256 row <> sha256_hex f) ->
  count_class py_float tzdb timezone_name fixed_offset WellFormed
    (drop (Z.to_nat data_start_line) (rows f)) = 0%nat ->
  exists w' frow,
    ingest_csv_file py_float tzdb fs csv_path deployment_id timezone_name
      doc fixed_offset w = (Ok tt, w')
    /\ In frow (files _ (cur w')) /\ sha256 frow = sha256_hex f
    /\ temperature_readings _ (cur w') = temperature_readings _ (cur w)
    /\ (forall row, In row (files _ (committed _ (conn _ w'))) ->
                    sha256 row <> sha256_hex f).
Proof.
  intros Hfs Hparse Hreg Hnew Hzero.
  destruct (ingest_fresh_file w csv_path f deployment_id timezone_name doc
              fixed_offset metadata data_start_line Hfs Hparse Hreg Hnew)
    as (w' & sid & w1 & w2 & frow & new & msgs & Hrun & _ & _ & Hcur & _
        & _ & _ & _ & Hsha & Hn & _ & _ & _ & _ & Hcomm & Hfiles).
  rewrite Hzero in Hn. destruct new; [|discriminate Hn].
  exists w', frow. split; [exact Hrun|]. rewrite Hcur, Hcomm.
  cbn [files temperature_readings set_files set_readings].
  split; [apply in_or_app; right; left; reflexivity|].
  split; [exact Hsha|]. split; [apply app_nil_r|].
  destruct (decide (@nil (reading float_t) = [])) as [_|Hne]; [|congruence].
  rewrite Hfiles. exact Hnew.
Qed.

Lemma get_or_create_sensor_keeps_deployments (metadata : gmap string string)
    (label : option string) (w w' : world) (r : result Z) :
  get_or_create_sensor metadata label w = (r, w') ->
  deployments _ (cur w') = deployments _ (cur w).
Proof.
  intros H.
  destruct (Py.is_empty (registration_number_of metadata)) eqn:Hreg.
  { unfold get_or_create_sensor in H. rewrite Hreg in H.
    injection H as _ <-. reflexivity. }
  pose proof (get_or_create_sensor_cases _ metadata label w Hreg) as Hc.
  cbv zeta in Hc.
  destruct (find _ (sensors _ (cur w))) as [row|].
  - destruct (_ && _); rewrite Hc in H; injection H as _ <-; reflexivity.
  - rewrite Hc in H. injection H as _ <-. reflexivity.
Qed.

Lemma upsert_keeps_deployments (sensor_id deployment_id : Z)
    (location_notes notes : option string) (w w' : world) (r : result unit) :
  upsert_sensor_deployment sensor_id deployment_id location_notes notes w
  = (r, w') ->
  deployments _ (cur w') = deployments _ (cur w).
Proof.
  pose proof (upsert_sensor_deployment_cases _ sensor_id deployment_id
                location_notes notes w) as Hc.
  cbv zeta in Hc. rewrite Hc. intros [= _ <-]. reflexivity.
Qed.

(** The outcome of [ingest_csv_file] on the tables it does not own and on
    the uniqueness of keys. *)
Lemma ingest_keeps_keys_and_deployments
    (w w' : world) (csv_path : string) (deployment_id : Z)
    (timezone_name : string) (doc : deployment_metadata)
    (fixed_offset : option string) (r : result unit) :
  ingest_csv_file py_float tzdb fs csv_path deployment_id timezone_name
    doc fixed_offset w = (r, w') ->
  deployments _ (cur w') = deployments _ (cur w)
  /\ (unique_keys (cur w) -> unique_keys (cur w')).
Proof.
  intros H. destruct r as [[]|e].
  2:{ destruct (ingest_raises_early _ _ _ _ _ _ _ _ H) as [Hconn _].
      rewrite Hconn. split; [reflexivity|tauto]. }
  destruct (fs csv_path) as [f|] eqn:Hfs.
  2:{ unfold ingest_csv_file in H. rewrite Hfs in H. discriminate H. }
  destruct (parse_ibutton_header csv_path f) as [[metadata dsl]|e0] eqn:Hparse.
  2:{ unfold ingest_csv_file in H. rewrite Hfs in H.
      unfold bind at 1 in H. unfold print at 1 in H. rewrite Hparse in H.
      discriminate H. }
  destruct (Py.is_empty (registration_number_of metadata)) eqn:Hreg.
  { unfold ingest_csv_file in H. rewrite Hfs in H.
    unfold bind at 1 in H. unfold print at 1 in H. rewrite Hparse in H.
    unfold bind at 1 in H.
    rewrite get_or_create_sensor_raises in H by exact Hreg. discriminate H. }
  destruct (hash_stored_or_new (sha256_hex f) (files _ (cur w)))
    as [Hdup|Hnew].
  - destruct (ingest_duplicate_file w csv_path f deployment_id timezone_name
                doc fixed_offset metadata dsl Hfs Hparse Hreg Hdup)
      as (sid & w1 & w2 & Hs & Hu & Hrun & _).
    rewrite Hrun in H. injection H as <-. cbn [conn].
    split.
    + rewrite (upsert_keeps_deployments _ _ _ _ _ _ _ Hu).
      rewrite (get_or_create_sensor_keeps_deployments _ _ _ _ _ Hs).
      reflexivity.
    + intros Hk. apply (upsert_keeps_keys _ _ _ _ _ _ _ _ Hu).
      apply (get_or_create_sensor_keeps_keys _ _ _ _ _ _ Hs). exact Hk.
  - destruct (ingest_fresh_file w csv_path f deployment_id timezone_name
                doc fixed_offset metadata dsl Hfs Hparse Hreg Hnew)
      as (w'' & sid & w1 & w2 & frow & new & msgs & Hrun & Hs & Hu & Hcur
          & Hfid & _ & _ & _ & Hsha & _ & _ & _ & _ & _ & _ & Hfiles).
    rewrite Hrun in H. injection H as <-. rewrite Hcur.
    cbn [deployments set_files set_readings].
    split.
    + rewrite (upsert_keeps_deployments _ _ _ _ _ _ _ Hu).
      rewrite (get_or_create_sensor_keeps_deployments _ _ _ _ _ Hs).
      reflexivity.
    + intros Hk.
      assert (Hk2 : unique_keys (cur w2)).
      { apply (upsert_keeps_keys _ _ _ _ _ _ _ _ Hu).
        apply (get_or_create_sensor_keeps_keys _ _ _ _ _ _ Hs). exact Hk. }
      destruct Hk2 as (U1 & U2 & U3 & U4 & U5 & U6 & U7).
      unfold unique_keys.
      cbn [sensors deployments sensor_deployments files set_files
           set_readings].
      do 5 (split; [assumption|]).
      rewrite Hfiles in U6, U7. rewrite !map_app. cbn [map].
      split; apply NoDup_snoc; try assumption.
      * rewrite Hfid. apply next_id_fresh.
      * rewrite Hsha. intros Hin. apply in_map_iff in Hin.
        destruct Hin as (x & Hx & Hin). exact (Hnew x Hin Hx).
Qed.

(** X13: ingestion never breaks the uniqueness of keys, whatever the file
    and however the call ends: sensor and file identifiers, registration
    numbers, hashes and sensor-deployment pairs stay without repetition.
    *)
Theorem ingest_keeps_unique_keys
    (w w' : world) (csv_path : string) (deployment_id : Z)
    (timezone_name : string) (doc : deployment_metadata)
    (fixed_offset : option string) (r : result unit) :
  unique_keys (cur w) ->
  ingest_csv_file py_float tzdb fs csv_path deployment_id timezone_name
    doc fixed_offset w = (r, w') ->
  unique_keys (cur w').
Proof.
  intros Hk H.
  exact (proj2 (ingest_keeps_keys_and_deployments _ _ _ _ _ _ _ _ H) Hk).
Qed.

Lemma ingest_records_hash
    (w w' : world) (csv_path : string) (f : csv_file) (deployment_id : Z)
    (timezone_name : string) (doc : deployment_metadata)
    (fixed_offset : option string) :
  fs csv_path = Some f ->
  ingest_csv_file py_float tzdb fs csv_path deployment_id timezone_name
    doc fixed_offset w = (Ok tt, w') ->
  exists row, In row (files _ (cur w')) /\ sha256 row = sha256_hex f.
Proof.
  intros Hfs H.
  destruct (parse_ibutton_header csv_path f) as [[metadata dsl]|e0] eqn:Hparse.
  2:{ unfold ingest_csv_file in H. rewrite Hfs in H.
      unfold bind at 1 in H. unfold print at 1 in H. rewrite Hparse in H.
      discriminate H. }
  destruct (Py.is_empty (registration_number_of metadata)) eqn:Hreg.
  { unfold ingest_csv_file in H. rewrite Hfs in H.
    unfold bind at 1 in H. unfold print at 1 in H. rewrite Hparse in H.
    unfold bind at 1 in H.
    rewrite get_or_create_sensor_raises in H by exact Hreg. discriminate H. }
  destruct (hash_stored_or_new (sha256_hex f) (files _ (cur w)))
    as [Hdup|Hnew].
  - destruct (ingest_duplicate_file w csv_path f deployment_id timezone_name
                doc fixed_offset metadata dsl Hfs Hparse Hreg Hdup)
      as (sid & w1 & w2 & _ & _ & Hrun & Hfiles & _).
    rewrite Hrun in H. injection H as <-. cbn [conn]. rewrite Hfiles.
    exact Hdup.
  - destruct (ingest_fresh_file w csv_path f deployment_id timezone_name
                doc fixed_offset metadata dsl Hfs Hparse Hreg Hnew)
      as (w'' & sid & w1 & w2 & frow & new & msgs & Hrun & _ & _ & Hcur
          & _ & _ & _ & _ & Hsha & _).
    rewrite Hrun in H. injection H as <-. rewrite Hcur.
    cbn [files set_files set_readings]. exists frow.
    split; [apply in_or_app; right; left; reflexivity|exact Hsha].
Qed.


(** *** The batch *)

Lemma ingest_files_runs (deployment_id : Z) (timezone_name : string)
    (doc : deployment_metadata) (fixed_offset : option string)
    (csv_files : list string) :
  forall w : world,
  exists w',
    ingest_files py_float tzdb fs csv_files deployment_id timezone_name doc
      fixed_offset w = (Ok tt, w')
    /\ deployments _ (cur w') = deployments _ (cur w)
    /\ (unique_keys (cur w) -> unique_keys (cur w'))
    /\ (length (temperature_readings _ (cur w))
        <= length (temperature_readings _ (cur w')))%nat.
Proof.
  induction csv_files as [|p rest IH]; intros w.
  - exists w. cbn [ingest_files]. unfold ret.
    split; [reflexivity|]. split; [reflexivity|]. split; [tauto|lia].
  - cbn [ingest_files].
    destruct (ingest_csv_file py_float tzdb fs p deployment_id timezone_name
                doc fixed_offset w) as [r w1] eqn:H1.
    destruct (ingest_keeps_keys_and_deployments _ _ _ _ _ _ _ _ H1)
      as [Hd Hk].
    assert (Hlen : (length (temperature_readings _ (cur w))
                    <= length (temperature_readings _ (cur w1)))%nat).
    { destruct r as [[]|e].
      2:{ destruct (ingest_raises_early _ _ _ _ _ _ _ _ H1) as [-> _]. lia. }
      destruct (fs p) as [f|] eqn:Hfs.
      2:{ unfold ingest_csv_file in H1. rewrite Hfs in H1. discriminate H1. }
      destruct (parse_ibutton_header p f) as [[metadata dsl]|e0] eqn:Hparse.
      2:{ unfold ingest_csv_file in H1. rewrite Hfs in H1.
          unfold bind at 1 in H1. unfold print at 1 in H1.
          rewrite Hparse in H1. discriminate H1. }
      destruct (Py.is_empty (registration_number_of metadata)) eqn:Hreg.
      { unfold ingest_csv_file in H1. rewrite Hfs in H1.
        unfold bind at 1 in H1. unfold print at 1 in H1.
        rewrite Hparse in H1. unfold bind at 1 in H1.
        rewrite get_or_create_sensor_raises in H1 by exact Hreg.
        discriminate H1. }
      destruct (hash_stored_or_new (sha256_hex f) (files _ (cur w)))
        as [Hdup|Hnew].
      - destruct (ingest_duplicate_file w p f deployment_id timezone_name
                    doc fixed_offset metadata dsl Hfs Hparse Hreg Hdup)
          as (sid & wa & wb & _ & _ & Hrun & _ & Hreads).
        rewrite Hrun in H1. injection H1 as <-. cbn [conn].
        rewrite Hreads. lia.
      - destruct (ingest_fresh_file w p f deployment_id timezone_name
                    doc fixed_offset metadata dsl Hfs Hparse Hreg Hnew)
          as (w'' & sid & wa & wb & frow & new & msgs & Hrun & _ & _ & Hcur
              & _).
        rewrite Hrun in H1. injection H1 as <-. rewrite Hcur.
        cbn [temperature_readings set_readings]. rewrite length_app. lia. }
    match goal with
    | |- context [ingest_files _ _ _ rest _ _ _ _ ?w2] =>
        destruct (IH w2) as (w' & Hrun & Hd' & Hk' & Hlen')
    end.
    exists w'. split; [exact Hrun|].
    assert (Hcur : forall e, cur (mk_world (conn _ w1)
                                    (console _ w1 ++ [ErrorProcessing p e]))
                             = cur w1) by reflexivity.
    destruct r as [u|e].
    + split; [rewrite Hd', Hd; reflexivity|].
      split; [intros Hu; apply Hk', Hk, Hu|lia].
    + rewrite Hcur in Hd', Hk', Hlen'.
      split; [rewrite Hd', Hd; reflexivity|].
      split; [intros Hu; apply Hk', Hk, Hu|lia].
Qed.

(** X18: the loop of [main] over the files always comes to its end: a file
    that raises is reported and the next one is taken. The loop never
    touches table [deployments], never removes a reading and keeps the
    keys unique. *)
Theorem batch_survives_every_file (deployment_id : Z) (timezone_name : string)
    (doc : deployment_metadata) (fixed_offset : option string)
    (csv_files : list string) (w : world) :
  exists w',
    ingest_files py_float tzdb fs csv_files deployment_id timezone_name doc
      fixed_offset w = (Ok tt, w')
    /\ deployments _ (cur w') = deployments _ (cur w)
    /\ (unique_keys (cur w) -> unique_keys (cur w'))
    /\ (length (temperature_readings _ (cur w))
        <= length (temperature_readings _ (cur w')))%nat.
Proof. apply ingest_files_runs. Qed.

Lemma deployment_is_stored (name site timezone_name : string)
    (notes : option string) (w w' : world) (id : Z) :
  get_or_create_deployment name site timezone_name notes w = (Ok id, w') ->
  exists row, In row (deployments _ (cur w'))
              /\ Store.name row = name /\ deployment_id row = id.
Proof.
  intros H.
  pose proof (get_or_create_deployment_cases _ name site timezone_name notes w)
    as Hc. cbv zeta in Hc.
  destruct (find _ (deployments _ (cur w))) as [row|] eqn:Hfind.
  - apply find_some in Hfind. destruct Hfind as [Hin Hname].
    apply String.eqb_eq in Hname.
    destruct (Py.truthy_opt notes); rewrite Hc in H; injection H as <- <-.
    + cbn [conn current deployments set_deployments].
      exists (mk_deployment (deployment_id row) (Store.name row)
                (Store.site row) (Store.timezone_name row) notes).
      split; [|split; [exact Hname|reflexivity]].
      apply in_map_iff. exists row. rewrite Z.eqb_refl.
      split; [reflexivity|exact Hin].
    + exists row. split; [exact Hin|]. split; [exact Hname|reflexivity].
  - rewrite Hc in H. injection H as <- <-.
    cbn [conn current deployments set_deployments]. eexists.
    split; [apply in_or_app; right; left; reflexivity|].
    split; reflexivity.
Qed.

(** X19: [main] never raises. Without a deployment name or a site, from
    the command line or the document, it stops before touching the store;
    otherwise it runs to the end, the deployment of that name is in the
    store, and the keys are still unique. *)
Theorem main_runs_to_completion (args : arguments) (csv_files : list string)
    (doc : deployment_metadata) (w : world) :
  let s := resolve_settings args doc in
  if Py.truthy_opt (deployment_name s) && Py.truthy_opt (site_name s)
  then
    exists w',
      main py_float tzdb fs args csv_files doc w = (Ok (Some tt), w')
      /\ (exists row, In row (deployments _ (cur w'))
                      /\ Some (Store.name row) = deployment_name s)
      /\ (unique_keys (cur w) -> unique_keys (cur w'))
  else
    main py_float tzdb fs args csv_files doc w
    = (Ok None, mk_world (conn _ w) (console _ w ++ [MissingDeploymentOrSite])).
Proof.
  intros s. unfold main. fold s.
  destruct (Py.truthy_opt (deployment_name s) && Py.truthy_opt (site_name s))
    eqn:Hboth; [|reflexivity].
  apply andb_true_iff in Hboth. destruct Hboth as [Hname _].
  destruct (deployment_name s) as [dname|] eqn:Hd; [|discriminate Hname].
  cbn [default from_option]. change (Datatypes.id dname) with dname.
  destruct (get_or_create_deployment dname (default "" (site_name s))
              (st_timezone_name s) (deployment_notes s) w)
    as [r w1] eqn:H1.
  assert (Hok : exists id, r = Ok id).
  { pose proof (get_or_create_deployment_cases _ dname
                  (default "" (site_name s)) (st_timezone_name s)
                  (deployment_notes s) w) as Hc. cbv zeta in Hc.
    destruct (find _ (deployments _ (cur w))).
    - destruct (Py.truthy_opt (deployment_notes s)); rewrite Hc in H1;
        injection H1 as <- _; eauto.
    - rewrite Hc in H1. injection H1 as <- _. eauto. }
  destruct Hok as [id ->].
  destruct (deployment_is_stored _ _ _ _ _ _ _ H1) as (row & Hin & Hrn & _).
  pose proof (get_or_create_deployment_keeps_keys _ _ _ _ _ _ _ _ H1) as Hk1.
  unfold bind at 1. rewrite H1. unfold bind at 1. unfold print at 1.
  unfold bind at 1.
  match goal with
  | |- context [ingest_files _ _ _ ?l ?d ?tz ?dc ?off ?w2] =>
      destruct (ingest_files_runs d tz dc off l w2)
        as (w3 & Hrun & Hdep & Hk3 & _)
  end.
  rewrite Hrun. step.
  eexists. split; [reflexivity|]. cbn [conn].
  cbn [conn current] in Hdep, Hk3.
  split.
  - exists row. rewrite Hdep. split; [exact Hin|]. rewrite Hrn. reflexivity.
  - intros Hu. apply Hk3, Hk1, Hu.
Qed.


End IngestMore.

(** ** The header block *)

Lemma scan_header_stop (i : Z) (row : list string) (rs : list (list string))
    (m : gmap string string) :
  is_data_header row = true -> scan_header i (row :: rs) m = (m, i).
Proof.
  intros H. destruct row as [|c0 cs]; [discriminate H|].
  cbn [scan_header]. cbn [is_data_header] in H. cbv zeta in H.
  rewrite H. reflexivity.
Qed.

Lemma scan_header_step (i : Z) (row : list string) (rs : list (list string))
    (m : gmap string string) :
  is_data_header row = false ->
  scan_header i (row :: rs) m = scan_header (i + 1) rs (add_entry m row).
Proof.
  intros H. destruct row as [|c0 cs]; [reflexivity|].
  cbn [scan_header]. cbn [is_data_header] in H. cbv zeta in H.
  rewrite H. unfold add_entry, header_entry.
  destruct cs as [|c1 cs]; [|reflexivity].
  destruct (Py.split_once ":" c0) as [|k [|v [|x l]]]; reflexivity.
Qed.

Lemma scan_header_block (pre : list (list string)) :
  forall (i : Z) (m : gmap string string) (hdr : list string)
         (rest : list (list string)),
    Forall (fun r => is_data_header r = false) pre ->
    is_data_header hdr = true ->
    scan_header i (pre ++ hdr :: rest) m
    = (fold_left add_entry pre m, i + Z.of_nat (length pre)).
Proof.
  induction pre as [|row pre IH]; intros i m hdr rest Hpre Hhdr.
  - cbn [app fold_left length]. rewrite scan_header_stop by exact Hhdr.
    f_equal. lia.
  - inversion Hpre as [|? ? Hrow Hrest]; subst.
    cbn [app fold_left length]. rewrite scan_header_step by exact Hrow.
    rewrite (IH _ _ hdr rest Hrest Hhdr). f_equal. lia.
Qed.

Lemma scan_header_none (rs : list (list string)) :
  forall (i : Z) (m : gmap string string),
    Forall (fun r => is_data_header r = false) rs ->
    snd (scan_header i rs m) = 0.
Proof.
  induction rs as [|row rs IH]; intros i m H; [reflexivity|].
  inversion H as [|? ? Hrow Hrest]; subst.
  rewrite scan_header_step by exact Hrow. apply IH. exact Hrest.
Qed.

(** X5: the header block ends at the first row whose first field is
    "Date/Time" or "Date Time": the rows before it give the metadata, its
    line number (from 1) is the start of the data, the rows after it are
    the data block and have no part in the result. *)
Theorem header_ends_at_first_data_header
    (csv_path : string) (sha : string) (pre rest : list (list string))
    (hdr : list string) :
  Forall (fun r => is_data_header r = false) pre ->
  is_data_header hdr = true ->
  let f := mk_csv_file (pre ++ hdr :: rest) sha in
  parse_ibutton_header csv_path f
  = Ok (fold_left add_entry pre ∅, Z.of_nat (length pre) + 1)
  /\ drop (Z.to_nat (Z.of_nat (length pre) + 1)) (rows f) = rest.
Proof.
  intros Hpre Hhdr f. subst f. unfold parse_ibutton_header. cbn [rows].
  rewrite (scan_header_block pre 1 ∅ hdr rest Hpre Hhdr).
  assert (H0 : (1 + Z.of_nat (length pre) =? 0) = false)
    by (apply Z.eqb_neq; lia).
  rewrite H0. split; [f_equal; f_equal; lia|].
  replace (Z.to_nat (Z.of_nat (length pre) + 1)) with (length (pre ++ [hdr]))
    by (rewrite length_app; cbn [length]; lia).
  replace (pre ++ hdr :: rest)%list with ((pre ++ [hdr]) ++ rest)%list
    by (rewrite <- app_assoc; reflexivity).
  apply drop_app_length.
Qed.

(** X6: a file without a data-header row, the empty file included, is
    refused with the "Could not find data section" [ValueError]. *)
Theorem file_without_data_header_is_refused (csv_path : string) (f : csv_file) :
  Forall (fun r => is_data_header r = false) (rows f) ->
  parse_ibutton_header csv_path f
  = Raise (ValueError ("Could not find data section in " ++ csv_path)).
Proof.
  intros H. unfold parse_ibutton_header.
  pose proof (scan_header_none (rows f) 1 ∅ H) as Hz.
  destruct (scan_header 1 (rows f) ∅) as [m d]. cbn [snd] in Hz. subst d.
  reflexivity.
Qed.

Lemma fold_add_entry_lookup (rows : list (list string)) :
  forall (m : gmap string string) (k : string),
    Forall (fun r => forall v, header_entry r <> Some (k, v)) rows ->
    fold_left add_entry rows m !! k = m !! k.
Proof.
  induction rows as [|row rows IH]; intros m k H; [reflexivity|].
  inversion H as [|? ? Hrow Hrest]; subst. cbn [fold_left].
  rewrite (IH _ _ Hrest). unfold add_entry.
  destruct (header_entry row) as [[k' v']|]; [|reflexivity].
  apply lookup_insert_ne. intros ->. exact (Hrow v' eq_refl).
Qed.

Lemma fold_add_entry_origin (rows : list (list string)) :
  forall (m : gmap string string) (k v : string),
    fold_left add_entry rows m !! k = Some v ->
    m !! k = Some v \/ exists row, In row rows /\ header_entry row = Some (k, v).
Proof.
  induction rows as [|row rows IH]; intros m k v H; [left; exact H|].
  cbn [fold_left] in H. destruct (IH _ _ _ H) as [Hm|(r & Hin & Hr)].
  - unfold add_entry in Hm.
    destruct (header_entry row) as [[k' v']|] eqn:He; [|left; exact Hm].
    destruct (decide (k' = k)) as [->|Hne].
    + rewrite lookup_insert_eq in Hm. injection Hm as ->.
      right. exists row. split; [left; reflexivity|exact He].
    + rewrite lookup_insert_ne in Hm by exact Hne. left. exact Hm.
  - right. exists r. split; [right; exact Hin|exact Hr].
Qed.

(** X7: for a key that occurs more than once in the header block the last
    row wins, and every key of the metadata was written by some row of the
    block. *)
Theorem last_header_row_wins
    (csv_path : string) (sha : string)
    (before_row after_row rest : list (list string))
    (row hdr : list string) (k v : string) :
  Forall (fun r => is_data_header r = false)
    (before_row ++ row :: after_row) ->
  is_data_header hdr = true ->
  header_entry row = Some (k, v) ->
  Forall (fun r => forall v', header_entry r <> Some (k, v')) after_row ->
  exists metadata line,
    parse_ibutton_header csv_path
      (mk_csv_file ((before_row ++ row :: after_row) ++ hdr :: rest) sha)
    = Ok (metadata, line)
    /\ metadata !! k = Some v
    /\ forall k' v', metadata !! k' = Some v' ->
         exists r, In r (before_row ++ row :: after_row)
                   /\ header_entry r = Some (k', v').
Proof.
  intros Hpre Hhdr Hrow Hafter.
  unfold parse_ibutton_header. cbn [rows].
  rewrite (scan_header_block _ 1 ∅ hdr rest Hpre Hhdr).
  assert (H0 : (1 + Z.of_nat (length (before_row ++ row :: after_row)) =? 0)
               = false) by (apply Z.eqb_neq; lia).
  rewrite H0. eexists _, _. split; [reflexivity|]. split.
  - rewrite fold_left_app. cbn [fold_left].
    rewrite (fold_add_entry_lookup after_row _ k Hafter).
    unfold add_entry. rewrite Hrow. apply lookup_insert_eq.
  - intros k' v' Hk.
    destruct (fold_add_entry_origin _ _ _ _ Hk) as [Hm|Hr]; [|exact Hr].
    rewrite lookup_empty in Hm. discriminate Hm.
Qed.

(** ** Time zones, in general *)

Section ZoneFacts.

Variable tzdb : string -> option ZoneInfo.zone.

Lemma zone_branch (dt : Datetime.datetime) (name : string)
    (fixed_offset : option string) :
  Py.truthy_opt fixed_offset = false ->
  to_utc tzdb dt name fixed_offset = apply_zone tzdb dt name.
Proof.
  intros Hnone. unfold to_utc. destruct fixed_offset as [off|]; [|reflexivity].
  cbn [Py.truthy_opt] in Hnone. rewrite Hnone. reflexivity.
Qed.

Lemma offset_after_app (prev : Z) (pre rest : list (Z * Z)) :
  ZoneInfo.offset_after prev (pre ++ rest)
  = ZoneInfo.offset_after (ZoneInfo.offset_after prev pre) rest.
Proof.
  revert prev. induction pre as [|[t o] pre IH]; intros prev; cbn.
  - reflexivity.
  - apply IH.
Qed.

(** The offset [utcoffset] finds for a wall-clock reading [L] that lies
    after the [fold=1] instants of [pre] and before that of [post]. *)
Lemma utcoffset_between (z : ZoneInfo.zone) (pre post : list (Z * Z)) (L : Z) :
  ZoneInfo.transitions z = (pre ++ post)%list ->
  Forall (fun w => w <= L)
    (ZoneInfo.trans_local true (ZoneInfo.utcoff_before z) pre) ->
  (forall t' o' post',
      post = (t', o') :: post' ->
      L < t' + Z.min (ZoneInfo.offset_after (ZoneInfo.utcoff_before z) pre) o') ->
  ZoneInfo.utcoffset z true L
  = ZoneInfo.offset_after (ZoneInfo.utcoff_before z) pre.
Proof.
  intros Htrans Hwall Hnext.
  unfold ZoneInfo.utcoffset. rewrite Htrans.
  rewrite find_trans_local_skip by exact Hwall.
  destruct post as [|[t' o'] post']; [reflexivity|].
  cbn [ZoneInfo.trans_local ZoneInfo.find_trans].
  pose proof (Hnext t' o' post' eq_refl).
  assert (H2 : (t' + Z.min (ZoneInfo.offset_after (ZoneInfo.utcoff_before z) pre)
                       o' <=? L) = false) by (apply Z.leb_gt; lia).
  rewrite H2. reflexivity.
Qed.

(** The offset in force at a UTC instant [u] that lies after the
    transitions [pre] and before the transitions [post]. *)
Lemma utcoffset_at_between (z : ZoneInfo.zone) (pre post : list (Z * Z)) (u : Z) :
  ZoneInfo.transitions z = (pre ++ post)%list ->
  Forall (fun t => t <= u) (map fst pre) ->
  (forall t' o' post', post = (t', o') :: post' -> u < t') ->
  ZoneInfo.utcoffset_at z u
  = ZoneInfo.offset_after (ZoneInfo.utcoff_before z) pre.
Proof.
  intros Htrans Hutc Hnext.
  unfold ZoneInfo.utcoffset_at. rewrite Htrans.
  rewrite find_trans_utc_skip by exact Hutc.
  destruct post as [|[t' o'] post']; [reflexivity|].
  cbn [map fst ZoneInfo.find_trans].
  pose proof (Hnext t' o' post' eq_refl).
  assert (H2 : (t' <=? u) = false) by (apply Z.leb_gt; lia).
  rewrite H2. reflexivity.
Qed.

(** In a well-formed table the [fold=1] instants of the transitions
    [pre] are not after the instant of the last one on the clock of the
    offset it starts. *)
Lemma walls_before_last (z : ZoneInfo.zone) (pre post : list (Z * Z)) (L : Z) :
  ZoneInfo.well_formed z = true ->
  ZoneInfo.transitions z = (pre ++ post)%list ->
  Forall (fun t => t + ZoneInfo.offset_after (ZoneInfo.utcoff_before z) pre <= L)
    (map fst pre) ->
  Forall (fun w => w <= L)
    (ZoneInfo.trans_local true (ZoneInfo.utcoff_before z) pre).
Proof.
  intros Hwf. induction pre as [|[T a] pre' _] using rev_ind;
    intros Htrans Hpast.
  - constructor.
  - unfold ZoneInfo.well_formed in Hwf. apply andb_true_iff in Hwf.
    destruct Hwf as [_ Hwall]. rewrite Htrans in Hwall.
    rewrite <- app_assoc in Hwall. cbn [app] in Hwall.
    rewrite trans_local_app in Hwall. cbn [ZoneInfo.trans_local] in Hwall.
    apply increasing_before in Hwall.
    rewrite offset_after_app in Hpast. cbn [ZoneInfo.offset_after] in Hpast.
    rewrite map_app, Forall_app in Hpast. destruct Hpast as [_ Hlast].
    cbn [map fst] in Hlast. inversion Hlast as [|? ? HT _]; subst.
    rewrite trans_local_app. cbn [ZoneInfo.trans_local].
    apply Forall_app. split.
    + eapply Forall_impl; [exact Hwall|]. cbv beta. intros; lia.
    + constructor; [lia|constructor].
Qed.

(** X22: in time-zone mode a wall-clock reading that lies past the
    transitions [pre] on the clock of the offset they leave in force, and
    before the next transition, is converted with that offset, and the
    result reads back in the zone as the same wall-clock time. *)
Theorem zone_time_round_trip
    (s name : string) (fixed_offset : option string) (z : ZoneInfo.zone)
    (dt : Datetime.datetime) (pre post : list (Z * Z)) :
  try_formats s formats = Ok (Some dt) ->
  Py.truthy_opt fixed_offset = false ->
  tzdb name = Some z ->
  ZoneInfo.well_formed z = true ->
  ZoneInfo.transitions z = (pre ++ post)%list ->
  Forall (fun t => t + ZoneInfo.offset_after (ZoneInfo.utcoff_before z) pre
                   <= Datetime.naive_seconds dt) (map fst pre) ->
  (forall t' o' post',
      post = (t', o') :: post' ->
      Datetime.naive_seconds dt
      < t' + Z.min (ZoneInfo.offset_after (ZoneInfo.utcoff_before z) pre) o') ->
  exists t,
    local_to_utc tzdb s name fixed_offset = Ok t
    /\ t = Datetime.naive_seconds dt
           - ZoneInfo.offset_after (ZoneInfo.utcoff_before z) pre
    /\ ZoneInfo.to_local z t = Datetime.naive_seconds dt.
Proof.
  intros Hparse Hnone Htz Hwf Htrans Hpast Hnext.
  set (L := Datetime.naive_seconds dt) in *.
  set (a := ZoneInfo.offset_after (ZoneInfo.utcoff_before z) pre) in *.
  pose proof (walls_before_last z pre post L Hwf Htrans Hpast) as Hwall.
  exists (L - a). split; [|split; [reflexivity|]].
  - unfold local_to_utc. rewrite Hparse, (zone_branch _ _ _ Hnone).
    unfold apply_zone. rewrite Htz. fold L.
    rewrite (utcoffset_between z pre post L Htrans Hwall Hnext). reflexivity.
  - unfold ZoneInfo.to_local.
    rewrite (utcoffset_at_between z pre post (L - a) Htrans).
    + fold a. lia.
    + eapply Forall_impl; [exact Hpast|]. cbv beta. fold a. intros; lia.
    + intros t' o' post' Hp. pose proof (Hnext t' o' post' Hp). fold a in H. lia.
Qed.

(** X23: in time-zone mode a wall-clock reading inside the hour that a
    spring-forward transition skips is converted with the offset in force
    after the transition: the result lies before the transition and reads
    back in the zone as an earlier wall-clock time, earlier by the size of
    the jump. *)
Theorem spring_forward_gap_is_not_a_round_trip
    (s name : string) (fixed_offset : option string) (z : ZoneInfo.zone)
    (dt : Datetime.datetime) (pre post : list (Z * Z)) (T a : Z) :
  try_formats s formats = Ok (Some dt) ->
  Py.truthy_opt fixed_offset = false ->
  tzdb name = Some z ->
  ZoneInfo.well_formed z = true ->
  ZoneInfo.transitions z = (pre ++ (T, a) :: post)%list ->
  let p := ZoneInfo.offset_after (ZoneInfo.utcoff_before z) pre in
  p < a ->
  T + p <= Datetime.naive_seconds dt < T + a ->
  Forall (fun t => t + (a - p) <= T) (map fst pre) ->
  (forall t' o' post',
      post = (t', o') :: post' -> T + a <= t' + Z.min a o') ->
  exists t,
    local_to_utc tzdb s name fixed_offset = Ok t
    /\ t = Datetime.naive_seconds dt - a
    /\ t < T
    /\ ZoneInfo.to_local z t = Datetime.naive_seconds dt - (a - p).
Proof.
  intros Hparse Hnone Htz Hwf Htrans p Hjump HL Hsep Hnext.
  set (L := Datetime.naive_seconds dt) in *.
  assert (Htrans' : ZoneInfo.transitions z = ((pre ++ [(T, a)]) ++ post)%list).
  { rewrite Htrans, <- app_assoc. reflexivity. }
  assert (Hafter : ZoneInfo.offset_after (ZoneInfo.utcoff_before z)
                     (pre ++ [(T, a)]) = a).
  { rewrite offset_after_app. reflexivity. }
  assert (Hwall : Forall (fun w => w <= L)
                    (ZoneInfo.trans_local true (ZoneInfo.utcoff_before z)
                       (pre ++ [(T, a)]))).
  { unfold ZoneInfo.well_formed in Hwf. apply andb_true_iff in Hwf.
    destruct Hwf as [_ Hw]. rewrite Htrans in Hw.
    rewrite trans_local_app in Hw. cbn [ZoneInfo.trans_local] in Hw.
    apply increasing_before in Hw. fold p in Hw.
    rewrite trans_local_app. cbn [ZoneInfo.trans_local]. fold p.
    apply Forall_app. split.
    - eapply Forall_impl; [exact Hw|]. cbv beta. intros; lia.
    - constructor; [lia|constructor]. }
  exists (L - a). split; [|split; [reflexivity|split; [lia|]]].
  - unfold local_to_utc. rewrite Hparse, (zone_branch _ _ _ Hnone).
    unfold apply_zone. rewrite Htz. fold L.
    rewrite (utcoffset_between z (pre ++ [(T, a)]) post L Htrans' Hwall).
    + rewrite Hafter. reflexivity.
    + rewrite Hafter. intros t' o' post' Hp.
      pose proof (Hnext t' o' post' Hp). lia.
  - unfold ZoneInfo.to_local.
    rewrite (utcoffset_at_between z pre ((T, a) :: post) (L - a) Htrans).
    + fold p. lia.
    + eapply Forall_impl; [exact Hsep|]. cbv beta. intros; lia.
    + intros t' o' post' [= <- <- <-]. lia.
Qed.

Lemma unknown_zone_never_converts (s name : string)
    (fixed_offset : option string) :
  tzdb name = None ->
  Py.truthy_opt fixed_offset = false ->
  is_ok (local_to_utc tzdb s name fixed_offset) = false.
Proof.
  intros Htz Hnone. unfold local_to_utc.
  destruct (try_formats s formats) as [[dt|]|e]; try reflexivity.
  rewrite (zone_branch _ _ _ Hnone). unfold apply_zone. rewrite Htz.
  reflexivity.
Qed.

Lemma bad_offset_never_converts (s name off : string) :
  Py.truthy off = true ->
  is_ok (parse_offset_fields off) = false ->
  is_ok (local_to_utc tzdb s name (Some off)) = false.
Proof.
  intros Hoff Hbad. unfold local_to_utc.
  destruct (try_formats s formats) as [[dt|]|e]; try reflexivity.
  unfold to_utc. rewrite Hoff. unfold apply_fixed_offset.
  destruct (parse_offset_fields off) as [[h m]|e]; [discriminate Hbad|].
  reflexivity.
Qed.

End ZoneFacts.

(** ** Settings with which no timestamp converts *)

Section IngestSettings.

Variable float_t : Type.
Variable py_float : string -> option float_t.
Variable tzdb : string -> option ZoneInfo.zone.
Variable fs : string -> option csv_file.

Abbreviation world := (world float_t).
Abbreviation cur w := (current float_t (conn float_t w)).

Lemma nothing_converts_no_row_is_well_formed
    (timezone_name : string) (fixed_offset : option string)
    (rs : list (list string)) :
  (forall s, is_ok (local_to_utc tzdb s timezone_name fixed_offset) = false) ->
  count_class py_float tzdb timezone_name fixed_offset WellFormed rs = 0%nat.
Proof.
  intros Hnever. induction rs as [|row rs IH]; [reflexivity|].
  rewrite count_class_cons, IH.
  destruct row as [|c0 [|c1 [|c2 rest]]]; try reflexivity.
  unfold classify.
  destruct (Py.is_empty (Py.strip c0) || Py.is_empty (Py.strip c2));
    [reflexivity|].
  rewrite Hnever. reflexivity.
Qed.

(** What [ingest_csv_file] does with a new file under settings with
    which no timestamp converts. *)
Lemma ingest_when_nothing_converts
    (w : world) (csv_path : string) (f : csv_file) (deployment_id : Z)
    (timezone_name : string) (doc : deployment_metadata)
    (fixed_offset : option string)
    (metadata : gmap string string) (data_start_line : Z) :
  fs csv_path = Some f ->
  parse_ibutton_header csv_path f = Ok (metadata, data_start_line) ->
  Py.is_empty (registration_number_of metadata) = false ->
  (forall row, In row (files _ (cur w)) -> sha256 row <> sha256_hex f) ->
  (forall s, is_ok (local_to_utc tzdb s timezone_name fixed_offset) = false) ->
  let data := drop (Z.to_nat data_start_line) (rows f) in
  exists w' msgs,
    ingest_csv_file py_float tzdb fs csv_path deployment_id timezone_name
      doc fixed_offset w = (Ok tt, w')
    /\ temperature_readings _ (cur w') = temperature_readings _ (cur w)
    /\ console _ w'
       = (console _ w ++ [Parsing (path_name csv_path)] ++ msgs
          ++ [NoValidReadings (path_name csv_path)])%list
    /\ Forall (fun m => is_row_warning m = true) msgs
    /\ (length msgs
        + count_class py_float tzdb timezone_name fixed_offset Skipped data)%nat
       = length data
    /\ (forall row, In row (files _ (committed _ (conn _ w'))) ->
                    sha256 row <> sha256_hex f).
Proof.
  intros Hfs Hparse Hreg Hnew Hnever data.
  destruct (ingest_fresh_file _ py_float tzdb fs w csv_path f deployment_id
              timezone_name doc fixed_offset metadata data_start_line
              Hfs Hparse Hreg Hnew)
    as (w' & sid & w1 & w2 & frow & new & msgs & Hrun & _ & _ & Hcur & _
        & _ & _ & _ & _ & Hn & Hm & Hw & _ & Hcons & Hcomm & Hfiles).
  rewrite nothing_converts_no_row_is_well_formed in Hn by exact Hnever.
  destruct new; [|discriminate Hn].
  destruct (decide (@nil (reading float_t) = [])) as [_|Hne]; [|congruence].
  exists w', msgs. split; [exact Hrun|]. rewrite Hcur, Hcomm.
  cbn [files temperature_readings set_files set_readings].
  split; [apply app_nil_r|]. split; [exact Hcons|]. split; [exact Hw|].
  split.
  - pose proof (count_class_total _ py_float tzdb timezone_name fixed_offset
                  (drop (Z.to_nat data_start_line) (rows f))) as Htot.
    rewrite nothing_converts_no_row_is_well_formed in Htot by exact Hnever.
    subst data. rewrite Hm. lia.
  - rewrite Hfiles. exact Hnew.
Qed.

(** X15: with a time-zone name the time-zone database does not know, and
    no fixed offset, a new file is read to its end without an exception:
    every row of the data block that is not passed over gives one warning,
    no reading is stored, the report is "No valid readings" and the file's
    hash is not committed. *)
Theorem unknown_time_zone_stores_no_reading
    (w : world) (csv_path : string) (f : csv_file) (deployment_id : Z)
    (timezone_name : string) (doc : deployment_metadata)
    (fixed_offset : option string)
    (metadata : gmap string string) (data_start_line : Z) :
  fs csv_path = Some f ->
  parse_ibutton_header csv_path f = Ok (metadata, data_start_line) ->
  Py.is_empty (registration_number_of metadata) = false ->
  (forall row, In row (files _ (cur w)) -> sha256 row <> sha256_hex f) ->
  tzdb timezone_name = None ->
  Py.truthy_opt fixed_offset = false ->
  let data := drop (Z.to_nat data_start_line) (rows f) in
  exists w' msgs,
    ingest_csv_file py_float tzdb fs csv_path deployment_id timezone_name
      doc fixed_offset w = (Ok tt, w')
    /\ temperature_readings _ (cur w') = temperature_readings _ (cur w)
    /\ console _ w'
       = (console _ w ++ [Parsing (path_name csv_path)] ++ msgs
          ++ [NoValidReadings (path_name csv_path)])%list
    /\ Forall (fun m => is_row_warning m = true) msgs
    /\ (length msgs
        + count_class py_float tzdb timezone_name fixed_offset Skipped data)%nat
       = length data
    /\ (forall row, In row (files _ (committed _ (conn _ w'))) ->
                    sha256 row <> sha256_hex f).
Proof.
  intros Hfs Hparse Hreg Hnew Htz Hnone.
  apply (ingest_when_nothing_converts w csv_path f deployment_id timezone_name
           doc fixed_offset metadata data_start_line Hfs Hparse Hreg Hnew).
  intros s. apply unknown_zone_never_converts; assumption.
Qed.

(** X16: with a non-empty fixed offset whose text after the first
    character does not split at the colon into exactly two integers
    (["-0400"], ["-4"], ["-04:00:00"]), a new file is read to its end
    without an exception: every row of the data block that is not passed
    over gives one warning, no reading is stored, and the file's hash is
    not committed. *)
Theorem unreadable_fixed_offset_stores_no_reading
    (w : world) (csv_path : string) (f : csv_file) (deployment_id : Z)
    (timezone_name : string) (doc : deployment_metadata) (off : string)
    (metadata : gmap string string) (data_start_line : Z) :
  fs csv_path = Some f ->
  parse_ibutton_header csv_path f = Ok (metadata, data_start_line) ->
  Py.is_empty (registration_number_of metadata) = false ->
  (forall row, In row (files _ (cur w)) -> sha256 row <> sha256_hex f) ->
  Py.truthy off = true ->
  is_ok (parse_offset_fields off) = false ->
  let data := drop (Z.to_nat data_start_line) (rows f) in
  exists w' msgs,
    ingest_csv_file py_float tzdb fs csv_path deployment_id timezone_name
      doc (Some off) w = (Ok tt, w')
    /\ temperature_readings _ (cur w') = temperature_readings _ (cur w)
    /\ console _ w'
       = (console _ w ++ [Parsing (path_name csv_path)] ++ msgs
          ++ [NoValidReadings (path_name csv_path)])%list
    /\ Forall (fun m => is_row_warning m = true) msgs
    /\ (length msgs
        + count_class py_float tzdb timezone_name (Some off) Skipped data)%nat
       = length data
    /\ (forall row, In row (files _ (committed _ (conn _ w'))) ->
                    sha256 row <> sha256_hex f).
Proof.
  intros Hfs Hparse Hreg Hnew Hoff Hbad.
  apply (ingest_when_nothing_converts w csv_path f deployment_id timezone_name
           doc (Some off) metadata data_start_line Hfs Hparse Hreg Hnew).
  intros s. apply bad_offset_never_converts; assumption.
Qed.

End IngestSettings.

(** ** Files that follow one another in a run *)

Section Batches.

Variable float_t : Type.
Variable py_float : string -> option float_t.
Variable tzdb : string -> option ZoneInfo.zone.
Variable fs : string -> option csv_file.

Abbreviation world := (world float_t).
Abbreviation cur w := (current float_t (conn float_t w)).

Lemma upsert_commits (sensor_id deployment_id : Z)
    (location_notes notes : option string) (w w' : world) :
  upsert_sensor_deployment sensor_id deployment_id location_notes notes w
  = (Ok tt, w') ->
  committed _ (conn _ w') = cur w'.
Proof.
  intros Hu.
  pose proof (upsert_sensor_deployment_cases _ sensor_id deployment_id
                location_notes notes w) as Hcase.
  cbv zeta in Hcase. rewrite Hu in Hcase. injection Hcase as ->.
  reflexivity.
Qed.

(** What a call of [ingest_csv_file] that gets past the registration
    number leaves committed: at least the rows table [files] held on the
    connection before the call; and every reading it adds belongs to a
    file row it has just entered. *)
Lemma ingest_commits_pending_files
    (w : world) (csv_path : string) (f : csv_file) (deployment_id : Z)
    (timezone_name : string) (doc : deployment_metadata)
    (fixed_offset : option string)
    (metadata : gmap string string) (data_start_line : Z) :
  fs csv_path = Some f ->
  parse_ibutton_header csv_path f = Ok (metadata, data_start_line) ->
  Py.is_empty (registration_number_of metadata) = false ->
  exists w' new,
    ingest_csv_file py_float tzdb fs csv_path deployment_id timezone_name
      doc fixed_offset w = (Ok tt, w')
    /\ (forall row, In row (files _ (cur w)) ->
                    In row (files _ (cur w'))
                    /\ In row (files _ (committed _ (conn _ w'))))
    /\ temperature_readings _ (cur w')
       = (temperature_readings _ (cur w) ++ new)%list
    /\ Forall (fun r => r_file_id _ r
                        = next_id (map file_id (files _ (cur w)))) new.
Proof.
  intros Hfs Hparse Hreg.
  destruct (hash_stored_or_new (sha256_hex f) (files _ (cur w)))
    as [Hdup|Hnew].
  - destruct (ingest_duplicate_file _ py_float tzdb fs w csv_path f
                deployment_id timezone_name doc fixed_offset metadata
                data_start_line Hfs Hparse Hreg Hdup)
      as (sid & w1 & w2 & _ & Hu & Hrun & Hf & Hr).
    eexists _, []. split; [exact Hrun|]. cbn [conn current].
    rewrite (upsert_commits _ _ _ _ _ _ Hu), Hf, Hr, app_nil_r.
    split; [intros row Hin; split; exact Hin|].
    split; [reflexivity|constructor].
  - destruct (ingest_fresh_file _ py_float tzdb fs w csv_path f deployment_id
                timezone_name doc fixed_offset metadata data_start_line
                Hfs Hparse Hreg Hnew)
      as (w' & sid & w1 & w2 & frow & new & msgs & Hrun & _ & _ & Hcur
          & Hid & _ & _ & _ & _ & _ & _ & _ & Hbel & _ & Hcomm & Hfiles).
    exists w', new. split; [exact Hrun|]. rewrite Hcomm. split.
    + intros row Hin.
      assert (Hin' : In row (files _ (cur w'))).
      { rewrite Hcur. cbn [files set_files set_readings].
        apply in_or_app. left. exact Hin. }
      split; [exact Hin'|].
      destruct (decide (new = [])); [rewrite Hfiles; exact Hin|exact Hin'].
    + rewrite Hcur. cbn [temperature_readings set_readings].
      split; [reflexivity|].
      eapply Forall_impl; [exact Hbel|]. cbv beta.
      intros r (Hfid & _). rewrite Hfid. exact Hid.
Qed.

(** X17: a file that gave no reading leaves its row in table [files]
    uncommitted; the next file of the run that gets past the registration
    number, whatever else becomes of it, commits that row. From then on
    the first file counts as ingested: whatever the settings of a later
    attempt, it is skipped, so none of its rows is ever stored. *)
Theorem empty_file_is_committed_by_the_next_file
    (w : world) (path_a path_b : string) (fa fb : csv_file)
    (deployment_id : Z) (timezone_name : string) (doc : deployment_metadata)
    (fixed_offset : option string)
    (metadata_a metadata_b : gmap string string) (start_a start_b : Z) :
  fs path_a = Some fa ->
  fs path_b = Some fb ->
  parse_ibutton_header path_a fa = Ok (metadata_a, start_a) ->
  parse_ibutton_header path_b fb = Ok (metadata_b, start_b) ->
  Py.is_empty (registration_number_of metadata_a) = false ->
  Py.is_empty (registration_number_of metadata_b) = false ->
  (forall row, In row (files _ (cur w)) -> sha256 row <> sha256_hex fa) ->
  count_class py_float tzdb timezone_name fixed_offset WellFormed
    (drop (Z.to_nat start_a) (rows fa)) = 0%nat ->
  exists w1 w2 row_a,
    ingest_csv_file py_float tzdb fs path_a deployment_id timezone_name doc
      fixed_offset w = (Ok tt, w1)
    /\ (forall row, In row (files _ (committed _ (conn _ w1))) ->
                    sha256 row <> sha256_hex fa)
    /\ ingest_csv_file py_float tzdb fs path_b deployment_id timezone_name doc
         fixed_offset w1 = (Ok tt, w2)
    /\ In row_a (files _ (committed _ (conn _ w2)))
    /\ sha256 row_a = sha256_hex fa
    /\ Forall (fun r => r_file_id _ r <> file_id row_a)
         (drop (length (temperature_readings _ (cur w)))
            (temperature_readings _ (cur w2)))
    /\ forall (deployment_id' : Z) (timezone_name' : string)
              (doc' : deployment_metadata) (fixed_offset' : option string),
         exists w3,
           ingest_csv_file py_float tzdb fs path_a deployment_id'
             timezone_name' doc' fixed_offset' w2 = (Ok tt, w3)
           /\ List.last (console _ w3) (Parsing "")
              = AlreadyIngested (path_name path_a)
           /\ files _ (cur w3) = files _ (cur w2)
           /\ temperature_readings _ (cur w3)
              = temperature_readings _ (cur w2).
Proof.
  intros Hfa Hfb Hpa Hpb Hra Hrb Hnewa Hzero.
  destruct (ingest_fresh_file _ py_float tzdb fs w path_a fa deployment_id
              timezone_name doc fixed_offset metadata_a start_a
              Hfa Hpa Hra Hnewa)
    as (w1 & sa & wa1 & wa2 & row_a & new_a & msgs_a & Hrun_a & _ & _ & Hcur_a
        & Hid_a & _ & _ & _ & Hsha_a & Hn_a & _ & _ & _ & _ & Hcomm_a
        & Hfiles_a).
  rewrite Hzero in Hn_a. destruct new_a; [|discriminate Hn_a].
  destruct (decide (@nil (reading float_t) = [])) as [_|Hne]; [|congruence].
  assert (Hfiles1 : files _ (cur w1) = (files _ (cur w) ++ [row_a])%list)
    by (rewrite Hcur_a; reflexivity).
  assert (Hreads1 : temperature_readings _ (cur w1)
                    = temperature_readings _ (cur w))
    by (rewrite Hcur_a; cbn [temperature_readings set_readings];
        apply app_nil_r).
  destruct (ingest_commits_pending_files w1 path_b fb deployment_id
              timezone_name doc fixed_offset metadata_b start_b Hfb Hpb Hrb)
    as (w2 & new_b & Hrun_b & Hkept & Hreads2 & Hbel).
  assert (Hin_a : In row_a (files _ (cur w2))
                  /\ In row_a (files _ (committed _ (conn _ w2)))).
  { apply Hkept. rewrite Hfiles1. apply in_or_app. right. left. reflexivity. }
  destruct Hin_a as [Hcur2 Hin_a].
  exists w1, w2, row_a.
  split; [exact Hrun_a|]. split.
  { rewrite Hcomm_a, Hfiles_a. exact Hnewa. }
  split; [exact Hrun_b|].
  split; [exact Hin_a|]. split; [exact Hsha_a|]. split.
  - rewrite Hreads2, Hreads1, drop_app_length.
    eapply Forall_impl; [exact Hbel|]. cbv beta.
    intros r ->. rewrite Hfiles1, map_app. cbn [map].
    assert (Hlt : file_id row_a
                  < next_id (map file_id (files _ (cur w)) ++ [file_id row_a])).
    { apply next_id_above. apply in_or_app. right. left. reflexivity. }
    lia.
  - intros deployment_id' timezone_name' doc' fixed_offset'.
    destruct (ingest_duplicate_file _ py_float tzdb fs w2 path_a fa
                deployment_id' timezone_name' doc' fixed_offset' metadata_a
                start_a Hfa Hpa Hra)
      as (sid & wd1 & wd2 & _ & _ & Hrun & Hf & Hr).
    { exists row_a. split; [exact Hcur2|exact Hsha_a]. }
    eexists. split; [exact Hrun|]. cbn [console conn current].
    split; [apply last_last|]. split; [exact Hf|exact Hr].
Qed.

End Batches.

(** ** References between the tables *)

Section References.

Variable float_t : Type.
Variable py_float : string -> option float_t.
Variable tzdb : string -> option ZoneInfo.zone.
Variable fs : string -> option csv_file.

Abbreviation world := (world float_t).
Abbreviation cur w := (current float_t (conn float_t w)).

(** What [get_or_create_sensor] does to the keys of table [sensors]. *)
Lemma get_or_create_sensor_ids (metadata : gmap string string)
    (label : option string) (w w1 : world) (sid : Z) :
  get_or_create_sensor metadata label w = (Ok sid, w1) ->
  In sid (map sensor_id (sensors _ (cur w1)))
  /\ (forall x, In x (map sensor_id (sensors _ (cur w))) ->
                In x (map sensor_id (sensors _ (cur w1))))
  /\ deployments _ (cur w1) = deployments _ (cur w)
  /\ sensor_deployments _ (cur w1) = sensor_deployments _ (cur w)
  /\ files _ (cur w1) = files _ (cur w)
  /\ temperature_readings _ (cur w1) = temperature_readings _ (cur w).
Proof.
  intros H.
  destruct (Py.is_empty (registration_number_of metadata)) eqn:Hreg.
  { unfold get_or_create_sensor in H. rewrite Hreg in H. discriminate H. }
  pose proof (get_or_create_sensor_cases _ metadata label w Hreg) as Hc.
  cbv zeta in Hc.
  destruct (find _ (sensors _ (cur w))) as [row|] eqn:Hfind.
  - apply find_some in Hfind. destruct Hfind as [Hin _].
    destruct (_ && _); rewrite Hc in H; injection H as <- <-.
    + cbn [conn current sensors deployments sensor_deployments files
           temperature_readings set_sensors].
      rewrite map_update_key by reflexivity.
      split; [apply in_map; exact Hin|]. split; [tauto|]. repeat split.
    + split; [apply in_map; exact Hin|]. split; [tauto|]. repeat split.
  - rewrite Hc in H. injection H as <- <-.
    cbn [conn current sensors deployments sensor_deployments files
         temperature_readings set_sensors].
    rewrite map_app. cbn [map sensor_id].
    split; [apply in_or_app; right; left; reflexivity|].
    split; [intros x Hx; apply in_or_app; left; exact Hx|]. repeat split.
Qed.

(** What [upsert_sensor_deployment] does to the keys of table
    [sensor_deployments]. *)
Lemma upsert_sensor_deployment_ids (sensor_id deployment_id : Z)
    (location_notes notes : option string) (w w' : world)
    (P : Z -> Z -> Prop) :
  upsert_sensor_deployment sensor_id deployment_id location_notes notes w
  = (Ok tt, w') ->
  P sensor_id deployment_id ->
  Forall (fun r => P (sd_sensor_id r) (sd_deployment_id r))
    (sensor_deployments _ (cur w)) ->
  Forall (fun r => P (sd_sensor_id r) (sd_deployment_id r))
    (sensor_deployments _ (cur w'))
  /\ sensors _ (cur w') = sensors _ (cur w)
  /\ deployments _ (cur w') = deployments _ (cur w)
  /\ files _ (cur w') = files _ (cur w)
  /\ temperature_readings _ (cur w') = temperature_readings _ (cur w).
Proof.
  intros H HP Hall.
  pose proof (upsert_sensor_deployment_cases _ sensor_id deployment_id
                location_notes notes w) as Hc.
  cbv zeta in Hc. rewrite Hc in H. injection H as <-.
  cbn [conn current sensors deployments sensor_deployments files
       temperature_readings set_sensor_deployments].
  split; [|repeat split].
  destruct (find _ (sensor_deployments _ (cur w))).
  - apply List.Forall_forall. intros r Hr. apply in_map_iff in Hr.
    destruct Hr as (r0 & <- & Hr0).
    rewrite List.Forall_forall in Hall. specialize (Hall r0 Hr0).
    destruct (_ && _); exact Hall.
  - apply Forall_app. split; [exact Hall|].
    constructor; [exact HP|constructor].
Qed.

(** One call of [ingest_csv_file] keeps the references between the
    tables resolved, when the deployment it is handed exists. *)
Lemma ingest_references
    (w w' : world) (csv_path : string) (deployment_id : Z)
    (timezone_name : string) (doc : deployment_metadata)
    (fixed_offset : option string) (r : result unit) :
  ingest_csv_file py_float tzdb fs csv_path deployment_id timezone_name
    doc fixed_offset w = (r, w') ->
  In deployment_id (map Store.deployment_id (deployments _ (cur w))) ->
  references_resolve (cur w) ->
  references_resolve (cur w').
Proof.
  intros H Hdep Href. destruct r as [[]|e].
  2:{ destruct (ingest_raises_early _ _ _ _ _ _ _ _ _ _ _ _ H) as [Hconn _].
      rewrite Hconn. exact Href. }
  destruct (fs csv_path) as [f|] eqn:Hfs.
  2:{ unfold ingest_csv_file in H. rewrite Hfs in H. discriminate H. }
  destruct (parse_ibutton_header csv_path f) as [[metadata dsl]|e0] eqn:Hparse.
  2:{ unfold ingest_csv_file in H. rewrite Hfs in H.
      unfold bind at 1 in H. unfold print at 1 in H. rewrite Hparse in H.
      discriminate H. }
  destruct (Py.is_empty (registration_number_of metadata)) eqn:Hreg.
  { unfold ingest_csv_file in H. rewrite Hfs in H.
    unfold bind at 1 in H. unfold print at 1 in H. rewrite Hparse in H.
    unfold bind at 1 in H.
    rewrite get_or_create_sensor_raises in H by exact Hreg. discriminate H. }
  destruct Href as (Hsd & Hfl & Hrd).
  assert (Hstep : forall sid w1 w2 loc notes,
             get_or_create_sensor metadata
               (derive_label (path_stem csv_path))
               (mk_world (conn _ w)
                  (console _ w ++ [Parsing (path_name csv_path)]))
             = (Ok sid, w1) ->
             upsert_sensor_deployment sid deployment_id loc notes w1
             = (Ok tt, w2) ->
             In sid (map sensor_id (sensors _ (cur w2)))
             /\ (forall x, In x (map sensor_id (sensors _ (cur w))) ->
                           In x (map sensor_id (sensors _ (cur w2))))
             /\ deployments _ (cur w2) = deployments _ (cur w)
             /\ files _ (cur w2) = files _ (cur w)
             /\ temperature_readings _ (cur w2)
                = temperature_readings _ (cur w)
             /\ Forall (fun r => In (sd_sensor_id r)
                                   (map sensor_id (sensors _ (cur w2)))
                                 /\ In (sd_deployment_id r)
                                      (map Store.deployment_id
                                         (deployments _ (cur w))))
                  (sensor_deployments _ (cur w2))).
  { intros sid w1 w2 loc notes Hs Hu.
    destruct (get_or_create_sensor_ids _ _ _ _ _ Hs)
      as (Hsid & Hmono & Hd1 & Hsd1 & Hf1 & Hr1).
    cbn [conn current] in Hmono, Hd1, Hsd1, Hf1, Hr1.
    destruct (upsert_sensor_deployment_ids sid deployment_id loc notes w1 w2
                (fun s d => In s (map sensor_id (sensors _ (cur w1)))
                            /\ In d (map Store.deployment_id
                                       (deployments _ (cur w))))
                Hu (conj Hsid Hdep))
      as (Hsd2 & Hs2 & Hd2 & Hf2 & Hr2).
    { rewrite Hsd1. eapply Forall_impl; [exact Hsd|]. cbv beta.
      intros r [Ha Hb]. split; [apply Hmono; exact Ha|exact Hb]. }
    rewrite Hs2, Hd2, Hf2, Hr2, Hd1, Hf1, Hr1.
    split; [exact Hsid|]. split; [exact Hmono|]. repeat split. exact Hsd2. }
  destruct (hash_stored_or_new (sha256_hex f) (files _ (cur w)))
    as [Hdup|Hnew].
  - destruct (ingest_duplicate_file _ py_float tzdb fs w csv_path f
                deployment_id timezone_name doc fixed_offset metadata dsl
                Hfs Hparse Hreg Hdup)
      as (sid & w1 & w2 & Hs & Hu & Hrun & _).
    rewrite Hrun in H. injection H as <-. cbn [conn current].
    destruct (Hstep _ _ _ _ _ Hs Hu) as (Hsid & Hmono & Hd2 & Hf2 & Hr2 & Hsd2).
    unfold references_resolve. cbv zeta. rewrite Hd2, Hf2, Hr2.
    split; [exact Hsd2|]. split.
    + eapply Forall_impl; [exact Hfl|]. cbv beta.
      intros r [Ha Hb]. split; [apply Hmono; exact Ha|exact Hb].
    + eapply Forall_impl; [exact Hrd|]. cbv beta.
      intros r (Ha & Hb & Hc). split; [exact Ha|].
      split; [apply Hmono; exact Hb|exact Hc].
  - destruct (ingest_fresh_file _ py_float tzdb fs w csv_path f deployment_id
                timezone_name doc fixed_offset metadata dsl Hfs Hparse Hreg
                Hnew)
      as (w'' & sid & w1 & w2 & frow & new & msgs & Hrun & Hs & Hu & Hcur
          & _ & Hfd & Hfsid & _ & _ & _ & _ & _ & Hbel & _).
    rewrite Hrun in H. injection H as <-.
    destruct (Hstep _ _ _ _ _ Hs Hu) as (Hsid & Hmono & Hd2 & Hf2 & Hr2 & Hsd2).
    unfold references_resolve. cbv zeta. rewrite Hcur.
    cbn [sensors deployments sensor_deployments files temperature_readings
         set_files set_readings].
    rewrite Hd2. split; [exact Hsd2|]. split.
    + apply Forall_app. split.
      * eapply Forall_impl; [exact Hfl|]. cbv beta.
        intros r [Ha Hb]. split; [apply Hmono; exact Ha|exact Hb].
      * constructor; [|constructor]. rewrite Hfsid, Hfd.
        split; [exact Hsid|exact Hdep].
    + rewrite map_app. cbn [map]. apply Forall_app. split.
      * eapply Forall_impl; [exact Hrd|]. cbv beta.
        intros r (Ha & Hb & Hc).
        split; [apply in_or_app; left; exact Ha|].
        split; [apply Hmono; exact Hb|exact Hc].
      * eapply Forall_impl; [exact Hbel|]. cbv beta.
        intros r (Ha & Hb & Hc & _). rewrite Ha, Hb, Hc.
        split; [apply in_or_app; right; left; reflexivity|].
        split; [exact Hsid|exact Hdep].
Qed.

(** X14: ingesting a file, with whatever outcome, never leaves a reference
    dangling: when every sensor, deployment and file a row of the store
    refers to exists before the call, and the deployment handed to the
    call exists, the same holds after it, the new file row and the new
    readings included. *)
Theorem ingest_keeps_references_resolved
    (w w' : world) (csv_path : string) (deployment_id : Z)
    (timezone_name : string) (doc : deployment_metadata)
    (fixed_offset : option string) (r : result unit) :
  references_resolve (cur w) ->
  In deployment_id (map Store.deployment_id (deployments _ (cur w))) ->
  ingest_csv_file py_float tzdb fs csv_path deployment_id timezone_name
    doc fixed_offset w = (r, w') ->
  references_resolve (cur w').
Proof.
  intros Href Hdep H.
  exact (ingest_references _ _ _ _ _ _ _ _ H Hdep Href).
Qed.

Lemma ingest_files_references (deployment_id : Z) (timezone_name : string)
    (doc : deployment_metadata) (fixed_offset : option string)
    (csv_files : list string) :
  forall (w w' : world) (r : result unit),
    ingest_files py_float tzdb fs csv_files deployment_id timezone_name doc
      fixed_offset w = (r, w') ->
    In deployment_id (map Store.deployment_id (deployments _ (cur w))) ->
    references_resolve (cur w) ->
    references_resolve (cur w').
Proof.
  induction csv_files as [|p rest IH]; intros w w' r H Hdep Href.
  - cbn [ingest_files] in H. unfold ret in H. injection H as _ <-. exact Href.
  - cbn [ingest_files] in H.
    destruct (ingest_csv_file py_float tzdb fs p deployment_id timezone_name
                doc fixed_offset w) as [r1 w1] eqn:H1.
    pose proof (ingest_references _ _ _ _ _ _ _ _ H1 Hdep Href) as Href1.
    destruct (ingest_keeps_keys_and_deployments _ _ _ _ _ _ _ _ _ _ _ _ H1)
      as [Hd1 _].
    apply (IH _ _ _ H).
    + destruct r1; cbn [conn current]; rewrite Hd1; exact Hdep.
    + destruct r1; exact Href1.
Qed.

(** X20: a run of [main] never leaves a reference dangling: when the
    references of the store resolve before the run, they resolve after it.
    *)
Theorem main_keeps_references_resolved
    (args : arguments) (csv_files : list string) (doc : deployment_metadata)
    (w w' : world) (r : result (option unit)) :
  references_resolve (cur w) ->
  main py_float tzdb fs args csv_files doc w = (r, w') ->
  references_resolve (cur w').
Proof.
  intros Href H. unfold main in H.
  set (s := resolve_settings args doc) in *.
  destruct (Py.truthy_opt (deployment_name s) && Py.truthy_opt (site_name s)).
  2:{ unfold bind, print, ret in H. injection H as _ <-. exact Href. }
  set (dname := default EmptyString (deployment_name s)) in *.
  set (sname := default EmptyString (site_name s)) in *.
  destruct (get_or_create_deployment dname sname (st_timezone_name s)
              (deployment_notes s) w) as [r1 w1] eqn:H1.
  assert (Hok : exists id, r1 = Ok id).
  { pose proof (get_or_create_deployment_cases _ dname sname
                  (st_timezone_name s) (deployment_notes s) w) as Hc.
    cbv zeta in Hc.
    destruct (find _ (deployments _ (cur w))).
    - destruct (Py.truthy_opt (deployment_notes s)); rewrite Hc in H1;
        injection H1 as <- _; eauto.
    - rewrite Hc in H1. injection H1 as <- _. eauto. }
  destruct Hok as [id ->].
  destruct (deployment_is_stored _ _ _ _ _ _ _ _ H1) as (row & Hin & _ & Hid).
  assert (Href1 : references_resolve (cur w1)
                  /\ In id (map Store.deployment_id (deployments _ (cur w1)))).
  { split; [|rewrite <- Hid; apply in_map; exact Hin].
    pose proof (get_or_create_deployment_cases _ dname sname
                  (st_timezone_name s) (deployment_notes s) w) as Hc.
    cbv zeta in Hc. destruct Href as (Hsd & Hfl & Hrd).
    destruct (find _ (deployments _ (cur w))).
    - destruct (Py.truthy_opt (deployment_notes s)); rewrite Hc in H1;
        injection H1 as _ <-; [|repeat split; assumption].
      unfold references_resolve. cbv zeta.
      cbn [conn current sensors deployments sensor_deployments files
           temperature_readings set_deployments].
      rewrite map_update_key by reflexivity. repeat split; assumption.
    - rewrite Hc in H1. injection H1 as _ <-.
      unfold references_resolve. cbv zeta.
      cbn [conn current sensors deployments sensor_deployments files
           temperature_readings set_deployments].
      rewrite map_app.
      split; [|split].
      + eapply Forall_impl; [exact Hsd|]. cbv beta. intros x [Ha Hb].
        split; [exact Ha|apply in_or_app; left; exact Hb].
      + eapply Forall_impl; [exact Hfl|]. cbv beta. intros x [Ha Hb].
        split; [exact Ha|apply in_or_app; left; exact Hb].
      + eapply Forall_impl; [exact Hrd|]. cbv beta. intros x (Ha & Hb & Hc').
        split; [exact Ha|]. split; [exact Hb|apply in_or_app; left; exact Hc']. }
  destruct Href1 as [Href1 Hdep1].
  unfold bind at 1 in H. rewrite H1 in H.
  unfold bind at 1 in H. unfold print at 1 in H.
  unfold bind at 1 in H.
  match type of H with
  | context [ingest_files _ _ _ ?l ?d ?tz ?dc ?off ?w2] =>
      destruct (ingest_files py_float tzdb fs l d tz dc off w2)
        as [r3 w3] eqn:H3
  end.
  pose proof (ingest_files_references _ _ _ _ _ _ _ _ H3 Hdep1 Href1) as Href3.
  destruct r3 as [[]|e].
  - unfold bind, print, ret in H. injection H as _ <-. exact Href3.
  - injection H as _ <-. exact Href3.
Qed.

End References.

(** ** Running the script again *)

Section Reruns.

Variable float_t : Type.
Variable py_float : string -> option float_t.
Variable tzdb : string -> option ZoneInfo.zone.
Variable fs : string -> option csv_file.

Abbreviation world := (world float_t).
Abbreviation cur w := (current float_t (conn float_t w)).
Abbreviation saved w := (committed float_t (conn float_t w)).

(** The outcomes of one call of [ingest_csv_file]. *)
Lemma ingest_outcomes
    (w w' : world) (csv_path : string) (deployment_id : Z)
    (timezone_name : string) (doc : deployment_metadata)
    (fixed_offset : option string) (r : result unit) :
  ingest_csv_file py_float tzdb fs csv_path deployment_id timezone_name
    doc fixed_offset w = (r, w') ->
  (conn _ w' = conn _ w
   /\ match fs csv_path with
      | None => True
      | Some f =>
          match parse_ibutton_header csv_path f with
          | Raise _ => True
          | Ok (metadata, _) =>
              Py.is_empty (registration_number_of metadata) = true
          end
      end)
  \/ (exists f metadata data_start_line,
        fs csv_path = Some f
        /\ parse_ibutton_header csv_path f = Ok (metadata, data_start_line)
        /\ Py.is_empty (registration_number_of metadata) = false
        /\ saved w' = cur w'
        /\ (exists row, In row (files _ (cur w)) /\ sha256 row = sha256_hex f)
        /\ files _ (cur w') = files _ (cur w)
        /\ temperature_readings _ (cur w') = temperature_readings _ (cur w))
  \/ (exists f metadata data_start_line frow new,
        fs csv_path = Some f
        /\ parse_ibutton_header csv_path f = Ok (metadata, data_start_line)
        /\ Py.is_empty (registration_number_of metadata) = false
        /\ (forall row, In row (files _ (cur w)) ->
                        sha256 row <> sha256_hex f)
        /\ files _ (cur w') = (files _ (cur w) ++ [frow])%list
        /\ sha256 frow = sha256_hex f
        /\ temperature_readings _ (cur w')
           = (temperature_readings _ (cur w) ++ new)%list
        /\ length new
           = count_class py_float tzdb timezone_name fixed_offset WellFormed
               (drop (Z.to_nat data_start_line) (rows f))
        /\ files _ (saved w')
           = (if decide (new = []) then files _ (cur w) else files _ (cur w'))
        /\ temperature_readings _ (saved w')
           = temperature_readings _ (cur w')).
Proof.
  intros H. destruct r as [[]|e].
  2:{ left.
      destruct (ingest_raises_early _ _ _ _ _ _ _ _ _ _ _ _ H)
        as [Hconn Hwhy].
      split; [exact Hconn|].
      destruct Hwhy as [(-> & _)|[(f & -> & -> & _)
                                 |(f & m & d & -> & -> & Hreg & _)]];
        [exact I|exact I|exact Hreg]. }
  destruct (fs csv_path) as [f|] eqn:Hfs.
  2:{ unfold ingest_csv_file in H. rewrite Hfs in H. discriminate H. }
  destruct (parse_ibutton_header csv_path f) as [[metadata dsl]|e0] eqn:Hparse.
  2:{ unfold ingest_csv_file in H. rewrite Hfs in H.
      unfold bind at 1 in H. unfold print at 1 in H. rewrite Hparse in H.
      discriminate H. }
  destruct (Py.is_empty (registration_number_of metadata)) eqn:Hreg.
  { unfold ingest_csv_file in H. rewrite Hfs in H.
    unfold bind at 1 in H. unfold print at 1 in H. rewrite Hparse in H.
    unfold bind at 1 in H.
    rewrite get_or_create_sensor_raises in H by exact Hreg. discriminate H. }
  right.
  destruct (hash_stored_or_new (sha256_hex f) (files _ (cur w)))
    as [Hdup|Hnew].
  - left.
    destruct (ingest_duplicate_file _ py_float tzdb fs w csv_path f
                deployment_id timezone_name doc fixed_offset metadata dsl
                Hfs Hparse Hreg Hdup)
      as (sid & w1 & w2 & _ & Hu & Hrun & Hf & Hr).
    rewrite Hrun in H. injection H as <-. cbn [conn current committed].
    exists f, metadata, dsl. split; [reflexivity|]. split; [exact Hparse|].
    split; [exact Hreg|].
    split; [exact (upsert_commits _ _ _ _ _ _ _ Hu)|].
    split; [exact Hdup|]. split; [exact Hf|exact Hr].
  - right.
    destruct (ingest_fresh_file _ py_float tzdb fs w csv_path f deployment_id
                timezone_name doc fixed_offset metadata dsl Hfs Hparse Hreg
                Hnew)
      as (w'' & sid & w1 & w2 & frow & new & msgs & Hrun & Hs & Hu & Hcur
          & _ & _ & _ & _ & Hsha & Hn & _ & _ & _ & _ & Hcomm & Hfiles).
    rewrite Hrun in H. injection H as <-.
    exists f, metadata, dsl, frow, new.
    split; [reflexivity|]. split; [exact Hparse|].
    split; [exact Hreg|]. split; [exact Hnew|].
    rewrite Hcomm, Hcur.
    cbn [files temperature_readings set_files set_readings].
    split; [reflexivity|]. split; [exact Hsha|]. split; [reflexivity|].
    split; [exact Hn|].
    destruct (get_or_create_sensor_ids _ _ _ _ _ _ Hs)
      as (_ & _ & _ & _ & _ & Hr1).
    destruct (upsert_sensor_deployment_ids _ _ _ _ _ _ _ (fun _ _ => True)
                Hu I ltac:(apply Forall_true; intros; exact I))
      as (_ & _ & _ & _ & Hr2).
    cbn [conn current] in Hr1.
    destruct (decide (new = [])) as [->|_].
    + rewrite Hfiles, app_nil_r, Hr2, Hr1. split; reflexivity.
    + cbn [files temperature_readings set_files set_readings].
      split; reflexivity.
Qed.


Lemma settled_mono (timezone_name : string) (fixed_offset : option string)
    (l l' : list file_row) (csv_path : string) :
  (forall row, In row l -> In row l') ->
  settled py_float tzdb fs timezone_name fixed_offset l csv_path ->
  settled py_float tzdb fs timezone_name fixed_offset l' csv_path.
Proof.
  intros Hsub. unfold settled.
  destruct (fs csv_path) as [f|]; [|tauto].
  destruct (parse_ibutton_header csv_path f) as [[metadata dsl]|e]; [|tauto].
  intros [H|[(row & Hin & Hsha)|H]]; [left; exact H| |right; right; exact H].
  right. left. exists row. split; [apply Hsub; exact Hin|exact Hsha].
Qed.

(** A settled file gives no reading. *)
Lemma settled_file_adds_nothing
    (w w' : world) (csv_path : string) (deployment_id : Z)
    (timezone_name : string) (doc : deployment_metadata)
    (fixed_offset : option string) (r : result unit) :
  settled py_float tzdb fs timezone_name fixed_offset (files _ (cur w))
    csv_path ->
  ingest_csv_file py_float tzdb fs csv_path deployment_id timezone_name
    doc fixed_offset w = (r, w') ->
  temperature_readings _ (cur w') = temperature_readings _ (cur w)
  /\ (forall row, In row (files _ (cur w)) -> In row (files _ (cur w'))).
Proof.
  intros Hset H.
  destruct (ingest_outcomes _ _ _ _ _ _ _ _ H)
    as [[Hconn _]
       |[(f & m & d & _ & _ & _ & _ & _ & Hf & Hr)
        |(f & m & d & frow & new & Hfs & Hparse & Hreg & Hnew & Hf & _ & Hr
          & Hn & _)]].
  - rewrite Hconn. split; [reflexivity|tauto].
  - rewrite Hf, Hr. split; [reflexivity|tauto].
  - rewrite Hf, Hr. split; [|intros row Hin; apply in_or_app; left; exact Hin].
    unfold settled in Hset. rewrite Hfs, Hparse in Hset.
    destruct Hset as [Hempty|[(row & Hin & Hsha)|Hzero]].
    + rewrite Hreg in Hempty. discriminate Hempty.
    + destruct (Hnew row Hin Hsha).
    + rewrite Hzero in Hn. destruct new; [apply app_nil_r|discriminate Hn].
Qed.

(** After its ingestion, in whatever way it ended, a file is settled
    with respect to the committed table [files]. *)
Lemma file_becomes_settled
    (w w' : world) (csv_path : string) (deployment_id : Z)
    (timezone_name : string) (doc : deployment_metadata)
    (fixed_offset : option string) (r : result unit) :
  nothing_lost w ->
  ingest_csv_file py_float tzdb fs csv_path deployment_id timezone_name
    doc fixed_offset w = (r, w') ->
  nothing_lost w'
  /\ settled py_float tzdb fs timezone_name fixed_offset (files _ (saved w'))
       csv_path
  /\ (forall row, In row (files _ (saved w)) -> In row (files _ (saved w'))).
Proof.
  intros [Hsub Hreads] H. unfold nothing_lost.
  destruct (ingest_outcomes _ _ _ _ _ _ _ _ H)
    as [[Hconn Hwhy]
       |[(f & m & d & Hfs & Hparse & _ & Hsaved & Hdup & Hf & Hr)
        |(f & m & d & frow & new & Hfs & Hparse & _ & _ & Hf & Hsha & Hr
          & Hn & Hsf & Hsr)]].
  - rewrite Hconn. split; [split; assumption|]. split; [|tauto].
    unfold settled. destruct (fs csv_path) as [f|]; [|exact I].
    destruct (parse_ibutton_header csv_path f) as [[m d]|e]; [|exact I].
    left. exact Hwhy.
  - rewrite Hsaved. split; [split; [tauto|reflexivity]|]. split.
    + unfold settled. rewrite Hfs, Hparse. right. left.
      rewrite Hf. exact Hdup.
    + intros row Hin. rewrite Hf. apply Hsub. exact Hin.
  - assert (Hin_saved : forall row, In row (files _ (cur w)) ->
                                    In row (files _ (saved w'))).
    { intros row Hin. rewrite Hsf.
      destruct (decide (new = [])); [exact Hin|].
      rewrite Hf. apply in_or_app. left. exact Hin. }
    split; [split; [|exact Hsr]|split].
    + intros row Hin. rewrite Hsf in Hin. rewrite Hf.
      destruct (decide (new = [])); [apply in_or_app; left; exact Hin|].
      rewrite Hf in Hin. exact Hin.
    + unfold settled. rewrite Hfs, Hparse. right.
      destruct (decide (new = [])) as [->|Hne].
      * right. rewrite <- Hn. reflexivity.
      * left. exists frow. split; [|exact Hsha]. rewrite Hsf.
        destruct (decide (new = [])); [contradiction|].
        rewrite Hf. apply in_or_app. right. left. reflexivity.
    + intros row Hin. apply Hin_saved, Hsub. exact Hin.
Qed.

Lemma ingest_files_settles (deployment_id : Z) (timezone_name : string)
    (doc : deployment_metadata) (fixed_offset : option string)
    (csv_files : list string) :
  forall (w w' : world) (r : result unit),
    nothing_lost w ->
    ingest_files py_float tzdb fs csv_files deployment_id timezone_name doc
      fixed_offset w = (r, w') ->
    nothing_lost w'
    /\ Forall (settled py_float tzdb fs timezone_name fixed_offset
                 (files _ (saved w'))) csv_files
    /\ (forall row, In row (files _ (saved w)) -> In row (files _ (saved w'))).
Proof.
  induction csv_files as [|p rest IH]; intros w w' r Hinv H.
  - cbn [ingest_files] in H. unfold ret in H. injection H as _ <-.
    split; [exact Hinv|]. split; [constructor|tauto].
  - cbn [ingest_files] in H.
    destruct (ingest_csv_file py_float tzdb fs p deployment_id timezone_name
                doc fixed_offset w) as [r1 w1] eqn:H1.
    destruct (file_becomes_settled _ _ _ _ _ _ _ _ Hinv H1)
      as (Hinv1 & Hset1 & Hmono1).
    set (w1' := match r1 with
                | Ok _ => w1
                | Raise e => mk_world (conn _ w1)
                               (console _ w1 ++ [ErrorProcessing p e])
                end) in H.
    assert (Hconn1 : conn _ w1' = conn _ w1) by (destruct r1; reflexivity).
    assert (Hinv1' : nothing_lost w1').
    { unfold nothing_lost. rewrite Hconn1. exact Hinv1. }
    destruct (IH _ _ _ Hinv1' H) as (Hinv' & Hrest & Hmono').
    rewrite Hconn1 in Hmono'.
    assert (Hmono : forall row, In row (files _ (saved w1)) ->
                                In row (files _ (saved w'))).
    { exact Hmono'. }
    split; [exact Hinv'|]. split.
    + constructor; [|exact Hrest].
      exact (settled_mono _ _ _ _ _ Hmono Hset1).
    + intros row Hin. apply Hmono, Hmono1. exact Hin.
Qed.

Lemma ingest_files_on_settled (deployment_id : Z) (timezone_name : string)
    (doc : deployment_metadata) (fixed_offset : option string)
    (csv_files : list string) :
  forall (w w' : world) (r : result unit),
    Forall (settled py_float tzdb fs timezone_name fixed_offset
              (files _ (cur w))) csv_files ->
    ingest_files py_float tzdb fs csv_files deployment_id timezone_name doc
      fixed_offset w = (r, w') ->
    temperature_readings _ (cur w') = temperature_readings _ (cur w).
Proof.
  induction csv_files as [|p rest IH]; intros w w' r Hall H.
  - cbn [ingest_files] in H. unfold ret in H. injection H as _ <-.
    reflexivity.
  - cbn [ingest_files] in H. inversion Hall as [|? ? Hp Hrest]; subst.
    destruct (ingest_csv_file py_float tzdb fs p deployment_id timezone_name
                doc fixed_offset w) as [r1 w1] eqn:H1.
    destruct (settled_file_adds_nothing _ _ _ _ _ _ _ _ Hp H1)
      as [Hreads Hmono].
    set (w1' := match r1 with
                | Ok _ => w1
                | Raise e => mk_world (conn _ w1)
                               (console _ w1 ++ [ErrorProcessing p e])
                end) in H.
    assert (Hconn1 : conn _ w1' = conn _ w1) by (destruct r1; reflexivity).
    assert (Hrest' : Forall (settled py_float tzdb fs timezone_name
                               fixed_offset (files _ (cur w1'))) rest).
    { rewrite Hconn1.
      eapply Forall_impl; [exact Hrest|]. cbv beta. intros q Hq.
      exact (settled_mono _ _ _ _ _ Hmono Hq). }
    rewrite <- Hreads, <- Hconn1. exact (IH _ _ _ Hrest' H).
Qed.

(** The two ways of [main]: it leaves for want of a deployment or site
    name, or it gets the deployment and goes through the files. *)
Lemma main_cases (args : arguments) (csv_files : list string)
    (doc : deployment_metadata) (w w' : world) (r : result (option unit)) :
  main py_float tzdb fs args csv_files doc w = (r, w') ->
  let s := resolve_settings args doc in
  if Py.truthy_opt (deployment_name s) && Py.truthy_opt (site_name s)
  then
    exists id w0 r3 w3,
      get_or_create_deployment (default EmptyString (deployment_name s))
        (default EmptyString (site_name s)) (st_timezone_name s)
        (deployment_notes s) w = (Ok id, w0)
      /\ ingest_files py_float tzdb fs csv_files id (st_timezone_name s) doc
           (st_fixed_offset s)
           (mk_world (conn _ w0)
              (console _ w0
               ++ [DeploymentBanner (default EmptyString (deployment_name s))
                     id (default EmptyString (site_name s))
                     (st_timezone_name s) (st_fixed_offset s)]))
         = (r3, w3)
      /\ conn _ w' = conn _ w3
  else conn _ w' = conn _ w.
Proof.
  intros H s. unfold main in H. fold s in H.
  destruct (Py.truthy_opt (deployment_name s) && Py.truthy_opt (site_name s)).
  2:{ unfold bind, print, ret in H. injection H as _ <-. reflexivity. }
  set (dname := default EmptyString (deployment_name s)) in *.
  set (sname := default EmptyString (site_name s)) in *.
  destruct (get_or_create_deployment dname sname (st_timezone_name s)
              (deployment_notes s) w) as [r1 w1] eqn:H1.
  assert (Hok : exists id, r1 = Ok id).
  { pose proof (get_or_create_deployment_cases _ dname sname
                  (st_timezone_name s) (deployment_notes s) w) as Hc.
    cbv zeta in Hc.
    destruct (find _ (deployments _ (cur w))).
    - destruct (Py.truthy_opt (deployment_notes s)); rewrite Hc in H1;
        injection H1 as <- _; eauto.
    - rewrite Hc in H1. injection H1 as <- _. eauto. }
  destruct Hok as [id ->].
  unfold bind at 1 in H. rewrite H1 in H.
  unfold bind at 1 in H. unfold print at 1 in H.
  unfold bind at 1 in H.
  match type of H with
  | context [ingest_files _ _ _ ?l ?d ?tz ?dc ?off ?w2] =>
      destruct (ingest_files py_float tzdb fs l d tz dc off w2)
        as [r3 w3] eqn:H3
  end.
  exists id, w1, r3, w3. split; [reflexivity|]. split; [exact H3|].
  destruct r3 as [[]|e].
  - unfold bind, print, ret in H. injection H as _ <-. reflexivity.
  - injection H as _ <-. reflexivity.
Qed.

(** What [get_or_create_deployment] leaves alone. *)
Lemma get_or_create_deployment_keeps_files (name site timezone_name : string)
    (notes : option string) (w w' : world) (r : result Z) :
  get_or_create_deployment name site timezone_name notes w = (r, w') ->
  files _ (cur w') = files _ (cur w)
  /\ temperature_readings _ (cur w') = temperature_readings _ (cur w)
  /\ (conn _ w' = conn _ w \/ saved w' = cur w').
Proof.
  intros H.
  pose proof (get_or_create_deployment_cases _ name site timezone_name notes w)
    as Hc. cbv zeta in Hc.
  destruct (find _ (deployments _ (cur w))).
  - destruct (Py.truthy_opt notes); rewrite Hc in H; injection H as _ <-.
    + repeat split. right. reflexivity.
    + repeat split. left. reflexivity.
  - rewrite Hc in H. injection H as _ <-. repeat split. right. reflexivity.
Qed.

(** X21: running the script a second time on the same directory, with the
    same command line and metadata document, stores no reading a second
    time: the table of readings after the second run is the table after
    the first. *)
Theorem rerun_stores_no_reading_twice
    (args : arguments) (csv_files : list string) (doc : deployment_metadata)
    (w w1 w2 : world) (r1 r2 : result (option unit)) :
  saved w = cur w ->
  run_script py_float tzdb fs args csv_files doc w = (r1, w1) ->
  run_script py_float tzdb fs args csv_files doc w1 = (r2, w2) ->
  temperature_readings _ (cur w2) = temperature_readings _ (cur w1).
Proof.
  intros Hopen Hrun1 Hrun2. unfold run_script in Hrun1, Hrun2.
  destruct (main py_float tzdb fs args csv_files doc w) as [q1 v1] eqn:H1.
  destruct (main py_float tzdb fs args csv_files doc w1) as [q2 v2] eqn:H2.
  injection Hrun1 as _ <-. injection Hrun2 as _ <-.
  change (temperature_readings _ (saved v2) = temperature_readings _ (saved v1)).
  pose proof (main_cases _ _ _ _ _ _ H1) as C1.
  pose proof (main_cases _ _ _ _ _ _ H2) as C2.
  cbv zeta in C1, C2.
  set (s := resolve_settings args doc) in *.
  destruct (Py.truthy_opt (deployment_name s) && Py.truthy_opt (site_name s)).
  2:{ rewrite C2. reflexivity. }
  destruct C1 as (id1 & u1 & p1 & x1 & Hd1 & Hf1 & Hc1).
  destruct C2 as (id2 & u2 & p2 & x2 & Hd2 & Hf2 & Hc2).
  (* the first run leaves every file settled *)
  destruct (get_or_create_deployment_keeps_files _ _ _ _ _ _ _ Hd1)
    as (_ & _ & Hk1).
  assert (Hinv1 : forall c, nothing_lost (mk_world (conn _ u1) c)).
  { intros c. unfold nothing_lost. cbn [conn].
    destruct Hk1 as [->| ->]; [rewrite Hopen|]; split; tauto. }
  destruct (ingest_files_settles _ _ _ _ _ _ _ _ (Hinv1 _) Hf1)
    as (_ & Hset & _).
  rewrite <- Hc1 in Hset.
  (* the second run starts from what the first one committed *)
  destruct (get_or_create_deployment_keeps_files _ _ _ _ _ _ _ Hd2)
    as (Hfiles2 & Hreads2 & Hk2).
  cbn [reopen conn current] in Hfiles2, Hreads2.
  assert (Hinv2 : forall c, nothing_lost (mk_world (conn _ u2) c)).
  { intros c. unfold nothing_lost. cbn [conn].
    destruct Hk2 as [->| ->]; split; tauto. }
  destruct (ingest_files_settles _ _ _ _ _ _ _ _ (Hinv2 _) Hf2)
    as ([_ Hsaved] & _ & _).
  rewrite Hc2, Hsaved, <- Hreads2.
  apply (ingest_files_on_settled _ _ _ _ _ _ _ _) with (2 := Hf2).
  cbn [conn current]. rewrite Hfiles2. exact Hset.
Qed.

End Reruns.

(** ** Fixed offsets and durations *)

Section Durations.

Variable tzdb : string -> option ZoneInfo.zone.

(** X24: with one fixed offset for both, the time between two readings is
    kept: the results differ by as many seconds as the two naive local
    times, whatever the offset is, and so come in the same order. *)
Theorem fixed_offset_keeps_durations
    (s1 s2 tz1 tz2 off : string) (dt1 dt2 : Datetime.datetime) (t1 t2 : Z) :
  Py.truthy off = true ->
  try_formats s1 formats = Ok (Some dt1) ->
  try_formats s2 formats = Ok (Some dt2) ->
  local_to_utc tzdb s1 tz1 (Some off) = Ok t1 ->
  local_to_utc tzdb s2 tz2 (Some off) = Ok t2 ->
  t2 - t1 = Datetime.naive_seconds dt2 - Datetime.naive_seconds dt1
  /\ (Datetime.naive_seconds dt1 < Datetime.naive_seconds dt2 <-> t1 < t2).
Proof.
  intros Hoff Hp1 Hp2 H1 H2.
  unfold local_to_utc, to_utc in H1, H2.
  rewrite Hp1, Hoff in H1. rewrite Hp2, Hoff in H2.
  apply apply_fixed_offset_value in H1, H2.
  destruct H1 as (h1 & m1 & Hf1 & ->). destruct H2 as (h2 & m2 & Hf2 & ->).
  rewrite Hf1 in Hf2. injection Hf2 as <- <-. lia.
Qed.

End Durations.

(** ** The readings a file adds *)

Section StoredReadings.

Variable float_t : Type.
Variable py_float : string -> option float_t.
Variable tzdb : string -> option ZoneInfo.zone.
Variable fs : string -> option csv_file.

Abbreviation world := (world float_t).
Abbreviation cur w := (current float_t (conn float_t w)).

(** The readings the loop over the rows collects: those of the rows
    that convert, in the order of the rows. *)
Lemma read_rows_result (data_start_line file_id deployment_id sensor_id : Z)
    (timezone_name : string) (fixed_offset : option string)
    (rs : list (list string)) :
  forall (i : Z) (acc : list (reading float_t)) (w : world),
    data_start_line < i ->
    fst (read_rows py_float tzdb i rs data_start_line file_id deployment_id
           sensor_id timezone_name fixed_offset acc w)
    = Ok (acc ++ omap (reading_of py_float tzdb timezone_name fixed_offset
                         file_id deployment_id sensor_id)
                 (List.filter
                    (fun r => row_class_eqb
                                (classify py_float tzdb timezone_name
                                   fixed_offset r) WellFormed) rs))%list.
Proof.
  induction rs as [|row rs IH]; intros i acc w Hi.
  - cbn [read_rows List.filter omap]. unfold ret. cbn [fst].
    rewrite app_nil_r. reflexivity.
  - cbn [List.filter].
    destruct (classify py_float tzdb timezone_name fixed_offset row) eqn:Hc;
      cbn [row_class_eqb].
    + rewrite (skipped_row_is_passed_over _ py_float tzdb) by exact Hc.
      apply IH. lia.
    + destruct (well_formed_row _ _ _ _ _ _ Hc)
        as (c0 & c1 & c2 & rest & t & v & -> & H0 & H2 & Hconv & Hread).
      cbn [read_rows omap list_omap]. rewrite Hread.
      assert (Hle : (i <=? data_start_line) = false) by (apply Z.leb_gt; lia).
      rewrite Hle, H0, H2. cbn [orb]. rewrite Hconv.
      rewrite IH by lia. rewrite <- app_assoc. reflexivity.
    + destruct (malformed_row _ _ _ _ _ _ Hc)
        as (c0 & c1 & c2 & rest & e & -> & H0 & H2 & Hconv).
      cbn [read_rows].
      assert (Hle : (i <=? data_start_line) = false) by (apply Z.leb_gt; lia).
      rewrite Hle, H0, H2. cbn [orb]. rewrite Hconv. unfold bind, print.
      apply IH. lia.
Qed.

(** X9: the readings a new file adds are exactly the readings of the rows
    of its data block that convert, one for each such row and in the order
    of the file, after the readings that were stored before. *)
Theorem stored_readings_are_the_rows_that_convert
    (w : world) (csv_path : string) (f : csv_file) (deployment_id : Z)
    (timezone_name : string) (doc : deployment_metadata)
    (fixed_offset : option string)
    (metadata : gmap string string) (data_start_line : Z) :
  fs csv_path = Some f ->
  parse_ibutton_header csv_path f = Ok (metadata, data_start_line) ->
  Py.is_empty (registration_number_of metadata) = false ->
  (forall row, In row (files _ (cur w)) -> sha256 row <> sha256_hex f) ->
  let data := drop (Z.to_nat data_start_line) (rows f) in
  let converts r :=
    row_class_eqb (classify py_float tzdb timezone_name fixed_offset r)
      WellFormed in
  exists w' sid frow,
    ingest_csv_file py_float tzdb fs csv_path deployment_id timezone_name
      doc fixed_offset w = (Ok tt, w')
    /\ files _ (cur w') = (files _ (cur w) ++ [frow])%list
    /\ f_sensor_id frow = sid
    /\ temperature_readings _ (cur w')
       = (temperature_readings _ (cur w)
          ++ omap (reading_of py_float tzdb timezone_name fixed_offset
                     (file_id frow) deployment_id sid)
               (List.filter converts data))%list.
Proof.
  intros Hfs Hparse Hreg Hnew data converts.
  pose proof (data_start_line_positive _ _ _ _ Hparse) as Hpos.
  set (label := derive_label (path_stem csv_path)).
  set (entry := sensor_entry doc label).
  unfold ingest_csv_file. rewrite Hfs. unfold bind at 1. unfold print at 1.
  set (w0 := mk_world (conn _ w) (console _ w ++ [Parsing (path_name csv_path)])).
  rewrite Hparse. fold label. fold entry.
  destruct (get_or_create_sensor_runs _ metadata label w0 Hreg)
    as (sid & w1 & Hs & Hc1 & [Hf1 Hr1] & _).
  destruct (upsert_sensor_deployment_runs _ sid deployment_id
              (entry ≫= sm_location) (entry ≫= sm_notes) w1)
    as (w2 & Hu & Hc2 & [Hf2 Hr2] & _).
  assert (Hfiles : files _ (cur w2) = files _ (cur w))
    by (rewrite Hf2, Hf1; reflexivity).
  assert (Hreads : temperature_readings _ (cur w2)
                   = temperature_readings _ (cur w))
    by (rewrite Hr2, Hr1; reflexivity).
  assert (Hunseen : file_already_ingested (sha256_hex f) w2 = (Ok false, w2)).
  { apply unseen_when_hash_new. rewrite Hfiles. exact Hnew. }
  unfold bind at 1. rewrite Hs. unfold bind at 1. rewrite Hu.
  unfold bind at 1. rewrite Hunseen.
  set (file_metadata := if Py.truthy_opt (entry ≫= sm_notes) then _ else _).
  set (fid := next_id (map file_id (files _ (cur w2)))).
  set (frow := mk_file_row fid deployment_id sid csv_path (sha256_hex f)
                 file_metadata).
  unfold bind at 1. unfold get_db at 1. cbv beta iota. fold fid. fold frow.
  unfold bind at 1. unfold put_db at 1. cbv beta iota.
  set (w3 := mk_world _ _).
  unfold bind at 1.
  pose proof (read_rows_result data_start_line fid deployment_id sid
                timezone_name fixed_offset data (data_start_line + 1) [] w3
                ltac:(lia)) as Hres.
  rewrite (read_rows_header _ py_float tzdb) by lia.
  replace (Z.to_nat (data_start_line + 1 - 1)) with (Z.to_nat data_start_line)
    by lia.
  fold data.
  destruct (read_rows py_float tzdb (data_start_line + 1) data data_start_line
              fid deployment_id sid timezone_name fixed_offset [] w3)
    as [r4 w4] eqn:Hloop.
  cbn [fst app] in Hres. subst r4.
  destruct (read_rows_counts _ py_float tzdb data_start_line fid deployment_id
              sid timezone_name fixed_offset data (data_start_line + 1) [] w3
              ltac:(lia))
    as (new & msgs & Hloop' & _).
  rewrite Hloop in Hloop'. injection Hloop' as Hnew' Hw4.
  cbn [app] in Hnew'.
  fold converts in Hnew' |- *.
  destruct (omap _ (List.filter converts data)) as [|r0 rest] eqn:Hom.
  - exists (mk_world (conn _ w4) (console _ w4
                                    ++ [NoValidReadings (path_name csv_path)])),
           sid, frow.
    split; [reflexivity|]. rewrite Hw4. subst w3.
    cbn [conn current console files temperature_readings set_files].
    rewrite Hfiles, Hreads.
    split; [reflexivity|]. split; [reflexivity|].
    change (file_id frow) with fid. rewrite Hom, app_nil_r. reflexivity.
  - unfold bind, get_db, put_db, commit, print.
    cbn [conn console current committed fst snd].
    eexists _, sid, frow. split; [reflexivity|]. rewrite Hw4. subst w3.
    cbn [conn current console files temperature_readings set_files
         set_readings].
    rewrite Hfiles, Hreads.
    split; [reflexivity|]. split; [reflexivity|].
    change (file_id frow) with fid. rewrite Hom. reflexivity.
Qed.

End StoredReadings.

(** ** Files whose hash is stored *)

Section Duplicates.

Variable float_t : Type.
Variable py_float : string -> option float_t.
Variable tzdb : string -> option ZoneInfo.zone.
Variable fs : string -> option csv_file.

Abbreviation world := (world float_t).
Abbreviation cur w := (current float_t (conn float_t w)).

(** C3: a file whose hash is already in table [files] adds no row to
    [files] and none to [temperature_readings], whatever its path.  The
    sensor has been resolved and the sensor-deployment row written
    before the hash is looked at, so the skipped file still updates
    them: a sensor that is known without a label gets the label of the
    file name, a sensor that is not known is inserted, a labelled or
    unlabelled sensor is otherwise left as it is; the row of the sensor
    and the deployment gets the location and the notes of the document,
    and is inserted when it is missing; both changes are committed. *)
Theorem duplicate_file_is_skipped
    (w : world) (csv_path : string) (f : csv_file) (deployment_id : Z)
    (timezone_name : string) (doc : deployment_metadata)
    (fixed_offset : option string) :
  fs csv_path = Some f ->
  (exists row, In row (files _ (cur w)) /\ sha256 row = sha256_hex f) ->
  exists r w',
    ingest_csv_file py_float tzdb fs csv_path deployment_id timezone_name
      doc fixed_offset w = (r, w')
    /\ files _ (cur w') = files _ (cur w)
    /\ temperature_readings _ (cur w') = temperature_readings _ (cur w)
    /\ forall metadata data_start_line,
         parse_ibutton_header csv_path f = Ok (metadata, data_start_line) ->
         Py.is_empty (registration_number_of metadata) = false ->
         let label := derive_label (path_stem csv_path) in
         let entry := sensor_entry doc label in
         let location := entry ≫= sm_location in
         let notes := entry ≫= sm_notes in
         let reg := registration_number_of metadata in
         let known :=
           find (fun s => String.eqb (registration_number s) reg)
             (sensors _ (cur w)) in
         let sid :=
           match known with
           | Some row => sensor_id row
           | None => next_id (map sensor_id (sensors _ (cur w)))
           end in
         let sensors' :=
           match known with
           | Some row =>
               if Py.truthy_opt label && negb (Py.truthy_opt (Store.label row))
               then map (fun s => if sensor_id s =? sensor_id row
                                  then mk_sensor (sensor_id s) (sensor_type s)
                                         (part_number s)
                                         (registration_number s) label
                                  else s)
                      (sensors _ (cur w))
               else sensors _ (cur w)
           | None =>
               (sensors _ (cur w)
                ++ [mk_sensor sid "ibutton_ds1925" (part_number_of metadata)
                      reg label])%list
           end in
         let same (r : sensor_deployment) :=
           (sd_sensor_id r =? sid) && (sd_deployment_id r =? deployment_id) in
         let placements' :=
           match find same (sensor_deployments _ (cur w)) with
           | Some _ =>
               map (fun r => if same r
                             then mk_sensor_deployment (sd_sensor_id r)
                                    (sd_deployment_id r) location notes
                             else r)
                 (sensor_deployments _ (cur w))
           | None =>
               (sensor_deployments _ (cur w)
                ++ [mk_sensor_deployment sid deployment_id location notes])%list
           end in
         r = Ok tt
         /\ cur w'
            = set_sensor_deployments (set_sensors (cur w) sensors') placements'
         /\ committed _ (conn _ w') = cur w'
         /\ console _ w'
            = (console _ w ++ [Parsing (path_name csv_path);
                               AlreadyIngested (path_name csv_path)])%list
         /\ In (mk_sensor_deployment sid deployment_id location notes)
              (sensor_deployments _ (cur w'))
         /\ (forall row,
               known = Some row ->
               Py.truthy_opt label = true ->
               Py.truthy_opt (Store.label row) = false ->
               In (mk_sensor (sensor_id row) (sensor_type row)
                     (part_number row) (registration_number row) label)
                  (sensors _ (cur w')))
         /\ (known = None ->
             In (mk_sensor sid "ibutton_ds1925" (part_number_of metadata)
                   reg label)
                (sensors _ (cur w'))).
Proof.
  intros Hfs Hdup.
  destruct (ingest_csv_file py_float tzdb fs csv_path deployment_id
              timezone_name doc fixed_offset w) as [r w'] eqn:Hrun.
  exists r, w'. split; [reflexivity|].
  destruct (parse_ibutton_header csv_path f) as [[metadata dsl]|e0] eqn:Hparse.
  2:{ assert (Hconn : conn _ w' = conn _ w).
      { unfold ingest_csv_file in Hrun. rewrite Hfs in Hrun.
        unfold bind at 1 in Hrun. unfold print at 1 in Hrun.
        rewrite Hparse in Hrun. injection Hrun as _ <-. reflexivity. }
      rewrite Hconn. split; [reflexivity|]. split; [reflexivity|].
      intros m d Hm. discriminate Hm. }
  destruct (Py.is_empty (registration_number_of metadata)) eqn:Hreg.
  { assert (Hconn : conn _ w' = conn _ w).
    { unfold ingest_csv_file in Hrun. rewrite Hfs in Hrun.
      unfold bind at 1 in Hrun. unfold print at 1 in Hrun.
      rewrite Hparse in Hrun. unfold bind at 1 in Hrun.
      rewrite get_or_create_sensor_raises in Hrun by exact Hreg.
      injection Hrun as _ <-. reflexivity. }
    rewrite Hconn. split; [reflexivity|]. split; [reflexivity|].
    intros m d [= <- <-] Hm. congruence. }
  destruct (ingest_duplicate_file _ py_float tzdb fs w csv_path f
              deployment_id timezone_name doc fixed_offset metadata dsl
              Hfs Hparse Hreg Hdup)
    as (sid0 & w1 & w2 & Hs & Hu & Hrun' & Hfiles & Hreads).
  rewrite Hrun' in Hrun. injection Hrun as <- <-.
  split; [exact Hfiles|]. split; [exact Hreads|].
  intros m d [= <- <-] _ label entry location notes reg known sid sensors'
    same placements'.
  fold label in Hs. fold label in Hu. fold entry in Hu.
  fold location in Hu. fold notes in Hu.
  split; [reflexivity|].
  (* the sensor *)
  pose proof (get_or_create_sensor_cases _ metadata label
                (mk_world (conn _ w)
                   (console _ w ++ [Parsing (path_name csv_path)])) Hreg)
    as Hc.
  cbv zeta in Hc. cbn [conn console] in Hc. fold reg in Hc. fold known in Hc.
  assert (Hsensor : sid0 = sid
                    /\ cur w1 = set_sensors (cur w) sensors'
                    /\ console _ w1
                       = (console _ w ++ [Parsing (path_name csv_path)])%list).
  { subst sid sensors'. destruct known as [row|].
    - destruct (Py.truthy_opt label && negb (Py.truthy_opt (Store.label row)));
        rewrite Hc in Hs; injection Hs as <- <-;
        (split; [reflexivity|]); (split; [|reflexivity]);
        [reflexivity|].
      cbn [conn current]. destruct (cur w). reflexivity.
    - rewrite Hc in Hs. injection Hs as <- <-.
      split; [reflexivity|]. split; reflexivity. }
  destruct Hsensor as (-> & Hcur1 & Hcons1).
  (* the row of the sensor and the deployment *)
  pose proof (upsert_sensor_deployment_cases _ sid deployment_id location
                notes w1) as Hd.
  cbv zeta in Hd. rewrite Hu, Hcur1, Hcons1 in Hd.
  set (d' := set_sensor_deployments (set_sensors (cur w) sensors') placements').
  assert (Hw2 : w2 = mk_world (mk_connection d' d')
                       (console _ w ++ [Parsing (path_name csv_path)])).
  { injection Hd as ->. reflexivity. }
  rewrite Hw2. cbn [conn current committed console]. subst d'.
  cbn [sensors sensor_deployments set_sensors set_sensor_deployments].
  split; [reflexivity|]. split; [reflexivity|].
  split; [rewrite <- app_assoc; reflexivity|].
  split; [|split].
  - subst placements'.
    destruct (find same (sensor_deployments _ (cur w))) as [row|] eqn:E.
    + apply find_some in E. destruct E as [Hin Hsame].
      apply in_map_iff. exists row. split; [|exact Hin]. cbv beta.
      rewrite Hsame. subst same. cbv beta in Hsame.
      apply andb_true_iff in Hsame. destruct Hsame as [Ha Hb].
      apply Z.eqb_eq in Ha, Hb. rewrite Ha, Hb. reflexivity.
    + apply in_or_app. right. left. reflexivity.
  - intros row Hk Hl Hn. subst sensors'. rewrite Hk, Hl, Hn. cbn [negb andb].
    subst known. apply find_some in Hk. destruct Hk as [Hin _].
    apply in_map_iff. exists row. split; [|exact Hin].
    rewrite Z.eqb_refl. reflexivity.
  - intros Hk. subst sensors'. rewrite Hk.
    apply in_or_app. right. left. reflexivity.
Qed.

End Duplicates.

(** ** Errors before the first write *)

Section EarlyErrors.

Variable float_t : Type.
Variable py_float : string -> option float_t.
Variable tzdb : string -> option ZoneInfo.zone.
Variable fs : string -> option csv_file.

Abbreviation world := (world float_t).

(** X11: a missing file, a file without a data-header row and a file
    without a registration number each make [ingest_csv_file] raise
    before its first statement that writes: the connection, what is on
    it and what is committed, is what it was, and nothing but the
    [Parsing] line has been printed (not even that for a missing
    file). *)
Theorem early_errors_leave_store_untouched
    (w : world) (csv_path : string) (deployment_id : Z)
    (timezone_name : string) (doc : deployment_metadata)
    (fixed_offset : option string) :
  let run := ingest_csv_file py_float tzdb fs csv_path deployment_id
               timezone_name doc fixed_offset w in
  let parsing :=
    mk_world (conn _ w) (console _ w ++ [Parsing (path_name csv_path)]) in
  (fs csv_path = None ->
   run = (Raise (FileNotFoundError ("CSV file not found: " ++ csv_path)), w))
  /\ (forall f,
        fs csv_path = Some f ->
        Forall (fun r => is_data_header r = false) (rows f) ->
        run = (Raise (ValueError ("Could not find data section in "
                                    ++ csv_path)), parsing))
  /\ (forall f metadata data_start_line,
        fs csv_path = Some f ->
        parse_ibutton_header csv_path f = Ok (metadata, data_start_line) ->
        Py.is_empty (registration_number_of metadata) = true ->
        run = (Raise (ValueError "Registration number not found in metadata"),
               parsing)).
Proof.
  intros run parsing. subst run parsing. split; [|split].
  - intros Hfs. unfold ingest_csv_file. rewrite Hfs. reflexivity.
  - intros f Hfs Hnone. unfold ingest_csv_file. rewrite Hfs.
    unfold bind at 1. unfold print at 1.
    unfold parse_ibutton_header.
    pose proof (scan_header_none (rows f) 1 ∅ Hnone) as Hz.
    destruct (scan_header 1 (rows f) ∅) as [m d]. cbn [snd] in Hz. subst d.
    reflexivity.
  - intros f metadata dsl Hfs Hparse Hreg. unfold ingest_csv_file.
    rewrite Hfs. unfold bind at 1. unfold print at 1. rewrite Hparse.
    unfold bind at 1.
    rewrite get_or_create_sensor_raises by exact Hreg. reflexivity.
Qed.

End EarlyErrors.

(** ** Later calls *)

Section LaterCalls.

Variable float_t : Type.
Variable py_float : string -> option float_t.
Variable tzdb : string -> option ZoneInfo.zone.
Variable fs : string -> option csv_file.

Abbreviation world := (world float_t).
Abbreviation cur w := (current float_t (conn float_t w)).
Abbreviation saved w := (committed float_t (conn float_t w)).

(** A call that returns normally has got past the header and the
    registration number. *)
Lemma ingest_ok_parses
    (w w' : world) (csv_path : string) (deployment_id : Z)
    (timezone_name : string) (doc : deployment_metadata)
    (fixed_offset : option string) :
  ingest_csv_file py_float tzdb fs csv_path deployment_id timezone_name
    doc fixed_offset w = (Ok tt, w') ->
  exists f metadata data_start_line,
    fs csv_path = Some f
    /\ parse_ibutton_header csv_path f = Ok (metadata, data_start_line)
    /\ Py.is_empty (registration_number_of metadata) = false.
Proof.
  intros H.
  destruct (fs csv_path) as [f|] eqn:Hfs.
  2:{ unfold ingest_csv_file in H. rewrite Hfs in H. discriminate H. }
  destruct (parse_ibutton_header csv_path f) as [[metadata dsl]|e0] eqn:Hparse.
  2:{ unfold ingest_csv_file in H. rewrite Hfs in H.
      unfold bind at 1 in H. unfold print at 1 in H. rewrite Hparse in H.
      discriminate H. }
  destruct (Py.is_empty (registration_number_of metadata)) eqn:Hreg.
  { unfold ingest_csv_file in H. rewrite Hfs in H.
    unfold bind at 1 in H. unfold print at 1 in H. rewrite Hparse in H.
    unfold bind at 1 in H.
    rewrite get_or_create_sensor_raises in H by exact Hreg. discriminate H. }
  exists f, metadata, dsl. split; [reflexivity|].
  split; [first [exact Hparse|reflexivity]|first [exact Hreg|reflexivity]].
Qed.

(** A file whose hash is in table [files] adds nothing to it and no
    reading. *)
Lemma known_hash_adds_nothing
    (w w' : world) (csv_path : string) (f : csv_file) (deployment_id : Z)
    (timezone_name : string) (doc : deployment_metadata)
    (fixed_offset : option string) (r : result unit) :
  fs csv_path = Some f ->
  (exists row, In row (files _ (cur w)) /\ sha256 row = sha256_hex f) ->
  ingest_csv_file py_float tzdb fs csv_path deployment_id timezone_name
    doc fixed_offset w = (r, w') ->
  files _ (cur w') = files _ (cur w)
  /\ temperature_readings _ (cur w') = temperature_readings _ (cur w).
Proof.
  intros Hfs (row & Hin & Hsha) H.
  destruct (ingest_outcomes _ _ _ _ _ _ _ _ _ _ _ _ H)
    as [[Hconn _]
       |[(f' & m & d & _ & _ & _ & _ & _ & Hf & Hr)
        |(f' & m & d & frow & new & Hfs' & _ & _ & Hnew & _)]].
  - rewrite Hconn. split; reflexivity.
  - split; [exact Hf|exact Hr].
  - rewrite Hfs in Hfs'. injection Hfs' as <-.
    destruct (Hnew row Hin Hsha).
Qed.

(** Table [files] on the connection never loses a row. *)
Lemma ingest_keeps_file_rows
    (w w' : world) (csv_path : string) (deployment_id : Z)
    (timezone_name : string) (doc : deployment_metadata)
    (fixed_offset : option string) (r : result unit) :
  ingest_csv_file py_float tzdb fs csv_path deployment_id timezone_name
    doc fixed_offset w = (r, w') ->
  forall row, In row (files _ (cur w)) -> In row (files _ (cur w')).
Proof.
  intros H row Hin.
  destruct (ingest_outcomes _ _ _ _ _ _ _ _ _ _ _ _ H)
    as [[Hconn _]
       |[(f' & m & d & _ & _ & _ & _ & _ & Hf & _)
        |(f' & m & d & frow & new & _ & _ & _ & _ & Hf & _)]].
  - rewrite Hconn. exact Hin.
  - rewrite Hf. exact Hin.
  - rewrite Hf. apply in_or_app. left. exact Hin.
Qed.

Lemma ingest_files_keeps_file_rows (deployment_id : Z) (timezone_name : string)
    (doc : deployment_metadata) (fixed_offset : option string)
    (csv_files : list string) :
  forall (w w' : world) (r : result unit),
    ingest_files py_float tzdb fs csv_files deployment_id timezone_name doc
      fixed_offset w = (r, w') ->
    forall row, In row (files _ (cur w)) -> In row (files _ (cur w')).
Proof.
  induction csv_files as [|p rest IH]; intros w w' r H row Hin.
  - cbn [ingest_files] in H. unfold ret in H. injection H as _ <-. exact Hin.
  - cbn [ingest_files] in H.
    destruct (ingest_csv_file py_float tzdb fs p deployment_id timezone_name
                doc fixed_offset w) as [r1 w1] eqn:H1.
    apply (IH _ _ _ H).
    pose proof (ingest_keeps_file_rows _ _ _ _ _ _ _ _ H1 row Hin) as Hin1.
    destruct r1; exact Hin1.
Qed.

(** [main] loses neither a row of table [files] nor what is
    committed. *)
Lemma main_keeps_file_rows (args : arguments) (csv_files : list string)
    (doc : deployment_metadata) (w w' : world) (r : result (option unit)) :
  main py_float tzdb fs args csv_files doc w = (r, w') ->
  (forall row, In row (files _ (cur w)) -> In row (files _ (cur w')))
  /\ (nothing_lost w ->
      nothing_lost w'
      /\ forall row, In row (files _ (saved w)) -> In row (files _ (saved w'))).
Proof.
  intros H. pose proof (main_cases _ py_float tzdb fs _ _ _ _ _ _ H) as C.
  cbv zeta in C.
  destruct (Py.truthy_opt _ && Py.truthy_opt _).
  2:{ unfold nothing_lost. rewrite C. tauto. }
  destruct C as (id & w0 & r3 & w3 & Hd & Hf & Hc).
  destruct (get_or_create_deployment_keeps_files _ _ _ _ _ _ _ _ Hd)
    as (Hf0 & Hr0 & Hk0).
  split.
  - intros row Hin. rewrite Hc.
    apply (ingest_files_keeps_file_rows _ _ _ _ _ _ _ _ Hf).
    cbn [conn current]. rewrite Hf0. exact Hin.
  - intros [Hsub Hreads].
    assert (Hinv0 : nothing_lost
                      (mk_world (conn _ w0)
                         (console _ w0
                          ++ [DeploymentBanner
                                (default EmptyString
                                   (deployment_name (resolve_settings args doc)))
                                id
                                (default EmptyString
                                   (site_name (resolve_settings args doc)))
                                (st_timezone_name (resolve_settings args doc))
                                (st_fixed_offset (resolve_settings args doc))]))
                    /\ forall row, In row (files _ (saved w)) ->
                                   In row (files _ (saved w0))).
    { unfold nothing_lost. cbn [conn].
      destruct Hk0 as [->| Hsaved]; [tauto|].
      rewrite Hsaved. split; [tauto|]. rewrite Hf0. exact Hsub. }
    destruct Hinv0 as [Hinv0 Hmono0].
    destruct (ingest_files_settles _ py_float tzdb fs _ _ _ _ _ _ _ _ Hinv0 Hf)
      as (Hinv3 & _ & Hmono3).
    cbn [conn] in Hmono3. unfold nothing_lost. rewrite Hc.
    split; [exact Hinv3|].
    intros row Hin. apply Hmono3, Hmono0. exact Hin.
Qed.

(** A hash on the connection stays there as long as the connection is
    open; a committed hash stays for good. *)
Lemma hash_is_kept (h : string) (ops : list operation) :
  forall w : world,
    ((forallb (fun op => negb (is_reopen op)) ops = true
      /\ exists row, In row (files _ (cur w)) /\ sha256 row = h)
     \/ (nothing_lost w
         /\ exists row, In row (files _ (saved w)) /\ sha256 row = h)) ->
    exists row,
      In row (files _ (cur (perform_all py_float tzdb fs ops w)))
      /\ sha256 row = h.
Proof.
  induction ops as [|op ops IH]; intros w H.
  - cbn [perform_all fold_left].
    destruct H as [[_ H]|[[Hsub _] (row & Hin & Hsha)]]; [exact H|].
    exists row. split; [apply Hsub; exact Hin|exact Hsha].
  - change (perform_all py_float tzdb fs (op :: ops) w)
      with (perform_all py_float tzdb fs ops (perform py_float tzdb fs w op)).
    apply IH.
    destruct H as [[Hno (row & Hin & Hsha)]|[Hinv (row & Hin & Hsha)]].
    + left. cbn [forallb] in Hno. apply andb_true_iff in Hno.
      destruct Hno as [Hop Hno]. split; [exact Hno|].
      exists row. split; [|exact Hsha].
      destruct op as [p d tz doc off|args l doc|]; cbn [perform].
      * destruct (ingest_csv_file py_float tzdb fs p d tz doc off w)
          as [r w'] eqn:E.
        exact (ingest_keeps_file_rows _ _ _ _ _ _ _ _ E row Hin).
      * destruct (main py_float tzdb fs args l doc w) as [r w'] eqn:E.
        exact (proj1 (main_keeps_file_rows _ _ _ _ _ _ E) row Hin).
      * discriminate Hop.
    + right.
      destruct op as [p d tz doc off|args l doc|]; cbn [perform].
      * destruct (ingest_csv_file py_float tzdb fs p d tz doc off w)
          as [r w'] eqn:E.
        destruct (file_becomes_settled _ py_float tzdb fs _ _ _ _ _ _ _ _
                    Hinv E) as (Hinv' & _ & Hmono).
        split; [exact Hinv'|]. exists row. split; [apply Hmono; exact Hin|].
        exact Hsha.
      * destruct (main py_float tzdb fs args l doc w) as [r w'] eqn:E.
        destruct (proj2 (main_keeps_file_rows _ _ _ _ _ _ E) Hinv)
          as [Hinv' Hmono].
        split; [exact Hinv'|]. exists row. split; [apply Hmono; exact Hin|].
        exact Hsha.
      * split; [split; [tauto|reflexivity]|].
        exists row. split; [exact Hin|exact Hsha].
Qed.

(** X12: once a file has been processed, a later call for a file with
    the same hash, under the same or another path and with whatever
    settings, adds nothing to [files] and nothing to
    [temperature_readings]: on the same connection after any further
    files and runs of [main]; and also after the connection has been
    closed and opened again, any number of times, when the first call
    stored a reading or found the hash already stored. *)
Theorem second_ingestion_adds_nothing
    (w w1 : world) (path1 path2 : string) (f1 f2 : csv_file)
    (deployment_id deployment_id' : Z) (timezone_name timezone_name' : string)
    (doc doc' : deployment_metadata)
    (fixed_offset fixed_offset' : option string) (ops : list operation) :
  fs path1 = Some f1 -> fs path2 = Some f2 ->
  sha256_hex f2 = sha256_hex f1 ->
  ingest_csv_file py_float tzdb fs path1 deployment_id timezone_name doc
    fixed_offset w = (Ok tt, w1) ->
  forallb (fun op => negb (is_reopen op)) ops = true
  \/ temperature_readings _ (cur w1) <> temperature_readings _ (cur w)
  \/ (exists row, In row (files _ (cur w)) /\ sha256 row = sha256_hex f1) ->
  let w2 := perform_all py_float tzdb fs ops w1 in
  exists r w3,
    ingest_csv_file py_float tzdb fs path2 deployment_id' timezone_name'
      doc' fixed_offset' w2 = (r, w3)
    /\ files _ (cur w3) = files _ (cur w2)
    /\ temperature_readings _ (cur w3) = temperature_readings _ (cur w2).
Proof.
  intros Hfs1 Hfs2 Hsha H1 Hwhen w2.
  destruct (ingest_csv_file py_float tzdb fs path2 deployment_id'
              timezone_name' doc' fixed_offset' w2) as [r w3] eqn:H2.
  exists r, w3. split; [reflexivity|].
  apply (known_hash_adds_nothing _ _ _ _ _ _ _ _ _ Hfs2) with (2 := H2).
  rewrite Hsha. subst w2. apply hash_is_kept.
  destruct (ingest_ok_parses _ _ _ _ _ _ _ H1)
    as (f & m & d & Hf & Hparse & Hreg).
  rewrite Hfs1 in Hf. injection Hf as <-.
  destruct (ingest_outcomes _ _ _ _ _ _ _ _ _ _ _ _ H1)
    as [[_ Hwhy]
       |[(f' & m' & d' & Hf' & _ & _ & Hsaved & Hdup & Hfl & Hr)
        |(f' & m' & d' & frow & new & Hf' & _ & _ & _ & Hfl & Hfsha & Hr
          & _ & Hsf & Hsr)]].
  - rewrite Hfs1, Hparse, Hreg in Hwhy. discriminate Hwhy.
  - rewrite Hfs1 in Hf'. injection Hf' as <-.
    right. split; [split; [rewrite Hsaved; tauto|rewrite Hsaved; reflexivity]|].
    rewrite Hsaved, Hfl. exact Hdup.
  - rewrite Hfs1 in Hf'. injection Hf' as <-.
    assert (Hcur : exists row, In row (files _ (cur w1))
                               /\ sha256 row = sha256_hex f1).
    { exists frow. split; [|exact Hfsha]. rewrite Hfl.
      apply in_or_app. right. left. reflexivity. }
    destruct Hwhen as [Hno|[Hmore|(row & Hin & Hrow)]].
    + left. split; [exact Hno|exact Hcur].
    + right. destruct (decide (new = [])) as [->|Hne].
      { rewrite app_nil_r in Hr. contradiction. }
      split; [split; [rewrite Hsf; tauto|exact Hsr]|].
      rewrite Hsf. exact Hcur.
    + right. destruct (decide (new = [])) as [->|Hne].
      * split; [split; [|exact Hsr]|].
        -- rewrite Hsf, Hfl. intros x Hx. apply in_or_app. left. exact Hx.
        -- rewrite Hsf. exists row. split; [exact Hin|exact Hrow].
      * split; [split; [rewrite Hsf; tauto|exact Hsr]|].
        rewrite Hsf. exact Hcur.
Qed.

End LaterCalls.

(** ** The further properties on the sample data *)

Lemma get_or_create_sensor_is_stable_witness :
  let w1 := snd (get_or_create_sensor antenna_metadata (Some "Antenna")
                   empty_world) in
  get_or_create_sensor antenna_metadata (Some "Antenna") empty_world
  = (Ok 1, w1)
  /\ get_or_create_sensor antenna_metadata (Some "Antenna") w1 = (Ok 1, w1).
Proof.
  intros w1.
  assert (H : get_or_create_sensor antenna_metadata (Some "Antenna")
                empty_world = (Ok 1, w1)) by reflexivity.
  split; [exact H|].
  exact (get_or_create_sensor_is_stable _ antenna_metadata (Some "Antenna")
           empty_world w1 1 H).
Defined.

Lemma labelled_sensor_is_kept_witness :
  let s := mk_sensor 1 "ibutton_ds1925" "DS1925L" "ABC123" (Some "Antenna") in
  let w' := snd (get_or_create_sensor antenna_metadata (Some "Mast")
                   after_first_ingest) in
  NoDup (map sensor_id (sensors _ (current _ (conn _ after_first_ingest))))
  /\ In s (sensors _ (current _ (conn _ after_first_ingest)))
  /\ Py.truthy_opt (label s) = true
  /\ In s (sensors _ (current _ (conn _ w'))).
Proof.
  intros s w'.
  assert (Hnd : NoDup (map sensor_id
                         (sensors _ (current _ (conn _ after_first_ingest))))).
  { vm_compute. apply NoDup_singleton. }
  assert (Hin : In s (sensors _ (current _ (conn _ after_first_ingest)))).
  { vm_compute. left. reflexivity. }
  split; [exact Hnd|]. split; [exact Hin|]. split; [reflexivity|].
  apply (labelled_sensor_is_kept _ antenna_metadata (Some "Mast")
           after_first_ingest w'
           (fst (get_or_create_sensor antenna_metadata (Some "Mast")
                   after_first_ingest)) s Hnd Hin eq_refl).
  apply surjective_pairing.
Defined.

Lemma upsert_sensor_deployment_overwrites_witness :
  let w' := snd (upsert_sensor_deployment 1 1 (Some "roof") None
                   after_first_ingest) in
  upsert_sensor_deployment 1 1 (Some "roof") None after_first_ingest
  = (Ok tt, w')
  /\ sensor_deployments _ (current _ (conn _ after_first_ingest))
     = [mk_sensor_deployment 1 1 (Some "mast") (Some "north side")]
  /\ forall r, In r (sensor_deployments _ (current _ (conn _ w'))) ->
               sd_sensor_id r = 1 -> sd_deployment_id r = 1 ->
               r = mk_sensor_deployment 1 1 (Some "roof") None.
Proof.
  intros w'.
  assert (H : upsert_sensor_deployment 1 1 (Some "roof") None
                after_first_ingest = (Ok tt, w')) by reflexivity.
  split; [exact H|]. split; [reflexivity|].
  exact (proj1 (upsert_sensor_deployment_overwrites _ 1 1 (Some "roof") None
                  after_first_ingest w' H)).
Defined.

Lemma existing_deployment_keeps_site_and_zone_witness :
  let row := mk_deployment 1 "Test_2025" "TestSite" "America/New_York" None in
  find (fun r => String.eqb (name r) "Test_2025")
    (deployments _ (current _ (conn _ after_deployment))) = Some row
  /\ exists w',
       get_or_create_deployment "Test_2025" "Elsewhere" "Asia/Tokyo"
         (Some "second visit") after_deployment = (Ok 1, w')
       /\ map (fun r => (deployment_id r, name r, site r, timezone_name r))
            (deployments _ (current _ (conn _ w')))
          = [(1, "Test_2025", "TestSite", "America/New_York")].
Proof.
  intros row.
  assert (H : find (fun r => String.eqb (name r) "Test_2025")
                (deployments _ (current _ (conn _ after_deployment)))
              = Some row) by reflexivity.
  split; [exact H|].
  destruct (existing_deployment_keeps_site_and_zone _ "Test_2025" "Elsewhere"
              "Asia/Tokyo" (Some "second visit") after_deployment row H)
    as (w' & Hrun & Hsame & _).
  exists w'. split; [exact Hrun|]. rewrite Hsame. reflexivity.
Defined.

Lemma every_data_row_is_stored_warned_or_skipped_witness :
  sample_fs "data/Antenna_iButton_Dec2025.csv" = Some antenna_csv
  /\ parse_ibutton_header "data/Antenna_iButton_Dec2025.csv" antenna_csv
     = Ok (antenna_metadata, 3)
  /\ Py.is_empty (registration_number_of antenna_metadata) = false
  /\ exists w' new msgs,
       ingest_csv_file sample_float sample_tzdb sample_fs
         "data/Antenna_iButton_Dec2025.csv" 1 "America/New_York" sample_doc
         None empty_world = (Ok tt, w')
       /\ temperature_readings _ (current _ (conn _ w')) = new
       /\ List.filter is_row_warning (console _ w') = msgs
       /\ length new = 2%nat /\ length msgs = 1%nat.
Proof.
  assert (Hparse : parse_ibutton_header "data/Antenna_iButton_Dec2025.csv"
                     antenna_csv = Ok (antenna_metadata, 3))
    by (vm_compute; reflexivity).
  assert (Hreg : Py.is_empty (registration_number_of antenna_metadata) = false)
    by (vm_compute; reflexivity).
  split; [reflexivity|]. split; [exact Hparse|]. split; [exact Hreg|].
  destruct (every_data_row_is_stored_warned_or_skipped (Z * nat) sample_float
              sample_tzdb sample_fs empty_world
              "data/Antenna_iButton_Dec2025.csv" antenna_csv 1
              "America/New_York" sample_doc None antenna_metadata 3
              eq_refl Hparse Hreg ltac:(intros row []))
    as (w' & sid & frow & new & msgs & Hrun & _ & Hread & Hwarn & Hn & Hm & _).
  exists w', new, msgs. split; [exact Hrun|]. split; [exact Hread|].
  split; [exact Hwarn|]. split; [exact Hn|exact Hm].
Defined.

Lemma file_without_readings_is_not_committed_witness :
  sample_fs "data/Antenna_iButton_Dec2025.csv" = Some antenna_csv
  /\ count_class sample_float sample_tzdb "Mars/Olympus" None WellFormed
       (drop 3 (rows antenna_csv)) = 0%nat
  /\ exists w' frow,
       ingest_csv_file sample_float sample_tzdb sample_fs
         "data/Antenna_iButton_Dec2025.csv" 1 "Mars/Olympus" sample_doc
         None empty_world = (Ok tt, w')
       /\ In frow (files _ (current _ (conn _ w')))
       /\ sha256 frow = "9f2c"
       /\ forall row, In row (files _ (committed _ (conn _ w'))) ->
                      sha256 row <> "9f2c".
Proof.
  assert (Hparse : parse_ibutton_header "data/Antenna_iButton_Dec2025.csv"
                     antenna_csv = Ok (antenna_metadata, 3))
    by (vm_compute; reflexivity).
  assert (Hreg : Py.is_empty (registration_number_of antenna_metadata) = false)
    by (vm_compute; reflexivity).
  assert (Hzero : count_class sample_float sample_tzdb "Mars/Olympus" None
                    WellFormed (drop (Z.to_nat 3) (rows antenna_csv)) = 0%nat)
    by (vm_compute; reflexivity).
  split; [reflexivity|]. split; [exact Hzero|].
  destruct (file_without_readings_is_not_committed (Z * nat) sample_float
              sample_tzdb sample_fs empty_world
              "data/Antenna_iButton_Dec2025.csv" antenna_csv 1
              "Mars/Olympus" sample_doc None antenna_metadata 3
              eq_refl Hparse Hreg ltac:(intros row []) Hzero)
    as (w' & frow & Hrun & Hin & Hsha & _ & Hnot).
  exists w', frow. split; [exact Hrun|]. split; [exact Hin|].
  split; [exact Hsha|exact Hnot].
Defined.

Lemma ingest_keeps_unique_keys_witness :
  let run := ingest_csv_file sample_float sample_tzdb sample_fs
               "data/Antenna_iButton_Dec2025.csv" 1 "America/New_York"
               sample_doc None empty_world in
  unique_keys (current _ (conn _ empty_world))
  /\ unique_keys (current _ (conn _ (snd run))).
Proof.
  intros run.
  assert (Hk : unique_keys (current _ (conn _ empty_world))).
  { repeat split; vm_compute; apply NoDup_nil_2. }
  split; [exact Hk|].
  apply (ingest_keeps_unique_keys (Z * nat) sample_float sample_tzdb sample_fs
           empty_world (snd run) "data/Antenna_iButton_Dec2025.csv" 1
           "America/New_York" sample_doc None (fst run) Hk).
  apply surjective_pairing.
Defined.


Lemma batch_survives_every_file_witness :
  exists w',
    ingest_files sample_float sample_tzdb sample_fs
      ["data/anonymous.csv"; "data/missing.csv";
       "data/Antenna_iButton_Dec2025.csv"]
      1 "America/New_York" sample_doc None empty_world = (Ok tt, w')
    /\ (length (temperature_readings _ (current _ (conn _ empty_world)))
        <= length (temperature_readings _ (current _ (conn _ w'))))%nat.
Proof.
  destruct (batch_survives_every_file (Z * nat) sample_float sample_tzdb
              sample_fs 1 "America/New_York" sample_doc None
              ["data/anonymous.csv"; "data/missing.csv";
               "data/Antenna_iButton_Dec2025.csv"] empty_world)
    as (w' & Hrun & _ & _ & Hlen).
  exists w'. split; [exact Hrun|exact Hlen].
Defined.

Lemma main_runs_to_completion_witness :
  let args := mk_arguments None None default_timezone None in
  (exists w',
      main sample_float sample_tzdb sample_fs args
        ["data/anonymous.csv"; "data/Antenna_iButton_Dec2025.csv"]
        sample_doc empty_world = (Ok (Some tt), w')
      /\ exists row, In row (deployments _ (current _ (conn _ w')))
                     /\ name row = "Test_2025")
  /\ main sample_float sample_tzdb sample_fs args
       ["data/Antenna_iButton_Dec2025.csv"] no_metadata empty_world
     = (Ok None, mk_world (conn _ empty_world) [MissingDeploymentOrSite]).
Proof.
  intros args. split.
  - destruct (main_runs_to_completion (Z * nat) sample_float sample_tzdb
                sample_fs args
                ["data/anonymous.csv"; "data/Antenna_iButton_Dec2025.csv"]
                sample_doc empty_world)
      as (w' & Hrun & (row & Hin & Hname) & _).
    exists w'. split; [exact Hrun|]. exists row. split; [exact Hin|].
    injection Hname as ->. reflexivity.
  - exact (main_runs_to_completion (Z * nat) sample_float sample_tzdb
             sample_fs args ["data/Antenna_iButton_Dec2025.csv"]
             no_metadata empty_world).
Defined.


Lemma header_ends_at_first_data_header_witness :
  let pre := [["Part Number"; "DS1925L"]; ["Registration Number"; "ABC123"]] in
  let rest := [["12/31/24 11:59:59 PM"; "C"; "-5.25"];
               ["Date/Time"; "Unit"; "Value"];
               ["01/01/25 12:00:00 AM"; "C"; "-5.10"]] in
  let f := mk_csv_file (pre ++ ["  DATE/Time "; "Unit"; "Value"] :: rest)
             "11bb" in
  parse_ibutton_header "x.csv" f = Ok (antenna_metadata, 3)
  /\ drop 3 (rows f) = rest.
Proof.
  intros pre rest f.
  destruct (header_ends_at_first_data_header "x.csv" "11bb" pre rest
              ["  DATE/Time "; "Unit"; "Value"]
              ltac:(repeat constructor) eq_refl) as [Hparse Hdata].
  split; [|exact Hdata].
  etransitivity; [exact Hparse|]. vm_compute. reflexivity.
Defined.

Lemma file_without_data_header_is_refused_witness :
  parse_ibutton_header "x.csv"
    (mk_csv_file [["Part Number"; "DS1925L"];
                  ["12/31/24 11:59:59 PM"; "C"; "-5.25"]] "22cc")
  = Raise (ValueError "Could not find data section in x.csv").
Proof.
  apply (file_without_data_header_is_refused "x.csv"
           (mk_csv_file [["Part Number"; "DS1925L"];
                         ["12/31/24 11:59:59 PM"; "C"; "-5.25"]] "22cc")).
  repeat constructor.
Defined.

Lemma last_header_row_wins_witness :
  let before_row := [["Registration Number"; "OLD000"]; []] in
  let row := ["Registration Number: ABC123 "] in
  let after_row := [["Part Number"; "DS1925L"]; ["no colon here"]] in
  header_entry row = Some ("Registration Number", "ABC123")
  /\ exists metadata line,
       parse_ibutton_header "x.csv"
         (mk_csv_file ((before_row ++ row :: after_row)
                       ++ ["Date Time"; "Unit"; "Value"] :: []) "33dd")
       = Ok (metadata, line)
       /\ metadata !! "Registration Number" = Some "ABC123".
Proof.
  intros before_row row after_row.
  assert (Hrow : header_entry row = Some ("Registration Number", "ABC123"))
    by reflexivity.
  split; [exact Hrow|].
  destruct (last_header_row_wins "x.csv" "33dd" before_row after_row [] row
              ["Date Time"; "Unit"; "Value"] "Registration Number" "ABC123"
              ltac:(repeat constructor) eq_refl Hrow
              ltac:(repeat constructor; intros v' H; vm_compute in H;
                    discriminate H))
    as (metadata & line & Hparse & Hk & _).
  exists metadata, line. split; [exact Hparse|exact Hk].
Defined.

(** Noon on 4 July 2024 in New York is 16:00:00 UTC. *)
Lemma zone_time_round_trip_witness :
  let dt := Datetime.mk_datetime 2024 7 4 12 0 0 in
  try_formats "07/04/24 12:00:00 PM" formats = Ok (Some dt)
  /\ ZoneInfo.well_formed new_york = true
  /\ local_to_utc sample_tzdb "07/04/24 12:00:00 PM" "America/New_York" None
     = Ok 1720108800
  /\ ZoneInfo.to_local new_york 1720108800 = Datetime.naive_seconds dt.
Proof.
  intros dt.
  assert (Hparse : try_formats "07/04/24 12:00:00 PM" formats = Ok (Some dt))
    by reflexivity.
  destruct (zone_time_round_trip sample_tzdb "07/04/24 12:00:00 PM"
              "America/New_York" None new_york dt
              [(1710054000, -14400)]
              [(1730613600, -18000); (1741503600, -14400)]
              Hparse eq_refl eq_refl eq_refl eq_refl
              ltac:(repeat constructor; vm_compute; congruence)
              ltac:(intros t' o' post' [= <- <- <-]; vm_compute; reflexivity))
    as (t & Hres & Ht & Hloc).
  assert (Hval : t = 1720108800) by (rewrite Ht; vm_compute; reflexivity).
  rewrite Hval in Hres, Hloc.
  split; [exact Hparse|]. split; [reflexivity|].
  split; [exact Hres|exact Hloc].
Defined.

(** 02:30:00 on 10 March 2024 does not exist in New York; the
    normaliser answers 06:30:00 UTC, which is 01:30:00 there. *)
Lemma spring_forward_gap_is_not_a_round_trip_witness :
  let dt := Datetime.mk_datetime 2024 3 10 2 30 0 in
  try_formats "03/10/24 02:30:00 AM" formats = Ok (Some dt)
  /\ ZoneInfo.well_formed new_york = true
  /\ -18000 < -14400
  /\ 1710054000 + -18000 <= Datetime.naive_seconds dt < 1710054000 + -14400
  /\ local_to_utc sample_tzdb "03/10/24 02:30:00 AM" "America/New_York" None
     = Ok 1710052200
  /\ 1710052200 < 1710054000
  /\ ZoneInfo.to_local new_york 1710052200
     = Datetime.naive_seconds dt - 3600.
Proof.
  intros dt.
  assert (Hparse : try_formats "03/10/24 02:30:00 AM" formats = Ok (Some dt))
    by reflexivity.
  assert (Hjump : -18000 < -14400) by reflexivity.
  assert (HL : 1710054000 + -18000 <= Datetime.naive_seconds dt
               < 1710054000 + -14400) by (vm_compute; split; congruence).
  destruct (spring_forward_gap_is_not_a_round_trip sample_tzdb
              "03/10/24 02:30:00 AM" "America/New_York" None new_york dt
              [] [(1730613600, -18000); (1741503600, -14400)]
              1710054000 (-14400)
              Hparse eq_refl eq_refl eq_refl eq_refl Hjump HL
              ltac:(constructor)
              ltac:(intros t' o' post' [= <- <- <-]; vm_compute; congruence))
    as (t & Hres & Ht & Hlt & Hloc).
  assert (Hval : t = 1710052200) by (rewrite Ht; vm_compute; reflexivity).
  rewrite Hval in Hres, Hlt, Hloc.
  split; [exact Hparse|]. split; [reflexivity|]. split; [exact Hjump|].
  split; [exact HL|]. split; [exact Hres|]. split; [exact Hlt|exact Hloc].
Defined.

Lemma unknown_time_zone_stores_no_reading_witness :
  sample_tzdb "Mars/Olympus" = None
  /\ exists w' msgs,
       ingest_csv_file sample_float sample_tzdb sample_fs
         "data/Antenna_iButton_Dec2025.csv" 1 "Mars/Olympus" sample_doc
         None empty_world = (Ok tt, w')
       /\ temperature_readings _ (current _ (conn _ w')) = []
       /\ console _ w'
          = ([Parsing "Antenna_iButton_Dec2025.csv"] ++ msgs
             ++ [NoValidReadings "Antenna_iButton_Dec2025.csv"])%list
       /\ length msgs = 3%nat.
Proof.
  assert (Hparse : parse_ibutton_header "data/Antenna_iButton_Dec2025.csv"
                     antenna_csv = Ok (antenna_metadata, 3))
    by (vm_compute; reflexivity).
  assert (Hreg : Py.is_empty (registration_number_of antenna_metadata) = false)
    by (vm_compute; reflexivity).
  split; [reflexivity|].
  destruct (unknown_time_zone_stores_no_reading (Z * nat) sample_float
              sample_tzdb sample_fs empty_world
              "data/Antenna_iButton_Dec2025.csv" antenna_csv 1
              "Mars/Olympus" sample_doc None antenna_metadata 3
              eq_refl Hparse Hreg ltac:(intros row []) eq_refl eq_refl)
    as (w' & msgs & Hrun & Hread & Hcons & _ & Hlen & _).
  exists w', msgs. split; [exact Hrun|]. split; [exact Hread|].
  split; [exact Hcons|].
  assert (Hskip : count_class sample_float sample_tzdb "Mars/Olympus" None
                    Skipped (drop (Z.to_nat 3) (rows antenna_csv)) = 0%nat)
    by (vm_compute; reflexivity).
  rewrite Hskip in Hlen. rewrite Nat.add_0_r in Hlen. exact Hlen.
Defined.

Lemma unreadable_fixed_offset_stores_no_reading_witness :
  Py.truthy "-0400" = true
  /\ parse_offset_fields "-0400"
     = Raise (ValueError "cannot unpack hours and minutes")
  /\ exists w' msgs,
       ingest_csv_file sample_float sample_tzdb sample_fs
         "data/Antenna_iButton_Dec2025.csv" 1 "America/New_York" sample_doc
         (Some "-0400") empty_world = (Ok tt, w')
       /\ temperature_readings _ (current _ (conn _ w')) = []
       /\ console _ w'
          = ([Parsing "Antenna_iButton_Dec2025.csv"] ++ msgs
             ++ [NoValidReadings "Antenna_iButton_Dec2025.csv"])%list.
Proof.
  assert (Hparse : parse_ibutton_header "data/Antenna_iButton_Dec2025.csv"
                     antenna_csv = Ok (antenna_metadata, 3))
    by (vm_compute; reflexivity).
  assert (Hreg : Py.is_empty (registration_number_of antenna_metadata) = false)
    by (vm_compute; reflexivity).
  split; [reflexivity|]. split; [reflexivity|].
  destruct (unreadable_fixed_offset_stores_no_reading (Z * nat) sample_float
              sample_tzdb sample_fs empty_world
              "data/Antenna_iButton_Dec2025.csv" antenna_csv 1
              "America/New_York" sample_doc "-0400" antenna_metadata 3
              eq_refl Hparse Hreg ltac:(intros row []) eq_refl eq_refl)
    as (w' & msgs & Hrun & Hread & Hcons & _).
  exists w', msgs. split; [exact Hrun|]. split; [exact Hread|exact Hcons].
Defined.

Lemma empty_file_is_committed_by_the_next_file_witness :
  count_class sample_float sample_tzdb "Mars/Olympus" None WellFormed
    (drop 3 (rows antenna_csv)) = 0%nat
  /\ exists w1 w2 row_a,
       ingest_csv_file sample_float sample_tzdb sample_fs
         "data/Antenna_iButton_Dec2025.csv" 1 "Mars/Olympus" sample_doc None
         empty_world = (Ok tt, w1)
       /\ ingest_csv_file sample_float sample_tzdb sample_fs
            "data/copy_of_antenna.csv" 1 "Mars/Olympus" sample_doc None w1
          = (Ok tt, w2)
       /\ In row_a (files _ (committed _ (conn _ w2)))
       /\ sha256 row_a = "9f2c"
       /\ exists w3,
            ingest_csv_file sample_float sample_tzdb sample_fs
              "data/Antenna_iButton_Dec2025.csv" 1 "America/New_York"
              sample_doc None w2 = (Ok tt, w3)
            /\ temperature_readings _ (current _ (conn _ w3))
               = temperature_readings _ (current _ (conn _ w2)).
Proof.
  assert (Hparse : forall p, parse_ibutton_header p antenna_csv
                             = Ok (antenna_metadata, 3))
    by (intros p; vm_compute; reflexivity).
  assert (Hreg : Py.is_empty (registration_number_of antenna_metadata) = false)
    by (vm_compute; reflexivity).
  assert (Hzero : count_class sample_float sample_tzdb "Mars/Olympus" None
                    WellFormed (drop (Z.to_nat 3) (rows antenna_csv)) = 0%nat)
    by (vm_compute; reflexivity).
  split; [exact Hzero|].
  destruct (empty_file_is_committed_by_the_next_file (Z * nat) sample_float
              sample_tzdb sample_fs empty_world
              "data/Antenna_iButton_Dec2025.csv" "data/copy_of_antenna.csv"
              antenna_csv antenna_csv 1 "Mars/Olympus" sample_doc None
              antenna_metadata antenna_metadata 3 3
              eq_refl eq_refl (Hparse _) (Hparse _) Hreg Hreg
              ltac:(intros row []) Hzero)
    as (w1 & w2 & row_a & Hrun_a & _ & Hrun_b & Hin & Hsha & _ & Hlater).
  destruct (Hlater 1 "America/New_York" sample_doc None)
    as (w3 & Hrun_c & _ & _ & Hread).
  exists w1, w2, row_a. split; [exact Hrun_a|]. split; [exact Hrun_b|].
  split; [exact Hin|]. split; [exact Hsha|].
  exists w3. split; [exact Hrun_c|exact Hread].
Defined.

Lemma ingest_keeps_references_resolved_witness :
  let run := ingest_csv_file sample_float sample_tzdb sample_fs
               "data/Antenna_iButton_Dec2025.csv" 1 "America/New_York"
               sample_doc None after_deployment in
  references_resolve (current _ (conn _ after_deployment))
  /\ In 1 (map deployment_id
             (deployments _ (current _ (conn _ after_deployment))))
  /\ length (temperature_readings _ (current _ (conn _ (snd run)))) = 2%nat
  /\ references_resolve (current _ (conn _ (snd run))).
Proof.
  intros run.
  assert (Href : references_resolve (current _ (conn _ after_deployment))).
  { repeat split; constructor. }
  assert (Hdep : In 1 (map deployment_id
                         (deployments _ (current _ (conn _ after_deployment)))))
    by (left; reflexivity).
  split; [exact Href|]. split; [exact Hdep|]. split; [reflexivity|].
  apply (ingest_keeps_references_resolved (Z * nat) sample_float sample_tzdb
           sample_fs after_deployment (snd run)
           "data/Antenna_iButton_Dec2025.csv" 1 "America/New_York"
           sample_doc None (fst run) Href Hdep).
  apply surjective_pairing.
Defined.

Lemma main_keeps_references_resolved_witness :
  let args := mk_arguments None None default_timezone None in
  let run := main sample_float sample_tzdb sample_fs args
               ["data/anonymous.csv"; "data/Antenna_iButton_Dec2025.csv"]
               sample_doc empty_world in
  references_resolve (current _ (conn _ empty_world))
  /\ length (temperature_readings _ (current _ (conn _ (snd run)))) = 2%nat
  /\ references_resolve (current _ (conn _ (snd run))).
Proof.
  intros args run.
  assert (Href : references_resolve (current _ (conn _ empty_world))).
  { repeat split; constructor. }
  split; [exact Href|]. split; [reflexivity|].
  apply (main_keeps_references_resolved (Z * nat) sample_float sample_tzdb
           sample_fs args
           ["data/anonymous.csv"; "data/Antenna_iButton_Dec2025.csv"]
           sample_doc empty_world (snd run) (fst run) Href).
  apply surjective_pairing.
Defined.

Lemma rerun_stores_no_reading_twice_witness :
  let args := mk_arguments None None default_timezone None in
  let csv_files := ["data/Antenna_iButton_Dec2025.csv"; "data/anonymous.csv";
                    "data/copy_of_antenna.csv"] in
  let run1 := run_script sample_float sample_tzdb sample_fs args csv_files
                sample_doc empty_world in
  let run2 := run_script sample_float sample_tzdb sample_fs args csv_files
                sample_doc (snd run1) in
  committed _ (conn _ empty_world) = current _ (conn _ empty_world)
  /\ length (temperature_readings _ (current _ (conn _ (snd run1)))) = 2%nat
  /\ temperature_readings _ (current _ (conn _ (snd run2)))
     = temperature_readings _ (current _ (conn _ (snd run1))).
Proof.
  intros args csv_files run1 run2.
  split; [reflexivity|]. split; [reflexivity|].
  apply (rerun_stores_no_reading_twice (Z * nat) sample_float sample_tzdb
           sample_fs args csv_files sample_doc empty_world (snd run1)
           (snd run2) (fst run1) (fst run2) eq_refl).
  - apply surjective_pairing.
  - apply surjective_pairing.
Defined.

Lemma fixed_offset_keeps_durations_witness :
  let dt1 := Datetime.mk_datetime 2024 11 3 0 30 0 in
  let dt2 := Datetime.mk_datetime 2024 11 3 2 30 0 in
  Py.truthy "-04:00" = true
  /\ try_formats "11/03/24 12:30:00 AM" formats = Ok (Some dt1)
  /\ try_formats "11/03/24 02:30:00 AM" formats = Ok (Some dt2)
  /\ local_to_utc sample_tzdb "11/03/24 12:30:00 AM" "America/New_York"
       (Some "-04:00") = Ok 1730608200
  /\ local_to_utc sample_tzdb "11/03/24 02:30:00 AM" "America/New_York"
       (Some "-04:00") = Ok 1730615400
  /\ 1730615400 - 1730608200
     = Datetime.naive_seconds dt2 - Datetime.naive_seconds dt1.
Proof.
  intros dt1 dt2.
  do 5 (split; [reflexivity|]).
  exact (proj1 (fixed_offset_keeps_durations sample_tzdb
                  "11/03/24 12:30:00 AM" "11/03/24 02:30:00 AM"
                  "America/New_York" "America/New_York" "-04:00" dt1 dt2
                  1730608200 1730615400 eq_refl eq_refl eq_refl eq_refl
                  eq_refl)).
Defined.

Lemma stored_readings_are_the_rows_that_convert_witness :
  sample_fs "data/Antenna_iButton_Dec2025.csv" = Some antenna_csv
  /\ exists w',
       ingest_csv_file sample_float sample_tzdb sample_fs
         "data/Antenna_iButton_Dec2025.csv" 1 "America/New_York" sample_doc
         None empty_world = (Ok tt, w')
       /\ map (fun r => (time_local_text _ r, time_utc _ r))
            (temperature_readings _ (current _ (conn _ w')))
          = [("12/31/24 11:59:59 PM", 1735707599);
             ("01/01/25 12:00:00 AM", 1735707600)].
Proof.
  assert (Hparse : parse_ibutton_header "data/Antenna_iButton_Dec2025.csv"
                     antenna_csv = Ok (antenna_metadata, 3))
    by (vm_compute; reflexivity).
  assert (Hreg : Py.is_empty (registration_number_of antenna_metadata) = false)
    by (vm_compute; reflexivity).
  split; [reflexivity|].
  destruct (stored_readings_are_the_rows_that_convert (Z * nat) sample_float
              sample_tzdb sample_fs empty_world
              "data/Antenna_iButton_Dec2025.csv" antenna_csv 1
              "America/New_York" sample_doc None antenna_metadata 3
              eq_refl Hparse Hreg ltac:(intros row []))
    as (w' & sid & frow & Hrun & _ & _ & Hread).
  exists w'. split; [exact Hrun|]. rewrite Hread.
  vm_compute. reflexivity.
Defined.

(** The sample file was first ingested under a name without the marker,
    so its sensor has no label; the same file under the name with the
    marker is skipped, and the sensor gets the label [Antenna] and its
    place in the deployment the location and notes of the document. *)
Lemma duplicate_file_is_skipped_witness :
  let w := after_unlabelled_ingest in
  sample_fs "data/Antenna_iButton_Dec2025.csv" = Some antenna_csv
  /\ (exists row, In row (files _ (current _ (conn _ w)))
                  /\ sha256 row = sha256_hex antenna_csv)
  /\ sensors _ (current _ (conn _ w))
     = [mk_sensor 1 "ibutton_ds1925" "DS1925L" "ABC123" None]
  /\ sensor_deployments _ (current _ (conn _ w))
     = [mk_sensor_deployment 1 1 None None]
  /\ exists w',
       ingest_csv_file sample_float sample_tzdb sample_fs
         "data/Antenna_iButton_Dec2025.csv" 1 "America/New_York" sample_doc
         None w = (Ok tt, w')
       /\ files _ (current _ (conn _ w')) = files _ (current _ (conn _ w))
       /\ temperature_readings _ (current _ (conn _ w'))
          = temperature_readings _ (current _ (conn _ w))
       /\ sensors _ (current _ (conn _ w'))
          = [mk_sensor 1 "ibutton_ds1925" "DS1925L" "ABC123" (Some "Antenna")]
       /\ sensor_deployments _ (current _ (conn _ w'))
          = [mk_sensor_deployment 1 1 (Some "mast") (Some "north side")]
       /\ committed _ (conn _ w') = current _ (conn _ w').
Proof.
  intros w.
  assert (Hdup : exists row,
             In row (files _ (current _ (conn _ w)))
             /\ sha256 row = sha256_hex antenna_csv).
  { eexists. split; [left; reflexivity|reflexivity]. }
  assert (Hparse : parse_ibutton_header "data/Antenna_iButton_Dec2025.csv"
                     antenna_csv = Ok (antenna_metadata, 3))
    by (vm_compute; reflexivity).
  assert (Hreg : Py.is_empty (registration_number_of antenna_metadata) = false)
    by (vm_compute; reflexivity).
  split; [reflexivity|]. split; [exact Hdup|].
  split; [reflexivity|]. split; [reflexivity|].
  destruct (duplicate_file_is_skipped (Z * nat) sample_float sample_tzdb
              sample_fs w "data/Antenna_iButton_Dec2025.csv"
              antenna_csv 1 "America/New_York" sample_doc None eq_refl Hdup)
    as (r & w' & Hrun & Hfiles & Hreadings & Hrest).
  destruct (Hrest antenna_metadata 3 Hparse Hreg)
    as (-> & Hcur & Hcomm & _).
  exists w'. split; [exact Hrun|]. split; [exact Hfiles|].
  split; [exact Hreadings|]. rewrite Hcomm, Hcur.
  split; [vm_compute; reflexivity|]. split; [vm_compute; reflexivity|].
  reflexivity.
Defined.

Lemma early_errors_leave_store_untouched_witness :
  let run p := ingest_csv_file sample_float sample_tzdb sample_fs p 1
                 "America/New_York" sample_doc None after_first_ingest in
  sample_fs "data/missing.csv" = None
  /\ sample_fs "data/anonymous.csv" = Some anonymous_csv
  /\ run "data/missing.csv"
     = (Raise (FileNotFoundError "CSV file not found: data/missing.csv"),
        after_first_ingest)
  /\ fst (run "data/anonymous.csv")
     = Raise (ValueError "Registration number not found in metadata")
  /\ conn _ (snd (run "data/anonymous.csv")) = conn _ after_first_ingest.
Proof.
  intros run.
  destruct (early_errors_leave_store_untouched (Z * nat) sample_float
              sample_tzdb sample_fs after_first_ingest "data/missing.csv" 1
              "America/New_York" sample_doc None) as (Hmissing & _ & _).
  destruct (early_errors_leave_store_untouched (Z * nat) sample_float
              sample_tzdb sample_fs after_first_ingest "data/anonymous.csv" 1
              "America/New_York" sample_doc None) as (_ & _ & Hreg).
  split; [reflexivity|]. split; [reflexivity|].
  split; [exact (Hmissing eq_refl)|].
  assert (Hparse : parse_ibutton_header "data/anonymous.csv" anonymous_csv
                   = Ok (<["Part Number" := "DS1925L"]> ∅, 2))
    by (vm_compute; reflexivity).
  subst run. cbv beta.
  rewrite (Hreg anonymous_csv _ 2 eq_refl Hparse ltac:(vm_compute; reflexivity)).
  split; reflexivity.
Defined.

(** The sample file is ingested on an empty store; the connection is
    closed, [main] runs on another file, the connection is closed
    again; then the same content under another name, for another
    deployment, zone and offset, adds nothing. *)
Lemma second_ingestion_adds_nothing_witness :
  let ops := [Reopen;
              Main (mk_arguments None None default_timezone None)
                ["data/anonymous.csv"] sample_doc;
              Reopen] in
  let w2 := perform_all sample_float sample_tzdb sample_fs ops
              after_first_ingest in
  sample_fs "data/Antenna_iButton_Dec2025.csv" = Some antenna_csv
  /\ sample_fs "data/copy_of_antenna.csv" = Some antenna_csv
  /\ ingest_csv_file sample_float sample_tzdb sample_fs
       "data/Antenna_iButton_Dec2025.csv" 1 "America/New_York" sample_doc
       None empty_world = (Ok tt, after_first_ingest)
  /\ temperature_readings _ (current _ (conn _ after_first_ingest))
     <> temperature_readings _ (current _ (conn _ empty_world))
  /\ length (temperature_readings _ (current _ (conn _ w2))) = 2%nat
  /\ exists r w3,
       ingest_csv_file sample_float sample_tzdb sample_fs
         "data/copy_of_antenna.csv" 2 "Asia/Tokyo" no_metadata
         (Some "+09:00") w2 = (r, w3)
       /\ files _ (current _ (conn _ w3)) = files _ (current _ (conn _ w2))
       /\ temperature_readings _ (current _ (conn _ w3))
          = temperature_readings _ (current _ (conn _ w2)).
Proof.
  intros ops w2.
  assert (H1 : ingest_csv_file sample_float sample_tzdb sample_fs
                 "data/Antenna_iButton_Dec2025.csv" 1 "America/New_York"
                 sample_doc None empty_world = (Ok tt, after_first_ingest))
    by (vm_compute; reflexivity).
  assert (Hmore : temperature_readings _ (current _ (conn _ after_first_ingest))
                  <> temperature_readings _ (current _ (conn _ empty_world))).
  { vm_compute. discriminate. }
  split; [reflexivity|]. split; [reflexivity|]. split; [exact H1|].
  split; [exact Hmore|]. split; [reflexivity|].
  exact (second_ingestion_adds_nothing (Z * nat) sample_float sample_tzdb
           sample_fs empty_world after_first_ingest
           "data/Antenna_iButton_Dec2025.csv" "data/copy_of_antenna.csv"
           antenna_csv antenna_csv 1 2 "America/New_York" "Asia/Tokyo"
           sample_doc no_metadata None (Some "+09:00") ops
           eq_refl eq_refl eq_refl H1 (or_intror (or_introl Hmore))).
Defined.
